(** * OID4VCI / SIOP-OID4VP: trust-verifier resolution and credential-offer
      utilities, embedded from the TypeScript sources.

    - [Js]: the JavaScript values, string methods and exceptions the sources
      rely on.
    - [Json], [Uri]: the serialisation built-ins used by the offer URI.
    - [JwtVerifier]: [packages/siop-oid4vp/lib/types/JwtVerifier.ts].
    - [CredentialOfferUtils]: [packages/issuer/lib/functions/CredentialOfferUtils.ts].
    - [CredentialRequestUtil]: [packages/common/lib/functions/CredentialRequestUtil.ts].
    - [StateManager]: the in-memory credential-offer session store.
    - [VerifierSpec], [OfferSpec], [StoreSpec], [RequestSpec], [JsonSpec],
      [ResolverSpec], [OfferFlowSpec], [RequestFlowSpec]: the vocabulary of
      the statements and sample inputs.

    The statements follow the definitions, one section per source file. *)

From Stdlib Require Import String Ascii List ZArith Bool Lia.
From Stdlib Require Import DecimalString DecimalFacts DecimalPos DecimalZ.
From stdpp Require Import base gmap strings.

Local Open Scope string_scope.
Local Open Scope list_scope.
Local Set Warnings "-register-all".

(* ===================================================================== *)
(** * JavaScript values, strings and exceptions *)
(* ===================================================================== *)

Module Js.

(** A JavaScript value as the sources see it: what [typeof], truthiness,
    [===] and property reads can observe.  Objects are insertion-ordered
    property lists.  Numbers are the integers (timestamps, counts, lengths);
    a JavaScript number is an IEEE double, and what is computed or printed
    from a number is fixed here only on the safe integers, where doubles are
    exact. *)
Inductive value : Type :=
| JUndefined
| JNull
| JBool (b : bool)
| JNumber (n : Z)
| JString (s : string)
| JArray (items : list value)
| JObject (props : list (string * value)).

Definition obj : Type := list (string * value).

(** [Number.MAX_SAFE_INTEGER], 2^53 - 1. *)
Definition MAX_SAFE_INTEGER : Z := 9007199254740991.

(** [Number.isSafeInteger]: on these integers every double is the integer
    itself, and a sum or product that stays among them is exact. *)
Definition is_safe_integer (n : Z) : bool :=
  (- MAX_SAFE_INTEGER <=? n)%Z && (n <=? MAX_SAFE_INTEGER)%Z.

(** [typeof v]; [typeof null] is ["object"], and so is an array's. *)
Definition typeof (v : value) : string :=
  match v with
  | JUndefined => "undefined"
  | JNull => "object"
  | JBool _ => "boolean"
  | JNumber _ => "number"
  | JString _ => "string"
  | JArray _ => "object"
  | JObject _ => "object"
  end.

(** ToBoolean: the falsy values are undefined, null, false, 0 and the empty
    string. *)
Definition truthy (v : value) : bool :=
  match v with
  | JUndefined | JNull => false
  | JBool b => b
  | JNumber n => negb (n =? 0)%Z
  | JString s => negb (String.eqb s EmptyString)
  | JArray _ | JObject _ => true
  end.

(** Truthiness of an optional string ([string | undefined]). *)
Definition truthy_str (s : option string) : bool :=
  match s with
  | Some s => negb (String.eqb s EmptyString)
  | None => false
  end.

Definition isArray (v : value) : bool :=
  match v with JArray _ => true | _ => false end.

Definition is_string (v : value) : bool :=
  match v with JString _ => true | _ => false end.

(** [v === s] where [s] is statically a [string | undefined]. *)
Definition strict_eq_str (v : value) (s : option string) : bool :=
  match v, s with
  | JString a, Some b => String.eqb a b
  | JUndefined, None => true
  | _, _ => false
  end.

(** [a === b] for two [string | undefined]. *)
Definition opt_str_eqb (a b : option string) : bool :=
  match a, b with
  | Some x, Some y => String.eqb x y
  | None, None => true
  | _, _ => false
  end.

(** Own-property read [o[k]] on a property list. *)
Fixpoint obj_get (k : string) (o : obj) : value :=
  match o with
  | [] => JUndefined
  | (k', v) :: o' => if String.eqb k k' then v else obj_get k o'
  end.

(** Property write [o[k] = v]: an existing key keeps its position, a new key
    is appended. *)
Fixpoint obj_set (k : string) (v : value) (o : obj) : obj :=
  match o with
  | [] => [(k, v)]
  | (k', v') :: o' =>
      if String.eqb k k' then (k, v) :: o' else (k', v') :: obj_set k v o'
  end.

Definition obj_keys (o : obj) : list string := map fst o.

(** [v?.k]: undefined on undefined and null; on any other value an ordinary
    property read (primitives and arrays have no such own property for the
    keys the sources read). *)
Definition opt_get (v : value) (k : string) : value :=
  match v with
  | JObject o => obj_get k o
  | _ => JUndefined
  end.

(** ** String methods *)

Definition startsWith (s pat : string) : bool := String.prefix pat s.

Fixpoint includes (s pat : string) : bool :=
  String.prefix pat s
  || match s with
     | EmptyString => false
     | String _ s' => includes s' pat
     end.

Fixpoint drop (n : nat) (s : string) : string :=
  match n, s with
  | O, _ => s
  | S n', String _ s' => drop n' s'
  | S _, EmptyString => EmptyString
  end.

(** [s.split(sep)] for a non-empty separator; [cur] collects the segment
    being read, [fuel] bounds the scan by the length of the text. *)
Fixpoint split_from (fuel : nat) (sep cur s : string) : list string :=
  match fuel with
  | O => [cur +:+ s]
  | S fuel' =>
      match s with
      | EmptyString => [cur]
      | String c s' =>
          if String.prefix sep s
          then cur :: split_from fuel' sep EmptyString (drop (String.length sep) s)
          else split_from fuel' sep (cur +:+ String c EmptyString) s'
      end
  end.

Definition split (s sep : string) : list string :=
  split_from (S (String.length s)) sep EmptyString s.

(** [s.replace(pat, rep)] with a string pattern: the first occurrence only. *)
Fixpoint replace (s pat rep : string) : string :=
  if String.prefix pat s then rep +:+ drop (String.length pat) s
  else match s with
       | EmptyString => EmptyString
       | String c s' => String c (replace s' pat rep)
       end.

(** ** Exceptions and fallible computations *)

(** The error identifiers of [SIOPErrors] used by the verifier. *)
Inductive SIOPErrors : Type :=
| INVALID_JWT
| INVALID_CLIENT_ID_MUST_MATCH_REDIRECT_URI
| MISSING_ATTESTATION_JWT
| MISSING_ATTESTATION_JWT_TYP
| BAD_VERIFIER_ATTESTATION
| BAD_VERIFIER_ATTESTATION_REDIRECT_URIS
| INVALID_REQUEST_OBJECT_ENTITY_ID_SCHEME_CLIENT_ID
| INVALID_CLIENT_ID_SCHEME.

(** A thrown exception: [new Error(`${SIOPErrors.X}<detail>`)], a plain
    [Error(message)], or the runtime's [TypeError] / [URIError] /
    [SyntaxError]. *)
Inductive exn : Type :=
| SIOPError (code : SIOPErrors) (detail : string)
| Error (message : string)
| TypeError
| URIError
| SyntaxError.

Inductive result (A : Type) : Type :=
| Ok (a : A)
| Throw (e : exn).
Arguments Ok {A} a.
Arguments Throw {A} e.

Definition bind {A B : Type} (r : result A) (k : A -> result B) : result B :=
  match r with
  | Ok a => k a
  | Throw e => Throw e
  end.

End Js.

Import Js.

Notation "'let*' x ':=' r 'in' k" := (Js.bind r (fun x => k))
  (at level 10, x pattern, r at level 100, k at level 200).

(* ===================================================================== *)
(** * The serialisation built-ins: JSON.stringify / JSON.parse *)
(* ===================================================================== *)

Module Json.

(** The quotation mark, reverse solidus and the control characters that
    have a short escape. *)
Definition DQUOTE : ascii := "034"%char.
Definition BACKSLASH : ascii := "092"%char.
Definition BS : ascii := "008"%char.
Definition HT : ascii := "009"%char.
Definition LF : ascii := "010"%char.
Definition FF : ascii := "012"%char.
Definition CR : ascii := "013"%char.

Definition is_control (c : ascii) : bool := (nat_of_ascii c <? 32)%nat.

Definition hex_lower (n : nat) : ascii :=
  ascii_of_nat (if (n <? 10)%nat then 48 + n else 87 + n).

(** QuoteJSONString, one character. *)
Definition quote_char (c : ascii) : string :=
  if Ascii.eqb c DQUOTE then String BACKSLASH (String DQUOTE EmptyString)
  else if Ascii.eqb c BACKSLASH then String BACKSLASH (String BACKSLASH EmptyString)
  else if Ascii.eqb c BS then String BACKSLASH "b"
  else if Ascii.eqb c HT then String BACKSLASH "t"
  else if Ascii.eqb c LF then String BACKSLASH "n"
  else if Ascii.eqb c FF then String BACKSLASH "f"
  else if Ascii.eqb c CR then String BACKSLASH "r"
  else if is_control c
  then String BACKSLASH
         (String "u" (String "0" (String "0"
            (String (hex_lower (nat_of_ascii c / 16))
               (String (hex_lower (nat_of_ascii c mod 16)) EmptyString)))))
  else String c EmptyString.

Fixpoint quote_body (s : string) : string :=
  match s with
  | EmptyString => EmptyString
  | String c s' => quote_char c +:+ quote_body s'
  end.

Definition quote (s : string) : string :=
  String DQUOTE (quote_body s +:+ String DQUOTE EmptyString).

(** The decimal digits of an integer, with a minus sign when negative. *)
Definition string_of_Z (n : Z) : string := NilEmpty.string_of_int (Z.to_int n).

Fixpoint join (sep : string) (l : list string) : string :=
  match l with
  | [] => EmptyString
  | [x] => x
  | x :: l' => x +:+ sep +:+ join sep l'
  end.

Section Numbers.

(** Number::toString outside the safe integers, where the built-in rounds
    to a double and may print an exponent form ([1e+21]): not fixed here. *)
Variable Number_toString : Z -> string.

(** Number::toString: a safe integer is printed as its decimal digits. *)
Definition string_of_number (n : Z) : string :=
  if is_safe_integer n then string_of_Z n else Number_toString n.

(** [JSON.stringify(v)]: [None] is the result [undefined].  An undefined
    array element is written [null]; a property holding undefined is left
    out. *)
Fixpoint stringify (v : value) : option string :=
  match v with
  | JUndefined => None
  | JNull => Some "null"
  | JBool true => Some "true"
  | JBool false => Some "false"
  | JNumber n => Some (string_of_number n)
  | JString s => Some (quote s)
  | JArray l =>
      Some ("[" +:+ join "," (map (fun x => default "null" (stringify x)) l) +:+ "]")
  | JObject o =>
      Some ("{" +:+ join ","
                     (omap (fun kv => match stringify (snd kv) with
                                      | Some t => Some (quote (fst kv) +:+ ":" +:+ t)
                                      | None => None
                                      end) o)
            +:+ "}")
  end.

End Numbers.

Definition is_ws (c : ascii) : bool :=
  Ascii.eqb c " " || Ascii.eqb c HT || Ascii.eqb c LF || Ascii.eqb c CR.

Fixpoint skip_ws (s : string) : string :=
  match s with
  | EmptyString => EmptyString
  | String c s' => if is_ws c then skip_ws s' else s
  end.

Definition hex_value (c : ascii) : option nat :=
  let n := nat_of_ascii c in
  if (48 <=? n)%nat && (n <=? 57)%nat then Some (n - 48)
  else if (97 <=? n)%nat && (n <=? 102)%nat then Some (n - 87)
  else if (65 <=? n)%nat && (n <=? 70)%nat then Some (n - 55)
  else None.

(** The character a short escape stands for. *)
Definition unescape (c : ascii) : option ascii :=
  if Ascii.eqb c DQUOTE then Some DQUOTE
  else if Ascii.eqb c BACKSLASH then Some BACKSLASH
  else if Ascii.eqb c "/" then Some "/"%char
  else if Ascii.eqb c "b" then Some BS
  else if Ascii.eqb c "t" then Some HT
  else if Ascii.eqb c "n" then Some LF
  else if Ascii.eqb c "f" then Some FF
  else if Ascii.eqb c "r" then Some CR
  else None.

(** The characters of a JSON string up to its closing quotation mark.  A
    [\uXXXX] escape is read when it names a single byte (below 128). *)
Fixpoint parse_string_body (s : string) : option (string * string) :=
  match s with
  | EmptyString => None
  | String c s' =>
      if Ascii.eqb c DQUOTE then Some (EmptyString, s')
      else if Ascii.eqb c BACKSLASH then
        match s' with
        | EmptyString => None
        | String e s'' =>
            if Ascii.eqb e "u" then
              match s'' with
              | String h1 (String h2 (String h3 (String h4 r))) =>
                  match hex_value h1, hex_value h2, hex_value h3, hex_value h4 with
                  | Some a, Some b, Some c3, Some d =>
                      let code := (((a * 16 + b) * 16 + c3) * 16 + d)%nat in
                      if (code <? 128)%nat
                      then match parse_string_body r with
                           | Some (t, r') => Some (String (ascii_of_nat code) t, r')
                           | None => None
                           end
                      else None
                  | _, _, _, _ => None
                  end
              | _ => None
              end
            else
              match unescape e with
              | Some x =>
                  match parse_string_body s'' with
                  | Some (t, r') => Some (String x t, r')
                  | None => None
                  end
              | None => None
              end
        end
      else if is_control c then None
      else match parse_string_body s' with
           | Some (t, r') => Some (String c t, r')
           | None => None
           end
  end.

Definition is_digit (c : ascii) : bool :=
  (48 <=? nat_of_ascii c)%nat && (nat_of_ascii c <=? 57)%nat.

Fixpoint span_digits (s : string) : string * string :=
  match s with
  | EmptyString => (EmptyString, EmptyString)
  | String c s' =>
      if is_digit c
      then let '(d, r) := span_digits s' in (String c d, r)
      else (EmptyString, s)
  end.

(** The number literals read here: an optional minus sign and digits
    without a leading zero, naming a safe integer.  Not read: [-0] (the
    negative zero), an integer beyond the safe ones (the built-in rounds it
    to a double); a fraction or exponent part is left in the rest, where no
    caller accepts it. *)
Definition parse_number (s : string) : option (Z * string) :=
  let '(negative, s1) :=
    match s with
    | String c s' => if Ascii.eqb c "-" then (true, s') else (false, s)
    | EmptyString => (false, s)
    end in
  let '(digits, rest) := span_digits s1 in
  match digits with
  | EmptyString => None
  | String c more =>
      if Ascii.eqb c "0" && negb (String.eqb more EmptyString) then None
      else match NilEmpty.uint_of_string digits with
           | Some d =>
               let n := if negative then (- Z.of_uint d)%Z else Z.of_uint d in
               if negative && (n =? 0)%Z then None
               else if is_safe_integer n then Some (n, rest)
               else None
           | None => None
           end
  end.

Fixpoint parse_value (fuel : nat) (s : string) {struct fuel} : option (value * string) :=
  match fuel with
  | O => None
  | S fuel' =>
      let s := skip_ws s in
      match s with
      | EmptyString => None
      | String c s' =>
          if Ascii.eqb c DQUOTE then
            match parse_string_body s' with
            | Some (t, r) => Some (JString t, r)
            | None => None
            end
          else if Ascii.eqb c "[" then
            match skip_ws s' with
            | EmptyString => None
            | String c1 r1 =>
                if Ascii.eqb c1 "]" then Some (JArray [], r1)
                else match parse_elements fuel' (String c1 r1) with
                     | Some (l, r) => Some (JArray l, r)
                     | None => None
                     end
            end
          else if Ascii.eqb c "{" then
            match skip_ws s' with
            | EmptyString => None
            | String c1 r1 =>
                if Ascii.eqb c1 "}" then Some (JObject [], r1)
                else match parse_members fuel' [] (String c1 r1) with
                     | Some (o, r) => Some (JObject o, r)
                     | None => None
                     end
            end
          else if String.prefix "null" s then Some (JNull, drop 4 s)
          else if String.prefix "true" s then Some (JBool true, drop 4 s)
          else if String.prefix "false" s then Some (JBool false, drop 5 s)
          else match parse_number s with
               | Some (n, r) => Some (JNumber n, r)
               | None => None
               end
      end
  end
with parse_elements (fuel : nat) (s : string) {struct fuel} : option (list value * string) :=
  match fuel with
  | O => None
  | S fuel' =>
      match parse_value fuel' s with
      | None => None
      | Some (v, r) =>
          match skip_ws r with
          | EmptyString => None
          | String c r' =>
              if Ascii.eqb c "," then
                match parse_elements fuel' r' with
                | Some (l, r'') => Some (v :: l, r'')
                | None => None
                end
              else if Ascii.eqb c "]" then Some ([v], r')
              else None
          end
      end
  end
with parse_members (fuel : nat) (acc : obj) (s : string) {struct fuel} : option (obj * string) :=
  match fuel with
  | O => None
  | S fuel' =>
      match skip_ws s with
      | EmptyString => None
      | String c s1 =>
          if Ascii.eqb c DQUOTE then
            match parse_string_body s1 with
            | None => None
            | Some (k, r) =>
                match skip_ws r with
                | EmptyString => None
                | String c1 r1 =>
                    if Ascii.eqb c1 ":" then
                      match parse_value fuel' r1 with
                      | None => None
                      | Some (v, r2) =>
                          let acc' := obj_set k v acc in
                          match skip_ws r2 with
                          | EmptyString => None
                          | String c2 r3 =>
                              if Ascii.eqb c2 "," then parse_members fuel' acc' r3
                              else if Ascii.eqb c2 "}" then Some (acc', r3)
                              else None
                          end
                      end
                    else None
                end
            end
          else None
      end
  end.

(** [JSON.parse(text)]: one value, then only white space.  [Some v]: the
    built-in returns [v].  [None]: the text is not read here, either because
    it is malformed (the built-in throws a SyntaxError) or because it holds
    a number with a fraction, an exponent or a magnitude beyond the safe
    integers, or a [\u] escape above 127, which the built-in reads. *)
Definition parse (text : string) : option value :=
  match parse_value (String.length text) text with
  | Some (v, r) =>
      if String.eqb (skip_ws r) EmptyString then Some v else None
  | None => None
  end.

End Json.


(* ===================================================================== *)
(** * The serialisation built-ins: encodeURIComponent / decodeURIComponent *)
(* ===================================================================== *)

Module Uri.

(** Text is a sequence of UTF-8 bytes; both functions work byte by byte
    (whether the decoded bytes are well-formed UTF-8 is not examined). *)

(** The characters [encodeURIComponent] leaves as they are: letters, digits
    and [- _ . ! ~ * ' ( )]. *)
Definition is_unreserved (c : ascii) : bool :=
  let n := nat_of_ascii c in
  ((65 <=? n)%nat && (n <=? 90)%nat)
  || ((97 <=? n)%nat && (n <=? 122)%nat)
  || ((48 <=? n)%nat && (n <=? 57)%nat)
  || Ascii.eqb c "-" || Ascii.eqb c "_" || Ascii.eqb c "." || Ascii.eqb c "!"
  || Ascii.eqb c "~" || Ascii.eqb c "*" || Ascii.eqb c "'" || Ascii.eqb c "("
  || Ascii.eqb c ")".

Definition hex_upper (n : nat) : ascii :=
  ascii_of_nat (if (n <? 10)%nat then 48 + n else 55 + n).

Definition encode_char (c : ascii) : string :=
  if is_unreserved c then String c EmptyString
  else String "%" (String (hex_upper (nat_of_ascii c / 16))
                     (String (hex_upper (nat_of_ascii c mod 16)) EmptyString)).

Fixpoint encodeURIComponent (s : string) : string :=
  match s with
  | EmptyString => EmptyString
  | String c s' => encode_char c +:+ encodeURIComponent s'
  end.

Fixpoint decodeURIComponent (s : string) : result string :=
  match s with
  | EmptyString => Ok EmptyString
  | String c s' =>
      if Ascii.eqb c "%" then
        match s' with
        | String h (String l r) =>
            match Json.hex_value h, Json.hex_value l with
            | Some a, Some b =>
                let* t := decodeURIComponent r in
                Ok (String (ascii_of_nat (a * 16 + b)) t)
            | _, _ => Throw URIError
            end
        | _ => Throw URIError
        end
      else
        let* t := decodeURIComponent s' in
        Ok (String c t)
  end.

End Uri.
(* ===================================================================== *)
(** * packages/siop-oid4vp/lib/types/JwtVerifier.ts *)
(* ===================================================================== *)

Module JwtVerifier.

(** [JwtType] of [helpers/jwtUtils]. *)
Inductive JwtType : Type :=
| id_token
| request_object
| verifier_attestation.

(** The type as it is spliced into error messages. *)
Definition type_name (t : JwtType) : string :=
  match t with
  | id_token => "id-token"
  | request_object => "request-object"
  | verifier_attestation => "verifier-attestation"
  end.

Definition JwtType_eqb (a b : JwtType) : bool :=
  match a, b with
  | id_token, id_token
  | request_object, request_object
  | verifier_attestation, verifier_attestation => true
  | _, _ => false
  end.

(** Header and payload.  Members the code uses through string methods have
    their declared type ([string | undefined]); members the code inspects
    with [typeof] / [Array.isArray] are arbitrary values. *)
Record JwtHeader : Type := {
  kid : option string;
  typ : value;
  x5c : value;
  jwk : value;
  jwt : option string
}.

Record JwtPayload : Type := {
  iss : value;
  sub : value;
  exp : value;
  cnf : value;
  redirect_uris : value;
  sub_jwk : value;
  client_id_scheme : option string;
  client_id : option string;
  redirect_uri : option string
}.

Record Jwt : Type := {
  header : JwtHeader;
  payload : JwtPayload
}.

(** [JwtVerifier]: the tagged union, one constructor per [method]. *)
Inductive Verifier : Type :=
| DidJwtVerifier (type : JwtType) (didUrl : string)
| X5cJwtVerifier (type : JwtType) (x5c_chain : value) (issuer : value)
| CustomJwtVerifier (type : JwtType)
| JwkJwtVerifier (type : JwtType) (jwk_key : value) (jwkThumbprint : option string)
| OpenIdFederationJwtVerifier (type : JwtType) (entityId : string).

Definition array_length (v : value) : nat :=
  match v with JArray l => length l | _ => 0 end.

Definition array_every (f : value -> bool) (v : value) : bool :=
  match v with JArray l => forallb f l | _ => true end.

Definition array_some (f : value -> bool) (v : value) : bool :=
  match v with JArray l => existsb f l | _ => false end.

(** [arr.includes(s)] for [s : string | undefined]. *)
Definition array_includes (v : value) (s : option string) : bool :=
  array_some (fun x => strict_eq_str x s) v.

(** [v[k]]: a property read throws on undefined and null. *)
Definition get_prop (v : value) (k : string) : result value :=
  match v with
  | JUndefined | JNull => Throw TypeError
  | JObject o => Ok (obj_get k o)
  | _ => Ok JUndefined
  end.

Definition getDidJwtVerifier (j : Jwt) (type : JwtType) : result Verifier :=
  match kid (header j) with
  | None => Throw (SIOPError INVALID_JWT " Missing kid header.")
  | Some k =>
      if negb (truthy_str (Some k))
      then Throw (SIOPError INVALID_JWT " Missing kid header.")
      else if negb (includes k "#")
      then Throw (SIOPError INVALID_JWT
                    (". '" +:+ type_name type +:+ "' contains an invalid kid header."))
      else Ok (DidJwtVerifier type k)
  end.

Definition getX5cVerifier (j : Jwt) (type : JwtType) : result Verifier :=
  let c := x5c (header j) in
  if negb (truthy c)
  then Throw (SIOPError INVALID_JWT " Missing x5c header.")
  else if negb (isArray c) || (array_length c =? 0)%nat
          || negb (array_every is_string c)
  then Throw (SIOPError INVALID_JWT
                (". '" +:+ type_name type +:+ "' contains an invalid x5c header."))
  else Ok (X5cJwtVerifier type c (iss (payload j))).

Section Helpers.

(** The digest algorithm names of [helpers]. *)
Variable DigestAlgorithm : Type.

(** [getDigestAlgorithmFromJwkThumbprintUri] and [calculateJwkThumbprintUri]
    of [../helpers], and [parseJWT] of [../helpers/jwtUtils]: imported, each
    may throw. *)
Variable getDigestAlgorithmFromJwkThumbprintUri : string -> result DigestAlgorithm.
Variable calculateJwkThumbprintUri : value -> DigestAlgorithm -> result string.
Variable parseJWT : string -> result Jwt.

Definition getJwkVerifier (j : Jwt) (type : JwtType) : result Verifier :=
  let k := jwk (header j) in
  if negb (truthy k)
  then Throw (SIOPError INVALID_JWT " Missing jwk header.")
  else if negb (String.eqb (typeof k) "object")
  then Throw (SIOPError INVALID_JWT
                (" '" +:+ type_name type +:+ "' contains an invalid jwk header."))
  else if negb (JwtType_eqb type id_token)
  then Ok (JwkJwtVerifier type k None)
  else match sub_jwk (payload j) with
       | JString jwkThumbPrintUri =>
           let* digestAlgorithm :=
             getDigestAlgorithmFromJwkThumbprintUri jwkThumbPrintUri in
           let* selfComputedJwkThumbPrintUri :=
             calculateJwkThumbprintUri k digestAlgorithm in
           if negb (String.eqb selfComputedJwkThumbPrintUri jwkThumbPrintUri)
           then Throw (SIOPError INVALID_JWT
                         (" '" +:+ type_name type
                          +:+ "' contains an invalid sub_jwk claim."))
           else Ok (JwkJwtVerifier type k (Some jwkThumbPrintUri))
       | _ => Throw (SIOPError INVALID_JWT
                       (" '" +:+ type_name type +:+ "' missing sub_jwk claim."))
       end.

Definition getJwtVerifierWithContext (j : Jwt) (type : JwtType) : result Verifier :=
  if match kid (header j) with
     | Some k => startsWith k "did:"
     | None => false
     end
  then getDidJwtVerifier j type
  else if truthy (x5c (header j)) then getX5cVerifier j type
  else if truthy (jwk (header j)) then getJwkVerifier j type
  else Ok (CustomJwtVerifier type).

Definition verifierAttestationSubtype : string := "verifier-attestation+jwt".

Definition getRequestObjectJwtVerifier (j : Jwt) (raw : string) : result Verifier :=
  let type := request_object in
  let clientIdScheme := client_id_scheme (payload j) in
  let clientId := client_id (payload j) in
  if negb (truthy_str clientIdScheme)
  then getJwtVerifierWithContext j type
  else if opt_str_eqb clientIdScheme (Some "did")
  then getDidJwtVerifier j type
  else if opt_str_eqb clientIdScheme (Some "pre-registered")
  then getJwtVerifierWithContext j type
  else if opt_str_eqb clientIdScheme (Some "x509_san_dns")
          || opt_str_eqb clientIdScheme (Some "x509_san_uri")
  then getX5cVerifier j type
  else if opt_str_eqb clientIdScheme (Some "redirect_uri")
  then
    if truthy_str (redirect_uri (payload j))
       && negb (opt_str_eqb (redirect_uri (payload j)) clientId)
    then Throw (SIOPError INVALID_CLIENT_ID_MUST_MATCH_REDIRECT_URI EmptyString)
    else if (2 <? length (split raw "."))%nat
    then Throw (SIOPError INVALID_JWT
                  (" '" +:+ type_name type +:+ "' JWT must not not be signed."))
    else getJwtVerifierWithContext j type
  else if opt_str_eqb clientIdScheme (Some "verifier_attestation")
  then
    match jwt (header j) with
    | None => Throw (SIOPError MISSING_ATTESTATION_JWT EmptyString)
    | Some attestationJwt =>
        if negb (truthy_str (Some attestationJwt))
        then Throw (SIOPError MISSING_ATTESTATION_JWT EmptyString)
        else if negb (strict_eq_str (typ (header j)) (Some verifierAttestationSubtype))
        then Throw (SIOPError MISSING_ATTESTATION_JWT_TYP EmptyString)
        else
          let* attestation := parseJWT attestationJwt in
          let attestationHeader := header attestation in
          let attestationPayload := payload attestation in
          if negb (strict_eq_str (typ attestationHeader) (Some verifierAttestationSubtype))
             || negb (strict_eq_str (sub attestationPayload) clientId)
             || negb (truthy (iss attestationPayload))
             || negb (String.eqb (typeof (iss attestationPayload)) "string")
             || negb (truthy (exp attestationPayload))
             || negb (String.eqb (typeof (exp attestationPayload)) "number")
             || negb (String.eqb (typeof (cnf attestationPayload)) "object")
          then Throw (SIOPError BAD_VERIFIER_ATTESTATION EmptyString)
          else
            let* cnf_jwk := get_prop (cnf attestationPayload) "jwk" in
            if negb (String.eqb (typeof cnf_jwk) "object")
            then Throw (SIOPError BAD_VERIFIER_ATTESTATION EmptyString)
            else if truthy (redirect_uris attestationPayload)
                    && (negb (isArray (redirect_uris attestationPayload))
                        || array_some (fun v => negb (String.eqb (typeof v) "string"))
                             (redirect_uris attestationPayload)
                        || negb (truthy_str (redirect_uri (payload j)))
                        || negb (array_includes (redirect_uris attestationPayload)
                                   (redirect_uri (payload j))))
            then Throw (SIOPError BAD_VERIFIER_ATTESTATION_REDIRECT_URIS EmptyString)
            else Ok (JwkJwtVerifier type cnf_jwk None)
    end
  else if opt_str_eqb clientIdScheme (Some "entity_id")
  then
    match clientId with
    | None => Throw TypeError
    | Some cid =>
        if negb (startsWith cid "http")
        then Throw (SIOPError INVALID_REQUEST_OBJECT_ENTITY_ID_SCHEME_CLIENT_ID EmptyString)
        else Ok (OpenIdFederationJwtVerifier type cid)
    end
  else Throw (SIOPError INVALID_CLIENT_ID_SCHEME EmptyString).

End Helpers.

End JwtVerifier.

(* ===================================================================== *)
(** * packages/issuer/lib/functions/CredentialOfferUtils.ts (offer object) *)
(* ===================================================================== *)

Module CredentialOfferUtils.

(** [CredentialIssuerMetadataOptsV1_0_13], the members the code reads. *)
Module Metadata.
Record t : Type := {
  credential_issuer : option string;
  credential_configurations_supported : option obj
}.
End Metadata.

(** [CredentialOfferPayloadV1_0_13]; [grants] is the grants map, a JavaScript
    object keyed by grant type, and [other_members] are the members of a
    supplied payload that the code never looks at. *)
Module Payload.
Record t : Type := {
  credential_issuer : option string;
  credential_configuration_ids : list string;
  grants : option obj;
  other_members : obj
}.
End Payload.

(** The [opts] argument of [createCredentialOfferObject]; an absent [opts]
    is the record of absent members. *)
Module Opts.
Record t : Type := {
  credentialOffer : option Payload.t;
  credentialOfferUri : option string;
  scheme : option string;
  baseUri : option string;
  issuerState : option string;
  txCode : value;
  preAuthorizedCode : option string
}.
End Opts.

(** [CredentialOfferV1_0_13 & { scheme; grants; baseUri }], the object
    returned by [createCredentialOfferObject]. *)
Module Offer.
Record t : Type := {
  credential_offer : Payload.t;
  credential_offer_uri : option string;
  scheme : string;
  baseUri : string;
  grants : obj
}.
End Offer.

Definition PRE_AUTH_GRANT : string :=
  "urn:ietf:params:oauth:grant-type:pre-authorized_code".

Definition defaultScheme : string := "openid-credential-offer".

Definition set_grants (g : option obj) (p : Payload.t) : Payload.t :=
  {| Payload.credential_issuer := Payload.credential_issuer p;
     Payload.credential_configuration_ids := Payload.credential_configuration_ids p;
     Payload.grants := g;
     Payload.other_members := Payload.other_members p |}.

(** The grants object once [if (!credential_offer.grants) credential_offer.grants = {}]
    has run. *)
Definition grants_or_empty (p : Payload.t) : obj :=
  match Payload.grants p with
  | Some g => g
  | None => []
  end.

Section Random.

(** [uuidv4()] of the [uuid] package: draws from a generator state. *)
Variable RandomState : Type.
Variable uuidv4 : RandomState -> string * RandomState.

(** [opts?.issuerState ?? uuidv4()]. *)
Definition issuerState_or_uuid (opts : Opts.t) (rs : RandomState)
  : string * RandomState :=
  match Opts.issuerState opts with
  | Some st => (st, rs)
  | None => uuidv4 rs
  end.

(** The grants block of [createCredentialOfferObject] (lines 64-78, and
    again 81-95). *)
Definition applyGrants (opts : Opts.t) (p : Payload.t) (rs : RandomState)
  : Payload.t * RandomState :=
  let g := grants_or_empty p in
  if truthy_str (Opts.preAuthorizedCode opts)
  then (set_grants
          (Some (obj_set PRE_AUTH_GRANT
                   (JObject [("pre-authorized_code",
                              JString (default EmptyString (Opts.preAuthorizedCode opts)));
                             ("tx_code", Opts.txCode opts)]) g)) p, rs)
  else if negb (truthy (opt_get (obj_get "authorization_code" g) "issuer_state"))
  then let '(st, rs') := issuerState_or_uuid opts rs in
       (set_grants (Some [("authorization_code",
                           JObject [("issuer_state", JString st)])]) p, rs')
  else (set_grants (Some g) p, rs).

(** [createCredentialOfferObject].  The supplied payload is copied member by
    member ([{ ...opts.credentialOffer }]); the value returned is what is
    modelled here. *)
Definition createCredentialOfferObject
    (issuerMetadata : option Metadata.t) (opts : Opts.t) (rs : RandomState)
  : result (Offer.t * RandomState) :=
  if negb (bool_decide (is_Some issuerMetadata))
     && negb (bool_decide (is_Some (Opts.credentialOffer opts)))
     && negb (truthy_str (Opts.credentialOfferUri opts))
  then Throw (Error "You have to provide issuerMetadata or credentialOffer object for creating a deeplink")
  else
    let scheme :=
      match Opts.scheme opts with
      | Some s => replace s "://" EmptyString
      | None =>
          match Opts.baseUri opts with
          | Some b => if includes b "://" then hd EmptyString (split b "://")
                      else defaultScheme
          | None => defaultScheme
          end
      end in
    let* baseUri :=
      if truthy_str (Opts.baseUri opts)
      then Ok (default EmptyString (Opts.baseUri opts))
      else if startsWith scheme "http"
      then
        let issuer := issuerMetadata ≫= Metadata.credential_issuer in
        if truthy_str issuer
        then
          let baseUri := default EmptyString issuer in
          if negb (startsWith baseUri (scheme +:+ "://"))
          then Throw (Error ("scheme " +:+ scheme +:+ " is different from base uri "
                             +:+ baseUri))
          else Ok baseUri
        else Throw (Error ("A '" +:+ scheme
                           +:+ "' scheme requires a URI to be present as baseUri"))
      else Ok EmptyString in
    let baseUri := replace baseUri (scheme +:+ "://") EmptyString in
    let credential_offer_uri :=
      if truthy_str (Opts.credentialOfferUri opts)
      then Some (scheme +:+ "://" +:+ baseUri +:+ "?credential_offer_uri="
                 +:+ default EmptyString (Opts.credentialOfferUri opts))
      else None in
    let* credential_offer :=
      match Opts.credentialOffer opts with
      | Some p => Ok p
      | None =>
          match issuerMetadata ≫= Metadata.credential_configurations_supported with
          | None => Throw (Error "credential_configurations_supported is mandatory in the metadata")
          | Some configurations =>
              Ok {| Payload.credential_issuer :=
                      issuerMetadata ≫= Metadata.credential_issuer;
                    Payload.credential_configuration_ids := obj_keys configurations;
                    Payload.grants := None;
                    Payload.other_members := [] |}
          end
      end in
    let '(credential_offer, rs) := applyGrants opts credential_offer rs in
    let '(credential_offer, rs) := applyGrants opts credential_offer rs in
    Ok ({| Offer.credential_offer := credential_offer;
           Offer.credential_offer_uri := credential_offer_uri;
           Offer.scheme := scheme;
           Offer.baseUri := baseUri;
           Offer.grants := grants_or_empty credential_offer |}, rs).

End Random.

(** The offer handed to [createCredentialOfferURIFromObject]:
    [(CredentialOfferV1_0_13 | UniformCredentialOffer) & { scheme?; baseUri? }].
    The payload is only serialised, so it is an arbitrary value. *)
Module OfferObject.
Record t : Type := {
  credential_offer : value;
  credential_offer_uri : option string;
  scheme : option string;
  baseUri : option string
}.
End OfferObject.

(** The [opts] argument of [createCredentialOfferURIFromObject]. *)
Module UriOpts.
Record t : Type := {
  scheme : option string;
  baseUri : option string
}.
End UriOpts.

(** ToString of the result of [JSON.stringify]. *)
Definition string_of_stringified (t : option string) : string :=
  default "undefined" t.

Section Serialisation.

(** Number::toString outside the safe integers, as [Json.stringify] takes
    it. *)
Variable Number_toString : Z -> string.

Definition createCredentialOfferURIFromObject
    (credentialOffer : OfferObject.t) (opts : UriOpts.t) : result string :=
  let scheme :=
    match UriOpts.scheme opts with
    | Some s => replace s "://" EmptyString
    | None =>
        match OfferObject.scheme credentialOffer with
        | Some s => replace s "://" EmptyString
        | None => defaultScheme
        end
    end in
  let baseUri :=
    match UriOpts.baseUri opts with
    | Some b => b
    | None => default EmptyString (OfferObject.baseUri credentialOffer)
    end in
  let baseUri :=
    if includes baseUri "://" then nth 1 (split baseUri "://") EmptyString
    else baseUri in
  if startsWith scheme "http" && String.eqb baseUri EmptyString
  then Throw (Error ("Cannot use scheme '" +:+ scheme
                     +:+ "' without providing a baseUri value"))
  else if truthy_str (OfferObject.credential_offer_uri credentialOffer)
  then
    let uri := default EmptyString (OfferObject.credential_offer_uri credentialOffer) in
    if includes uri "credential_offer_uri="
    then Ok uri
    else Ok (scheme +:+ "://" +:+ baseUri +:+ "?credential_offer_uri=" +:+ uri)
  else Ok (scheme +:+ "://" +:+ baseUri +:+ "?credential_offer="
           +:+ Uri.encodeURIComponent
                 (string_of_stringified
                    (Json.stringify Number_toString
                       (OfferObject.credential_offer credentialOffer)))).

End Serialisation.

(** The character class of the pattern [/[0-9{,8}]/]: a digit, or one of the
    three characters [{], [,] and [}] (the [8] is a digit already). *)
Definition pin_class (c : ascii) : bool :=
  (Ascii.leb "0" c && Ascii.leb c "9")
  || Ascii.eqb c "{" || Ascii.eqb c "," || Ascii.eqb c "8" || Ascii.eqb c "}".

(** [/[cls]/.test(s)]: an unanchored, one-character pattern matches when some
    character of [s] is in the class. *)
Fixpoint regex_test_class (cls : ascii -> bool) (s : string) : bool :=
  match s with
  | EmptyString => false
  | String c s' => cls c || regex_test_class cls s'
  end.

Section Pin.

(** The message constant imported from [@sphereon/oid4vci-common]. *)
Variable PIN_VALIDATION_ERROR : string.

Definition assertValidPinNumber (pin : option string) : result unit :=
  if truthy_str pin
     && negb (regex_test_class pin_class (default EmptyString pin))
  then Throw (Error PIN_VALIDATION_ERROR)
  else Ok tt.

End Pin.

(** [CredentialOfferSession], the members read here. *)
Record CredentialOfferSession : Type := {
  createdAt : Z;
  credentialOffer : value
}.

(** The arithmetic of [isPreAuthorizedCodeExpired] is the arithmetic of
    doubles; it is the arithmetic of integers when the operands, the product
    and the sum are safe integers. *)
Definition exact_expiry
    (now : Z) (state : CredentialOfferSession) (expirationDurationInSeconds : Z) : bool :=
  is_safe_integer now
  && is_safe_integer (createdAt state)
  && is_safe_integer expirationDurationInSeconds
  && is_safe_integer (expirationDurationInSeconds * 1000)
  && is_safe_integer (createdAt state + expirationDurationInSeconds * 1000).

(** [isPreAuthorizedCodeExpired]; [now] is the clock reading [+new Date()].
    [Some b]: the function returns [b].  [None]: a value of the computation
    lies beyond the safe integers, where the doubles round and the result is
    not fixed here. *)
Definition isPreAuthorizedCodeExpired
    (now : Z) (state : CredentialOfferSession) (expirationDurationInSeconds : Z)
  : option bool :=
  let expirationTime := (createdAt state + expirationDurationInSeconds * 1000)%Z in
  if exact_expiry now state expirationDurationInSeconds
  then Some (now >=? expirationTime)%Z
  else None.

End CredentialOfferUtils.

(* ===================================================================== *)
(** * packages/common/lib/functions/CredentialRequestUtil.ts *)
(* ===================================================================== *)

Module CredentialRequestUtil.

(** [OpenId4VCIVersion]: the protocol drafts; the code below only tells
    [VER_1_0_08] from the others. *)
Inductive OpenId4VCIVersion : Type :=
| VER_1_0_08
| VER_1_0_09
| VER_1_0_11
| VER_1_0_12
| VER_1_0_13
| VER_UNKNOWN.

Definition version_eqb (a b : OpenId4VCIVersion) : bool :=
  match a, b with
  | VER_1_0_08, VER_1_0_08 | VER_1_0_09, VER_1_0_09 | VER_1_0_11, VER_1_0_11
  | VER_1_0_12, VER_1_0_12 | VER_1_0_13, VER_1_0_13
  | VER_UNKNOWN, VER_UNKNOWN => true
  | _, _ => false
  end.

Module CredentialDefinition.
Record t : Type := {
  types : option (list string);
  vct : string
}.
End CredentialDefinition.

(** [UniformCredentialRequest]: the union over [format], with the members
    each branch of [getTypesFromRequest] reads. *)
Record UniformCredentialRequest : Type := {
  format : string;
  proof : value;
  types : option (list string);
  credential_definition : option CredentialDefinition.t
}.

(** [CredentialRequestV1_0_08]; [type] is [types[0]], absent ([None]) when
    the array is empty. *)
Record CredentialRequestV1_0_08 : Type := {
  format_08 : string;
  proof_08 : value;
  type_08 : option string
}.

Inductive CredentialRequest : Type :=
| Uniform (r : UniformCredentialRequest)
| Draft08 (r : CredentialRequestV1_0_08).

Definition getTypesFromRequest
    (credentialRequest : UniformCredentialRequest)
    (filterVerifiableCredential : bool) : result (list string) :=
  let fmt := format credentialRequest in
  let* types :=
    if String.eqb fmt "jwt_vc_json" || String.eqb fmt "jwt_vc"
    then Ok (types credentialRequest)
    else if String.eqb fmt "jwt_vc_json-ld" || String.eqb fmt "ldp_vc"
    then match credential_definition credentialRequest with
         | None => Throw TypeError
         | Some cd => Ok (CredentialDefinition.types cd)
         end
    else if String.eqb fmt "vc+sd-jwt"
    then match credential_definition credentialRequest with
         | None => Throw TypeError
         | Some cd => Ok (Some [CredentialDefinition.vct cd])
         end
    else Ok (Some []) in
  match types with
  | None => Throw (Error "Could not deduce types from credential request")
  | Some types =>
      if (length types =? 0)%nat
      then Throw (Error "Could not deduce types from credential request")
      else if filterVerifiableCredential
      then Ok (List.filter (fun type => negb (String.eqb type "VerifiableCredential")) types)
      else Ok types
  end.

Section Format.

(** [getFormatForVersion] of [./FormatUtils]: imported, may throw. *)
Variable getFormatForVersion : string -> OpenId4VCIVersion -> result string.

Definition getCredentialRequestForVersion
    (credentialRequest : UniformCredentialRequest) (version : OpenId4VCIVersion)
  : result CredentialRequest :=
  if version_eqb version VER_1_0_08
  then
    let* draft8Format := getFormatForVersion (format credentialRequest) version in
    let* types := getTypesFromRequest credentialRequest true in
    Ok (Draft08 {| format_08 := draft8Format;
                   proof_08 := proof credentialRequest;
                   type_08 := head types |})
  else Ok (Uniform credentialRequest).

End Format.

End CredentialRequestUtil.

(* ===================================================================== *)
(** * The in-memory credential-offer session store *)
(* ===================================================================== *)

Module StateManager.

Import CredentialOfferUtils.

(** Modelled from the spec: [MemoryCredentialOfferStateManager] (the class
    under [../state-manager] is not among the sources; only its test is).
    The store is a map from the opaque state identifier to the session, with
    a time-to-live [ttl] in milliseconds. *)
Record store : Type := {
  ttl : Z;
  states : gmap string CredentialOfferSession
}.

(** Modelled from the spec: the store with its map replaced and its
    lifetime kept. *)
Definition with_states (st : store) (m : gmap string CredentialOfferSession) : store :=
  {| ttl := ttl st; states := m |}.

(** Modelled from the spec: [setState(id, session)] inserts or replaces; the
    session keeps the [createdAt] it was built with. *)
Definition setState (id : string) (s : CredentialOfferSession) (st : store) : store :=
  with_states st (<[id := s]> (states st)).

(** Modelled from the spec: [getState(id)] returns the session or absent. *)
Definition getState (id : string) (st : store) : option CredentialOfferSession :=
  states st !! id.

(** Modelled from the spec: [hasState(id)]. *)
Definition hasState (id : string) (st : store) : bool :=
  bool_decide (is_Some (states st !! id)).

(** Modelled from the spec: [deleteState(id)] is true iff an entry existed
    and was removed. *)
Definition deleteState (id : string) (st : store) : bool * store :=
  (hasState id st, with_states st (delete id (states st))).

(** Modelled from the spec: a session is expired at [now] when
    [created_at + ttl <= now]; equality counts as expired. *)
Definition expired (st : store) (now : Z) (s : CredentialOfferSession) : bool :=
  (createdAt s + ttl st <=? now)%Z.

(** Modelled from the spec: [clearExpiredStates(now)] removes every entry
    that is expired at [now]. *)
Definition clearExpiredStates (now : Z) (st : store) : store :=
  with_states st
    (filter (fun kv => expired st now (snd kv) = false) (states st)).

(** Modelled from the spec: [clearAllStates()] empties the store. *)
Definition clearAllStates (st : store) : store := with_states st ∅.

End StateManager.

(* ===================================================================== *)
(** * Specification vocabulary and sample inputs *)
(* ===================================================================== *)

Fixpoint count_char (c : ascii) (s : string) : nat :=
  match s with
  | EmptyString => 0
  | String a s' => (if Ascii.eqb a c then 1 else 0) + count_char c s'
  end.

Definition value_of_opt_str (s : option string) : value :=
  match s with
  | Some s => JString s
  | None => JUndefined
  end.

Module VerifierSpec.
Import JwtVerifier.

(** The declared scheme selects the [did] branch, or none is declared. *)
Definition did_or_undeclared (scheme : option string) : Prop :=
  truthy_str scheme = false \/ scheme = Some "did".

(** An object in the sense of [typeof v === 'object'], [null] apart: a plain
    object or an array. *)
Definition is_object (v : value) : bool :=
  match v with
  | JObject _ | JArray _ => true
  | _ => false
  end.

(** The nested attestation token passes the structural checks: [typ] is the
    attestation subtype, [sub] is the outer [client_id], [iss] is a non-empty
    string, [exp] a non-zero number, and [cnf] is an object whose [jwk]
    member is an object. *)
Definition well_formed_attestation (clientId : option string) (att : Jwt) : Prop :=
  typ (header att) = JString verifierAttestationSubtype
  /\ sub (payload att) = value_of_opt_str clientId
  /\ (exists s, iss (payload att) = JString s /\ s <> EmptyString)
  /\ (exists n, exp (payload att) = JNumber n /\ n <> 0%Z)
  /\ is_object (cnf (payload att)) = true
  /\ is_object (opt_get (cnf (payload att)) "jwk") = true.

(** The outer [redirect_uri] is present and listed in the attestation's
    [redirect_uris], an array of strings. *)
Definition redirect_uri_allowed (uris : value) (redirectUri : option string) : Prop :=
  exists (l : list string) (r : string),
    uris = JArray (map JString l)
    /\ redirectUri = Some r /\ r <> EmptyString /\ In r l.

(** The redirect-URI test of the source, as a boolean. *)
Definition redirect_uris_rejected (uris : value) (redirectUri : option string) : bool :=
  negb (isArray uris)
  || array_some (fun v => negb (String.eqb (typeof v) "string")) uris
  || negb (truthy_str redirectUri)
  || negb (array_includes uris redirectUri).

(** The structural checks of the source up to [cnf], as a boolean. *)
Definition attestation_rejected (clientId : option string) (att : Jwt) : bool :=
  negb (strict_eq_str (typ (header att)) (Some verifierAttestationSubtype))
  || negb (strict_eq_str (sub (payload att)) clientId)
  || negb (truthy (iss (payload att)))
  || negb (String.eqb (typeof (iss (payload att))) "string")
  || negb (truthy (exp (payload att)))
  || negb (String.eqb (typeof (exp (payload att))) "number")
  || negb (String.eqb (typeof (cnf (payload att))) "object").

(** Sample tokens. *)
Definition emptyHeader : JwtHeader :=
  {| kid := None; typ := JUndefined; x5c := JUndefined; jwk := JUndefined; jwt := None |}.

Definition emptyPayload : JwtPayload :=
  {| iss := JUndefined; sub := JUndefined; exp := JUndefined; cnf := JUndefined;
     redirect_uris := JUndefined; sub_jwk := JUndefined;
     client_id_scheme := None; client_id := None; redirect_uri := None |}.

Definition sampleJwk : value :=
  JObject [("kty", JString "EC"); ("crv", JString "P-256");
           ("x", JString "f83OJ3D2xF1Bg8vub9tLe1gHMzV76e8Tus9uPHvRVEU");
           ("y", JString "x_FEzRu9m36HLN_tue659LNpXW6pCyStikYjKIWI5a0")].

Definition sampleThumbprintUri : string :=
  "urn:ietf:params:oauth:jwk-thumbprint:sha-256:NzbLsXh8uDCcd-6MNwXF4W_7noWXFZAfHkxZsRGC9Xs".

Definition sampleDigest (uri : string) : result unit := Ok tt.

Definition sampleThumbprint (k : value) (alg : unit) : result string :=
  Ok sampleThumbprintUri.

(** A [parseJWT] that decodes every token to [att]. *)
Definition parseAs (att : Jwt) (token : string) : result Jwt := Ok att.

(** An id-token carrying [sampleJwk] and its thumbprint. *)
Definition sampleIdToken : Jwt :=
  {| header := {| kid := None; typ := JString "JWT"; x5c := JUndefined;
                  jwk := sampleJwk; jwt := None |};
     payload := {| iss := JString "https://self-issued.me/v2"; sub := JUndefined;
                   exp := JUndefined; cnf := JUndefined; redirect_uris := JUndefined;
                   sub_jwk := JString sampleThumbprintUri;
                   client_id_scheme := None; client_id := None;
                   redirect_uri := None |} |}.

Definition withKid (k : string) (scheme : option string) : Jwt :=
  {| header := {| kid := Some k; typ := JUndefined; x5c := JUndefined;
                  jwk := JUndefined; jwt := None |};
     payload := {| iss := JUndefined; sub := JUndefined; exp := JUndefined;
                   cnf := JUndefined; redirect_uris := JUndefined;
                   sub_jwk := JUndefined;
                   client_id_scheme := scheme; client_id := None;
                   redirect_uri := None |} |}.

(** A request object under the [redirect_uri] scheme. *)
Definition redirectUriRequest (clientId redirectUri : option string) : Jwt :=
  {| header := emptyHeader;
     payload := {| iss := JUndefined; sub := JUndefined; exp := JUndefined;
                   cnf := JUndefined; redirect_uris := JUndefined;
                   sub_jwk := JUndefined;
                   client_id_scheme := Some "redirect_uri"; client_id := clientId;
                   redirect_uri := redirectUri |} |}.

(** A verifier attestation for [https://client.example.org], with the given
    [cnf] and [redirect_uris] members. *)
Definition sampleAttestation (cnfValue redirectUris : value) : Jwt :=
  {| header := {| kid := None; typ := JString verifierAttestationSubtype;
                  x5c := JUndefined; jwk := JUndefined; jwt := None |};
     payload := {| iss := JString "https://attester.example.org";
                   sub := JString "https://client.example.org";
                   exp := JNumber 1900000000;
                   cnf := cnfValue;
                   redirect_uris := redirectUris;
                   sub_jwk := JUndefined;
                   client_id_scheme := None; client_id := None;
                   redirect_uri := None |} |}.

(** The request object presenting an attestation in its [jwt] header. *)
Definition attestedRequest (redirectUri : option string) : Jwt :=
  {| header := {| kid := None; typ := JString verifierAttestationSubtype;
                  x5c := JUndefined; jwk := JUndefined;
                  jwt := Some "eyJ0eXAiOiJ2ZXJpZmllci1hdHRlc3RhdGlvbitqd3QifQ.e30.c2ln" |};
     payload := {| iss := JUndefined; sub := JUndefined; exp := JUndefined;
                   cnf := JUndefined; redirect_uris := JUndefined;
                   sub_jwk := JUndefined;
                   client_id_scheme := Some "verifier_attestation";
                   client_id := Some "https://client.example.org";
                   redirect_uri := redirectUri |} |}.

End VerifierSpec.

Module OfferSpec.
Import CredentialOfferUtils.

(** The pre-authorized-code grant written by the source. *)
Definition preAuthorizedGrant (opts : Opts.t) : value :=
  JObject [("pre-authorized_code",
            JString (default EmptyString (Opts.preAuthorizedCode opts)));
           ("tx_code", Opts.txCode opts)].

(** The grants map holding only an authorization-code grant. *)
Definition authorizationCodeOnly (st : string) : obj :=
  [("authorization_code", JObject [("issuer_state", JString st)])].

(** [grants.authorization_code.issuer_state] is present (truthy). *)
Definition has_issuer_state (g : obj) : bool :=
  truthy (opt_get (obj_get "authorization_code" g) "issuer_state").

(** A generator handing out two identifiers in turn. *)
Definition sampleUuid (n : nat) : string * nat :=
  (match n with
   | O => "c0c4b7a4-1fd4-4d8e-9a46-5c8f7f4b3c11"
   | S _ => "5b1b3f0e-8f0e-4a57-b7a3-0d6a1f1f6c22"
   end, S n).

Definition sampleMetadata : Metadata.t :=
  {| Metadata.credential_issuer := Some "https://issuer.example.org";
     Metadata.credential_configurations_supported :=
       Some [("UniversityDegree_JWT", JObject [("format", JString "jwt_vc_json")])] |}.

Definition noOpts : Opts.t :=
  {| Opts.credentialOffer := None; Opts.credentialOfferUri := None;
     Opts.scheme := None; Opts.baseUri := None; Opts.issuerState := None;
     Opts.txCode := JUndefined; Opts.preAuthorizedCode := None |}.

(** Only a pre-authorized code is supplied. *)
Definition preAuthorizedOpts (code : string) : Opts.t :=
  {| Opts.credentialOffer := None; Opts.credentialOfferUri := None;
     Opts.scheme := None; Opts.baseUri := None; Opts.issuerState := None;
     Opts.txCode := JUndefined; Opts.preAuthorizedCode := Some code |}.

(** Only an offer payload is supplied, optionally with a pre-authorized code. *)
Definition suppliedOpts (p : Payload.t) (code : option string) : Opts.t :=
  {| Opts.credentialOffer := Some p; Opts.credentialOfferUri := None;
     Opts.scheme := None; Opts.baseUri := None; Opts.issuerState := None;
     Opts.txCode := JUndefined; Opts.preAuthorizedCode := code |}.

Definition samplePayload (g : option obj) : Payload.t :=
  {| Payload.credential_issuer := Some "https://issuer.example.org";
     Payload.credential_configuration_ids := ["UniversityDegree_JWT"];
     Payload.grants := g;
     Payload.other_members := [] |}.

(** A grants map that already carries a pre-authorized-code grant. *)
Definition preAuthorizedOnly (code : string) : obj :=
  [(PRE_AUTH_GRANT, JObject [("pre-authorized_code", JString code)])].

End OfferSpec.

Module StoreSpec.
Import CredentialOfferUtils StateManager.

Definition day : Z := 86400000.

Definition sampleSession (t : Z) : CredentialOfferSession :=
  {| createdAt := t;
     credentialOffer :=
       JObject [("credential_offer",
                 JObject [("credential_issuer", JString "test");
                          ("credentials", JArray [JString "test"])])] |}.

Definition emptyStore (t : Z) : store := {| ttl := t; states := ∅ |}.

(** The store the test suite sets up before each test: three sessions
    created a day before [t], at [t] and a day after [t]. *)
Definition testStore (lifetime t : Z) : store :=
  setState "2" (sampleSession (t + day))
    (setState "1" (sampleSession t)
       (setState "0" (sampleSession (t - day)) (emptyStore lifetime))).

End StoreSpec.

Module RequestSpec.
Import CredentialRequestUtil.

(** A [getFormatForVersion] that maps [jwt_vc_json] to its draft-8 name. *)
Definition sampleFormatForVersion (fmt : string) (v : OpenId4VCIVersion) : result string :=
  if String.eqb fmt "jwt_vc_json" then Ok "jwt_vc" else Ok fmt.

Definition onlyVerifiableCredential : UniformCredentialRequest :=
  {| format := "jwt_vc_json";
     proof := JObject [("proof_type", JString "jwt")];
     types := Some ["VerifiableCredential"; "VerifiableCredential"];
     credential_definition := None |}.

End RequestSpec.

Module JsonSpec.
Import Json.

Fixpoint distinct (l : list string) : bool :=
  match l with
  | [] => true
  | k :: l' => negb (existsb (String.eqb k) l') && distinct l'
  end.

(** The JSON values: no undefined anywhere, every number a safe integer,
    and the keys of every object pairwise distinct. *)
Fixpoint is_json (v : value) : bool :=
  match v with
  | JUndefined => false
  | JNumber n => is_safe_integer n
  | JArray l => forallb is_json l
  | JObject o => forallb (fun kv => is_json (snd kv)) o && distinct (map fst o)
  | _ => true
  end.

(** The representation invariant of values: the keys of every object are
    pairwise distinct and every number is a safe integer. *)
Fixpoint representable (v : value) : bool :=
  match v with
  | JNumber n => is_safe_integer n
  | JArray l => forallb representable l
  | JObject o => forallb (fun kv => representable (snd kv)) o && distinct (map fst o)
  | _ => true
  end.

(** The JSON document a value denotes: a property holding undefined is not
    part of it, and an undefined array element reads as [null]. *)
Fixpoint json_form (v : value) : value :=
  match v with
  | JArray l =>
      JArray (map (fun x => match x with
                            | JUndefined => JNull
                            | _ => json_form x
                            end) l)
  | JObject o =>
      JObject (omap (fun kv => match snd kv with
                               | JUndefined => None
                               | _ => Some (fst kv, json_form (snd kv))
                               end) o)
  | _ => v
  end.

(** The number of values, elements and members of [v]: the recursion depth
    [parse_value] needs to read its text back. *)
Fixpoint size (v : value) : nat :=
  match v with
  | JArray l => S (list_sum (map (fun x => S (size x)) l))
  | JObject o => S (list_sum (map (fun kv => S (size (snd kv))) o))
  | _ => 1
  end.

Section Text.

Variable Number_toString : Z -> string.

(** The text of a value that is known to have one. *)
Definition text (v : value) : string :=
  default "null" (stringify Number_toString v).

Definition member_text (kv : string * value) : string :=
  quote (fst kv) +:+ ":" +:+ text (snd kv).

(** The text starts with a character that is neither white space nor a
    closing bracket. *)
Definition starts_value (t : string) : bool :=
  match t with
  | String c _ => negb (is_ws c) && negb (Ascii.eqb c "]") && negb (Ascii.eqb c "}")
  | EmptyString => false
  end.

(** The text does not go on with a digit. *)
Definition ends_number (rest : string) : bool :=
  match rest with
  | String c _ => negb (is_digit c)
  | EmptyString => true
  end.

(** [parse_value] reads the text of [v] back, with fuel to spare, in front
    of any continuation that does not extend a number. *)
Definition reads_back (v : value) : Prop :=
  is_json v = true ->
  forall fuel rest,
    (size v <= fuel)%nat -> ends_number rest = true ->
    parse_value fuel (text v +:+ rest) = Some (v, rest).

End Text.

(** Outside the safe integers: the digits in full. *)
Definition digits_in_full (n : Z) : string := string_of_Z n.

(** Url-decoding a query value and JSON-parsing it. *)
Definition decoded_payload (q : string) : option value :=
  match Uri.decodeURIComponent q with
  | Ok t => parse t
  | Throw _ => None
  end.

Definition sampleOffer : value :=
  JObject [("credential_issuer", JString "https://issuer.example.org");
           ("credential_configuration_ids", JArray [JString "UniversityDegree_JWT"]);
           ("grants",
            JObject [(CredentialOfferUtils.PRE_AUTH_GRANT,
                      JObject [("pre-authorized_code", JString "abc");
                               ("tx_code", JObject [("length", JNumber 4);
                                                    ("input_mode", JString "numeric")])])])].

Definition sampleOfferObject : CredentialOfferUtils.OfferObject.t :=
  {| CredentialOfferUtils.OfferObject.credential_offer := sampleOffer;
     CredentialOfferUtils.OfferObject.credential_offer_uri := None;
     CredentialOfferUtils.OfferObject.scheme := None;
     CredentialOfferUtils.OfferObject.baseUri := None |}.

(** The payload [createCredentialOfferObject] builds from the sample
    metadata for a pre-authorized code without [txCode]. *)
Definition preAuthorizedOffer : value :=
  JObject [("credential_issuer", JString "https://issuer.example.org");
           ("credential_configuration_ids", JArray [JString "UniversityDegree_JWT"]);
           ("grants",
            JObject [(CredentialOfferUtils.PRE_AUTH_GRANT,
                      JObject [("pre-authorized_code", JString "abc");
                               ("tx_code", JUndefined)])])].

Definition preAuthorizedOfferObject : CredentialOfferUtils.OfferObject.t :=
  {| CredentialOfferUtils.OfferObject.credential_offer := preAuthorizedOffer;
     CredentialOfferUtils.OfferObject.credential_offer_uri := None;
     CredentialOfferUtils.OfferObject.scheme := None;
     CredentialOfferUtils.OfferObject.baseUri := None |}.

Definition noUriOpts : CredentialOfferUtils.UriOpts.t :=
  {| CredentialOfferUtils.UriOpts.scheme := None;
     CredentialOfferUtils.UriOpts.baseUri := None |}.

End JsonSpec.

Module ResolverSpec.
Import JwtVerifier.

(** The [type] member of a verifier. *)
Definition verifier_type (v : Verifier) : JwtType :=
  match v with
  | DidJwtVerifier t _ => t
  | X5cJwtVerifier t _ _ => t
  | CustomJwtVerifier t => t
  | JwkJwtVerifier t _ _ => t
  | OpenIdFederationJwtVerifier t _ => t
  end.

(** The [jwkThumbprint] member, absent on every verifier but the id-token
    Jwk verifier. *)
Definition verifier_thumbprint (v : Verifier) : option string :=
  match v with
  | JwkJwtVerifier _ _ tp => tp
  | _ => None
  end.

(** The [kid] header names a DID: it starts with [did:]. *)
Definition did_kid (j : Jwt) : bool :=
  match kid (header j) with
  | Some k => startsWith k "did:"
  | None => false
  end.

(** The [x5c] header is a non-empty array of strings. *)
Definition certificate_chain (c : value) : Prop :=
  exists certs : list string, certs <> [] /\ c = JArray (map JString certs).

(** What auto-detection returned, read off the verifier. *)
Definition detected_from (j : Jwt) (type : JwtType) (v : Verifier) : Prop :=
  match v with
  | DidJwtVerifier t url =>
      t = type /\ kid (header j) = Some url
      /\ startsWith url "did:" = true /\ includes url "#" = true
  | X5cJwtVerifier t chain issuer =>
      t = type /\ did_kid j = false
      /\ chain = x5c (header j) /\ certificate_chain chain
      /\ issuer = iss (payload j)
  | JwkJwtVerifier t key thumbprint =>
      t = type /\ did_kid j = false /\ truthy (x5c (header j)) = false
      /\ key = jwk (header j) /\ VerifierSpec.is_object key = true
      /\ (type <> id_token -> thumbprint = None)
      /\ (type = id_token -> exists s, thumbprint = Some s /\ sub_jwk (payload j) = JString s)
  | CustomJwtVerifier t =>
      t = type /\ did_kid j = false
      /\ truthy (x5c (header j)) = false /\ truthy (jwk (header j)) = false
  | OpenIdFederationJwtVerifier _ _ => False
  end.

(** Where a verifier returned for a request object comes from. *)
Definition resolved_from (j : Jwt) (v : Verifier) : Prop :=
  match v with
  | DidJwtVerifier _ url =>
      kid (header j) = Some url /\ includes url "#" = true
      /\ (client_id_scheme (payload j) = Some "did" \/ startsWith url "did:" = true)
  | X5cJwtVerifier _ chain issuer =>
      chain = x5c (header j) /\ certificate_chain chain /\ issuer = iss (payload j)
  | JwkJwtVerifier _ key _ =>
      client_id_scheme (payload j) = Some "verifier_attestation"
      \/ (key = jwk (header j) /\ VerifierSpec.is_object key = true)
  | CustomJwtVerifier _ =>
      did_kid j = false
      /\ truthy (x5c (header j)) = false /\ truthy (jwk (header j)) = false
  | OpenIdFederationJwtVerifier _ entityId =>
      client_id_scheme (payload j) = Some "entity_id"
      /\ client_id (payload j) = Some entityId /\ startsWith entityId "http" = true
  end.

(** The values of [client_id_scheme] the resolver dispatches on. *)
Definition known_scheme (s : string) : bool :=
  String.eqb s "did" || String.eqb s "pre-registered"
  || String.eqb s "x509_san_dns" || String.eqb s "x509_san_uri"
  || String.eqb s "redirect_uri" || String.eqb s "verifier_attestation"
  || String.eqb s "entity_id".

(** A request object with the given headers and scheme. *)
Definition requestWith (h : JwtHeader) (scheme clientId : option string) : Jwt :=
  {| header := h;
     payload := {| iss := JString "https://client.example.org"; sub := JUndefined;
                   exp := JUndefined; cnf := JUndefined; redirect_uris := JUndefined;
                   sub_jwk := JUndefined;
                   client_id_scheme := scheme; client_id := clientId;
                   redirect_uri := None |} |}.

Definition sampleChain : value :=
  JArray [JString "MIIBkTCCATegAwIBAgIU"; JString "MIIBjzCCATWgAwIBAgIU"].

Definition x5cHeader : JwtHeader :=
  {| kid := Some "did:example:123#key-1"; typ := JString "JWT"; x5c := sampleChain;
     jwk := JUndefined; jwt := None |}.

Definition jwkHeader : JwtHeader :=
  {| kid := None; typ := JString "JWT"; x5c := JUndefined;
     jwk := VerifierSpec.sampleJwk; jwt := None |}.

End ResolverSpec.

Module OfferFlowSpec.
Import CredentialOfferUtils OfferSpec.

(** The object [createCredentialOfferObject] returns, as
    [createCredentialOfferURIFromObject] reads it; [payload] is the value of
    its [credential_offer] member. *)
Definition offer_object (r : Offer.t) (payload : value) : OfferObject.t :=
  {| OfferObject.credential_offer := payload;
     OfferObject.credential_offer_uri := Offer.credential_offer_uri r;
     OfferObject.scheme := Some (Offer.scheme r);
     OfferObject.baseUri := Some (Offer.baseUri r) |}.

Definition with_payload (o : OfferObject.t) (payload : value) : OfferObject.t :=
  {| OfferObject.credential_offer := payload;
     OfferObject.credential_offer_uri := OfferObject.credential_offer_uri o;
     OfferObject.scheme := OfferObject.scheme o;
     OfferObject.baseUri := OfferObject.baseUri o |}.

Definition with_offer_uri (o : OfferObject.t) (uri : string) : OfferObject.t :=
  {| OfferObject.credential_offer := OfferObject.credential_offer o;
     OfferObject.credential_offer_uri := Some uri;
     OfferObject.scheme := OfferObject.scheme o;
     OfferObject.baseUri := OfferObject.baseUri o |}.

(** Every character is a decimal digit. *)
Fixpoint digits (s : string) : bool :=
  match s with
  | EmptyString => true
  | String c s' => Ascii.leb "0" c && Ascii.leb c "9" && digits s'
  end.

(** Only a scheme is supplied. *)
Definition schemeOpts (scheme : string) : Opts.t :=
  {| Opts.credentialOffer := None; Opts.credentialOfferUri := None;
     Opts.scheme := Some scheme; Opts.baseUri := None; Opts.issuerState := None;
     Opts.txCode := JUndefined; Opts.preAuthorizedCode := None |}.

(** Only the location of a hosted offer is supplied. *)
Definition hostedOpts (uri : string) : Opts.t :=
  {| Opts.credentialOffer := None; Opts.credentialOfferUri := Some uri;
     Opts.scheme := None; Opts.baseUri := None; Opts.issuerState := None;
     Opts.txCode := JUndefined; Opts.preAuthorizedCode := None |}.

Definition hostedOfferObject (uri : string) : OfferObject.t :=
  {| OfferObject.credential_offer := JUndefined;
     OfferObject.credential_offer_uri := Some uri;
     OfferObject.scheme := None;
     OfferObject.baseUri := None |}.

Definition sampleSession : CredentialOfferSession :=
  {| createdAt := 1700000000000; credentialOffer := JsonSpec.sampleOffer |}.

End OfferFlowSpec.

Module RequestFlowSpec.
Import CredentialRequestUtil.

(** The predicate of the filter: [type !== 'VerifiableCredential']. *)
Definition notVerifiableCredential (type : string) : bool :=
  negb (String.eqb type "VerifiableCredential").

(** The formats [getTypesFromRequest] has a branch for. *)
Definition supported_formats : list string :=
  ["jwt_vc_json"; "jwt_vc"; "jwt_vc_json-ld"; "ldp_vc"; "vc+sd-jwt"].

(** The formats whose types are read from [credential_definition]. *)
Definition definition_formats : list string :=
  ["jwt_vc_json-ld"; "ldp_vc"; "vc+sd-jwt"].

Definition degreeRequest : UniformCredentialRequest :=
  {| format := "jwt_vc_json";
     proof := JObject [("proof_type", JString "jwt")];
     types := Some ["VerifiableCredential"; "UniversityDegreeCredential"];
     credential_definition := None |}.

Definition sdJwtRequest : UniformCredentialRequest :=
  {| format := "vc+sd-jwt";
     proof := JObject [("proof_type", JString "jwt")];
     types := None;
     credential_definition :=
       Some {| CredentialDefinition.types := None;
               CredentialDefinition.vct := "https://credentials.example.org/identity" |} |}.

Definition ldpRequest : UniformCredentialRequest :=
  {| format := "ldp_vc";
     proof := JObject [("proof_type", JString "jwt")];
     types := None;
     credential_definition := None |}.

(** A [getFormatForVersion] that rejects every format. *)
Definition failingFormatForVersion (fmt : string) (v : OpenId4VCIVersion) : result string :=
  Throw (Error ("Format " +:+ fmt +:+ " is not supported"))%string.

End RequestFlowSpec.

(* ===================================================================== *)
(** * Properties of the string methods and of property lists *)
(* ===================================================================== *)

(** The string methods on the texts the sources apply them to. *)
Lemma string_methods_examples :
  split "eyJhbGciOiJub25lIn0.e30" "." = ["eyJhbGciOiJub25lIn0"; "e30"]
  /\ split "a.b." "." = ["a"; "b"; EmptyString]
  /\ split EmptyString "." = [EmptyString]
  /\ split "https://issuer.example.org/path" "://" = ["https"; "issuer.example.org/path"]
  /\ replace "https://issuer.example.org" "https://" EmptyString = "issuer.example.org"
  /\ replace "openid-credential-offer://" "://" EmptyString = "openid-credential-offer"
  /\ replace "a://b://c" "://" EmptyString = "ab://c"
  /\ includes "did:example:123#key-1" "#" = true
  /\ includes "did:example:123" "#" = false
  /\ startsWith "did:example:123" "did:" = true
  /\ startsWith "https://client.example.org" "http" = true.
Proof. repeat split. Qed.

Lemma prefix_empty s : String.prefix EmptyString s = true.
Proof. destruct s; reflexivity. Qed.

Lemma prefix_char c a s :
  String.prefix (String c EmptyString) (String a s) = Ascii.eqb a c.
Proof.
  simpl. destruct (ascii_dec c a) as [->|Hne].
  - rewrite prefix_empty, Ascii.eqb_refl. reflexivity.
  - symmetry. apply Ascii.eqb_neq. congruence.
Qed.

Lemma split_from_char_length c s : forall fuel cur,
  (String.length s < fuel)%nat ->
  length (split_from fuel (String c EmptyString) cur s) = S (count_char c s).
Proof.
  induction s as [|a s IH]; intros [|fuel] cur Hlt; simpl in Hlt; try lia.
  - reflexivity.
  - cbn [split_from]. rewrite prefix_char. cbn [count_char String.length drop].
    destruct (Ascii.eqb a c); cbn [length]; rewrite IH by lia; lia.
Qed.

Lemma split_char_length c s :
  length (split s (String c EmptyString)) = S (count_char c s).
Proof. unfold split. apply split_from_char_length. lia. Qed.

Lemma count_char_app c s t :
  count_char c (s +:+ t) = (count_char c s + count_char c t)%nat.
Proof. induction s as [|a s IH]; simpl; [reflexivity | rewrite IH; lia]. Qed.

(** A compact serialisation with a signature part, [header.payload.signature],
    splits into more than two segments. *)
Lemma split_three_segments h p sg :
  (2 < length (split (h +:+ "." +:+ p +:+ "." +:+ sg) "."))%nat.
Proof. rewrite split_char_length, !count_char_app. simpl. lia. Qed.

Lemma includes_nonempty s pat :
  includes s pat = true -> pat <> EmptyString -> s <> EmptyString.
Proof.
  intros H Hp ->. simpl in H. destruct pat; [congruence | discriminate].
Qed.

Lemma opt_str_eqb_eq a b : opt_str_eqb a b = true <-> a = b.
Proof.
  destruct a, b; simpl; try (split; congruence).
  rewrite String.eqb_eq. split; congruence.
Qed.

Lemma strict_eq_str_eq v s : strict_eq_str v s = true <-> v = value_of_opt_str s.
Proof.
  destruct v, s; simpl; try (split; congruence).
  rewrite String.eqb_eq. split; congruence.
Qed.

Lemma typeof_string v : String.eqb (typeof v) "string" = is_string v.
Proof. destruct v; reflexivity. Qed.

Lemma typeof_number v : String.eqb (typeof v) "number" = true <-> exists n, v = JNumber n.
Proof.
  destruct v; simpl; split; try discriminate; try (intros [? [=]]); eauto.
Qed.

Lemma truthy_string v :
  truthy v = true /\ is_string v = true <-> exists s, v = JString s /\ s <> EmptyString.
Proof.
  split.
  - intros [Ht Hs]. destruct v; try discriminate. simpl in Ht.
    apply negb_true_iff, String.eqb_neq in Ht. eauto.
  - intros (s & -> & Hne). simpl. apply String.eqb_neq in Hne. rewrite Hne. auto.
Qed.

Lemma truthy_number v :
  truthy v = true /\ String.eqb (typeof v) "number" = true
  <-> exists n, v = JNumber n /\ n <> 0%Z.
Proof.
  split.
  - intros [Ht Hn]. apply typeof_number in Hn as [n ->]. simpl in Ht.
    apply negb_true_iff, Z.eqb_neq in Ht. eauto.
  - intros (n & -> & Hne). simpl. apply Z.eqb_neq in Hne. rewrite Hne. auto.
Qed.

Lemma forallb_is_string (l : list value) :
  forallb is_string l = true <-> exists ss, l = map JString ss.
Proof.
  induction l as [|v l IH]; simpl.
  - split; [exists []; reflexivity | reflexivity].
  - rewrite andb_true_iff, IH. split.
    + intros [Hv [ss ->]]. destruct v; try discriminate. exists (s :: ss). reflexivity.
    + intros [[|s ss] [=]]. subst. split; [reflexivity | eauto].
Qed.

Lemma existsb_not_string (l : list value) :
  existsb (fun v => negb (String.eqb (typeof v) "string")) l = negb (forallb is_string l).
Proof.
  induction l as [|v l IH]; simpl; [reflexivity|].
  rewrite IH, typeof_string. destruct (is_string v); reflexivity.
Qed.

Lemma existsb_strict_eq_str (l : list string) (r : string) :
  existsb (fun x => strict_eq_str x (Some r)) (map JString l) = true <-> In r l.
Proof.
  induction l as [|s l IH]; simpl; [split; [discriminate | tauto]|].
  rewrite orb_true_iff, IH, String.eqb_eq. tauto.
Qed.

Lemma obj_get_set_eq k v o : obj_get k (obj_set k v o) = v.
Proof.
  induction o as [|[k' v'] o IH]; simpl.
  - rewrite String.eqb_refl. reflexivity.
  - destruct (String.eqb k k') eqn:E; simpl; rewrite ?String.eqb_refl, ?E; auto.
Qed.

Lemma obj_get_set_ne k k' v o : k' <> k -> obj_get k' (obj_set k v o) = obj_get k' o.
Proof.
  intros Hne. induction o as [|[k0 v0] o IH]; simpl.
  - apply String.eqb_neq in Hne. rewrite Hne. reflexivity.
  - destruct (String.eqb k k0) eqn:E; simpl.
    + apply String.eqb_eq in E. subst k0.
      apply String.eqb_neq in Hne. rewrite Hne. reflexivity.
    + rewrite IH. reflexivity.
Qed.

Lemma obj_set_set k v o : obj_set k v (obj_set k v o) = obj_set k v o.
Proof.
  induction o as [|[k' v'] o IH]; simpl.
  - rewrite String.eqb_refl. reflexivity.
  - destruct (String.eqb k k') eqn:E; simpl; rewrite ?String.eqb_refl, ?E, ?IH; auto.
Qed.

(* ===================================================================== *)
(** * JwtVerifier: trust-verifier resolution *)
(* ===================================================================== *)

Section JwtVerifierProofs.
Import JwtVerifier VerifierSpec.

Variable DigestAlgorithm : Type.
Variable digestOf : string -> result DigestAlgorithm.
Variable thumbprintOf : value -> DigestAlgorithm -> result string.
Variable parseJWT : string -> result Jwt.

Local Abbreviation getJwkVerifier :=
  (JwtVerifier.getJwkVerifier DigestAlgorithm digestOf thumbprintOf).
Local Abbreviation getJwtVerifierWithContext :=
  (JwtVerifier.getJwtVerifierWithContext DigestAlgorithm digestOf thumbprintOf).
Local Abbreviation getRequestObjectJwtVerifier :=
  (JwtVerifier.getRequestObjectJwtVerifier DigestAlgorithm digestOf thumbprintOf parseJWT).

(** C1. For an id-token whose [jwk] header is an object, [getJwkVerifier]
    succeeds exactly when [sub_jwk] is a string thumbprint URI and the
    thumbprint recomputed over the presented [jwk], with the digest algorithm
    derived from that URI, equals it; the verifier returned then carries
    [jwkThumbprint = sub_jwk].  When the recomputed thumbprint differs the
    call fails with the invalid-[sub_jwk] error. *)
Theorem getJwkVerifier_id_token_thumbprint (j : Jwt) :
  truthy (jwk (header j)) = true ->
  typeof (jwk (header j)) = "object" ->
  (forall v,
      getJwkVerifier j id_token = Ok v <->
      exists s alg,
        sub_jwk (payload j) = JString s
        /\ digestOf s = Ok alg
        /\ thumbprintOf (jwk (header j)) alg = Ok s
        /\ v = JwkJwtVerifier id_token (jwk (header j)) (Some s))
  /\ (forall s alg s',
         sub_jwk (payload j) = JString s ->
         digestOf s = Ok alg ->
         thumbprintOf (jwk (header j)) alg = Ok s' ->
         s' <> s ->
         getJwkVerifier j id_token =
           Throw (SIOPError INVALID_JWT " 'id-token' contains an invalid sub_jwk claim.")).
Proof.
  intros Htruthy Htypeof.
  unfold JwtVerifier.getJwkVerifier. rewrite Htruthy, Htypeof. simpl.
  split.
  - intros v. split.
    + destruct (sub_jwk (payload j)) as [| | | |s| |]; try discriminate.
      destruct (digestOf s) as [alg|] eqn:Hd; simpl; try discriminate.
      destruct (thumbprintOf (jwk (header j)) alg) as [s'|] eqn:Hc; simpl; try discriminate.
      destruct (String.eqb s' s) eqn:He; simpl; try discriminate.
      apply String.eqb_eq in He. subst s'.
      intros [= <-]. exists s, alg. auto.
    + intros (s & alg & Hs & Hd & Hc & ->).
      rewrite Hs, Hd. simpl. rewrite Hc. simpl. rewrite String.eqb_refl. reflexivity.
  - intros s alg s' Hs Hd Hc Hne.
    rewrite Hs, Hd. simpl. rewrite Hc. simpl.
    apply String.eqb_neq in Hne. rewrite Hne. reflexivity.
Qed.

(** ** DID resolution *)

Lemma getDidJwtVerifier_fragment j type k :
  kid (header j) = Some k -> includes k "#" = true ->
  getDidJwtVerifier j type = Ok (DidJwtVerifier type k).
Proof.
  intros Hk Hi. unfold getDidJwtVerifier. rewrite Hk.
  assert (k <> EmptyString) as Hne by (eapply includes_nonempty; eauto; discriminate).
  simpl. apply String.eqb_neq in Hne. rewrite Hne, Hi. reflexivity.
Qed.

Lemma getDidJwtVerifier_no_fragment j type :
  (forall k, kid (header j) = Some k -> includes k "#" = false) ->
  exists detail, getDidJwtVerifier j type = Throw (SIOPError INVALID_JWT detail).
Proof.
  intros H. unfold getDidJwtVerifier.
  destruct (kid (header j)) as [k|]; [|eauto].
  rewrite (H k eq_refl). simpl. destruct (negb (k =? EmptyString)); simpl; eauto.
Qed.

Lemma request_object_undeclared j raw :
  truthy_str (client_id_scheme (payload j)) = false ->
  getRequestObjectJwtVerifier j raw = getJwtVerifierWithContext j request_object.
Proof.
  intros H. unfold JwtVerifier.getRequestObjectJwtVerifier. rewrite H. reflexivity.
Qed.

Lemma request_object_did j raw :
  client_id_scheme (payload j) = Some "did" ->
  getRequestObjectJwtVerifier j raw = getDidJwtVerifier j request_object.
Proof.
  intros H. unfold JwtVerifier.getRequestObjectJwtVerifier. rewrite H. reflexivity.
Qed.

(** C5 (amended). With no declared scheme or with scheme [did], a token
    whose [kid] contains [#] and starts with [did:] resolves to the Did
    verifier with [didUrl] equal to the [kid].  A token whose [kid] lacks
    [#] fails with the invalid-token error whenever the DID path is taken,
    that is under scheme [did], or under no scheme when the [kid] starts
    with [did:]. *)
Theorem did_resolution (j : Jwt) (raw : string) :
  did_or_undeclared (client_id_scheme (payload j)) ->
  (forall k,
      kid (header j) = Some k ->
      includes k "#" = true -> startsWith k "did:" = true ->
      getRequestObjectJwtVerifier j raw = Ok (DidJwtVerifier request_object k)
      /\ forall type, getJwtVerifierWithContext j type = Ok (DidJwtVerifier type k))
  /\ ((forall k, kid (header j) = Some k -> includes k "#" = false) ->
      client_id_scheme (payload j) = Some "did"
      \/ (exists k, kid (header j) = Some k /\ startsWith k "did:" = true) ->
      exists detail,
        getRequestObjectJwtVerifier j raw = Throw (SIOPError INVALID_JWT detail)).
Proof.
  intros Hscheme. split.
  - intros k Hk Hfrag Hdid.
    assert (forall type, getJwtVerifierWithContext j type = Ok (DidJwtVerifier type k)) as Hctx.
    { intros type. unfold JwtVerifier.getJwtVerifierWithContext. rewrite Hk, Hdid.
      now apply getDidJwtVerifier_fragment. }
    split; [|exact Hctx].
    destruct Hscheme as [Hnone|Hs].
    + rewrite request_object_undeclared by exact Hnone. apply Hctx.
    + rewrite request_object_did by exact Hs. now apply getDidJwtVerifier_fragment.
  - intros Hno [Hs|(k & Hk & Hdid)].
    + rewrite request_object_did by exact Hs. now apply getDidJwtVerifier_no_fragment.
    + destruct Hscheme as [Hnone|Hs].
      * rewrite request_object_undeclared by exact Hnone.
        unfold JwtVerifier.getJwtVerifierWithContext. rewrite Hk, Hdid.
        now apply getDidJwtVerifier_no_fragment.
      * rewrite request_object_did by exact Hs. now apply getDidJwtVerifier_no_fragment.
Qed.

(** ** The [redirect_uri] scheme *)

Lemma request_object_redirect_uri j raw :
  client_id_scheme (payload j) = Some "redirect_uri" ->
  getRequestObjectJwtVerifier j raw =
    if truthy_str (redirect_uri (payload j))
       && negb (opt_str_eqb (redirect_uri (payload j)) (client_id (payload j)))
    then Throw (SIOPError INVALID_CLIENT_ID_MUST_MATCH_REDIRECT_URI EmptyString)
    else if (2 <? length (split raw "."))%nat
    then Throw (SIOPError INVALID_JWT " 'request-object' JWT must not not be signed.")
    else getJwtVerifierWithContext j request_object.
Proof.
  intros H. unfold JwtVerifier.getRequestObjectJwtVerifier. rewrite H. reflexivity.
Qed.

(** C2 (amended). Under scheme [redirect_uri]: a [redirect_uri] claim that
    is present (non-empty) and differs from [client_id] fails with the
    client-id mismatch error; otherwise a raw token that splits on [.] into
    more than two segments, in particular [header.payload.signature], fails
    with the must-not-be-signed error; otherwise the call defers to
    auto-detection. *)
Theorem redirect_uri_scheme (j : Jwt) (raw : string) :
  client_id_scheme (payload j) = Some "redirect_uri" ->
  (truthy_str (redirect_uri (payload j)) = true ->
   redirect_uri (payload j) <> client_id (payload j) ->
   getRequestObjectJwtVerifier j raw =
     Throw (SIOPError INVALID_CLIENT_ID_MUST_MATCH_REDIRECT_URI EmptyString))
  /\ (truthy_str (redirect_uri (payload j)) = false
      \/ redirect_uri (payload j) = client_id (payload j) ->
      ((2 < length (split raw "."))%nat ->
       getRequestObjectJwtVerifier j raw =
         Throw (SIOPError INVALID_JWT " 'request-object' JWT must not not be signed."))
      /\ ((exists h p sg, raw = h +:+ "." +:+ p +:+ "." +:+ sg) ->
          getRequestObjectJwtVerifier j raw =
            Throw (SIOPError INVALID_JWT " 'request-object' JWT must not not be signed."))
      /\ ((length (split raw ".") <= 2)%nat ->
          getRequestObjectJwtVerifier j raw = getJwtVerifierWithContext j request_object)).
Proof.
  intros Hs. rewrite request_object_redirect_uri by exact Hs. split.
  - intros Ht Hne. rewrite Ht.
    destruct (opt_str_eqb _ _) eqn:He; [apply opt_str_eqb_eq in He; contradiction|].
    reflexivity.
  - intros Hpass.
    assert (truthy_str (redirect_uri (payload j))
            && negb (opt_str_eqb (redirect_uri (payload j)) (client_id (payload j))) = false)
      as ->.
    { destruct Hpass as [->|He]; [reflexivity|].
      apply opt_str_eqb_eq in He. rewrite He. apply andb_false_r. }
    assert (forall b : bool, b = true ->
              (if b then Throw (SIOPError INVALID_JWT " 'request-object' JWT must not not be signed.")
               else getJwtVerifierWithContext j request_object) =
              Throw (SIOPError INVALID_JWT " 'request-object' JWT must not not be signed."))
      as Hsigned by (intros b ->; reflexivity).
    repeat split.
    + intros Hlen. apply Hsigned. apply Nat.ltb_lt. exact Hlen.
    + intros (h & p & sg & ->). apply Hsigned. apply Nat.ltb_lt. apply split_three_segments.
    + intros Hlen. apply Nat.ltb_ge in Hlen. rewrite Hlen. reflexivity.
Qed.

(** ** The [verifier_attestation] scheme *)

Lemma redirect_uris_rejected_false uris redirectUri :
  redirect_uris_rejected uris redirectUri = false <-> redirect_uri_allowed uris redirectUri.
Proof.
  unfold redirect_uris_rejected, redirect_uri_allowed. split.
  - intros H. repeat (apply orb_false_iff in H as [H ?]).
    destruct uris as [| | | | |l|]; try discriminate. simpl in *.
    rewrite existsb_not_string in *.
    destruct (forallb is_string l) eqn:Hl; try discriminate.
    apply forallb_is_string in Hl as [ss ->].
    destruct redirectUri as [r|]; try discriminate.
    exists ss, r. repeat split; auto.
    + simpl in *. intros ->. discriminate.
    + apply existsb_strict_eq_str. unfold array_includes, array_some in *.
      now apply negb_false_iff.
  - intros (l & r & -> & -> & Hne & Hin). simpl.
    rewrite existsb_not_string.
    assert (forallb is_string (map JString l) = true) as -> by (apply forallb_is_string; eauto).
    apply String.eqb_neq in Hne. rewrite Hne. simpl.
    unfold array_includes, array_some.
    apply existsb_strict_eq_str in Hin. rewrite Hin. reflexivity.
Qed.

Lemma get_prop_object v k :
  typeof v = "object" -> v <> JNull -> get_prop v k = Ok (opt_get v k).
Proof. destruct v; simpl; try discriminate; congruence. Qed.

Lemma typeof_object v :
  typeof v = "object" <-> is_object v = true \/ v = JNull.
Proof.
  destruct v; simpl; split; try discriminate; auto; intros [H|H]; discriminate.
Qed.

Lemma attestation_accepted clientId att :
  attestation_rejected clientId att = false
  /\ typeof (opt_get (cnf (payload att)) "jwk") = "object"
  /\ cnf (payload att) <> JNull
  /\ opt_get (cnf (payload att)) "jwk" <> JNull
  <-> well_formed_attestation clientId att.
Proof.
  unfold attestation_rejected, well_formed_attestation.
  rewrite !orb_false_iff, !negb_false_iff.
  rewrite <- truthy_string, <- truthy_number, typeof_string, !strict_eq_str_eq, !String.eqb_eq.
  rewrite !typeof_object.
  split.
  - intros (((((((Ht & Hs) & Hi1) & Hi2) & He1) & He2) & [Hc|Hc]) & [Hj|Hj] & Hcn & Hjn);
      try contradiction.
    repeat split; assumption.
  - intros (Ht & Hs & (Hi1 & Hi2) & (He1 & He2) & Hc & Hj).
    repeat split; auto.
    + intros Hnull. rewrite Hnull in Hc. discriminate.
    + intros Hnull. rewrite Hnull in Hj. discriminate.
Qed.

Lemma request_object_verifier_attestation j raw a att :
  client_id_scheme (payload j) = Some "verifier_attestation" ->
  jwt (header j) = Some a -> a <> EmptyString ->
  typ (header j) = JString verifierAttestationSubtype ->
  parseJWT a = Ok att ->
  getRequestObjectJwtVerifier j raw =
    if attestation_rejected (client_id (payload j)) att
    then Throw (SIOPError BAD_VERIFIER_ATTESTATION EmptyString)
    else
      let* cnf_jwk := get_prop (cnf (payload att)) "jwk" in
      if negb (String.eqb (typeof cnf_jwk) "object")
      then Throw (SIOPError BAD_VERIFIER_ATTESTATION EmptyString)
      else if truthy (redirect_uris (payload att))
              && redirect_uris_rejected (redirect_uris (payload att))
                   (redirect_uri (payload j))
      then Throw (SIOPError BAD_VERIFIER_ATTESTATION_REDIRECT_URIS EmptyString)
      else Ok (JwkJwtVerifier request_object cnf_jwk None).
Proof.
  intros Hs Hj Ha Ht Hp.
  unfold JwtVerifier.getRequestObjectJwtVerifier. rewrite Hs, Hj, Ht. simpl.
  apply String.eqb_neq in Ha. rewrite Ha. simpl. rewrite Hp. reflexivity.
Qed.

(** A [cnf] member holding [null] passes the [typeof] test, and reading its
    [jwk] member then throws a [TypeError]. *)
Lemma verifier_attestation_null_cnf j raw a att :
  client_id_scheme (payload j) = Some "verifier_attestation" ->
  jwt (header j) = Some a -> a <> EmptyString ->
  typ (header j) = JString verifierAttestationSubtype ->
  parseJWT a = Ok att ->
  attestation_rejected (client_id (payload j)) att = false ->
  cnf (payload att) = JNull ->
  getRequestObjectJwtVerifier j raw = Throw TypeError.
Proof.
  intros Hs Hj Ha Ht Hp Hrej Hnull.
  rewrite (request_object_verifier_attestation j raw a att Hs Hj Ha Ht Hp).
  rewrite Hrej, Hnull. reflexivity.
Qed.

(** C6 (amended). Under scheme [verifier_attestation], with the attestation
    token present in the [jwt] header, the outer [typ] equal to the
    attestation subtype and the nested token parsed: the call fails with
    the bad-attestation error unless the nested [typ] is the subtype, [sub]
    equals the outer [client_id], [iss] is a (non-empty) string, [exp] a
    (non-zero) number and [cnf] is an object containing an object [jwk]
    (objects as [typeof] sees them; a [cnf] or [cnf.jwk] that is [null] is
    left aside); it fails with the redirect-URIs error when the nested
    [redirect_uris] is truthy unless it is an array of strings that lists
    the outer, present [redirect_uri]; and otherwise it returns the Jwk
    verifier for the nested [cnf.jwk] with type [request-object]. *)
Theorem verifier_attestation_scheme (j : Jwt) (raw a : string) (att : Jwt) :
  client_id_scheme (payload j) = Some "verifier_attestation" ->
  jwt (header j) = Some a -> a <> EmptyString ->
  typ (header j) = JString verifierAttestationSubtype ->
  parseJWT a = Ok att ->
  (~ well_formed_attestation (client_id (payload j)) att ->
   cnf (payload att) <> JNull ->
   opt_get (cnf (payload att)) "jwk" <> JNull ->
   getRequestObjectJwtVerifier j raw =
     Throw (SIOPError BAD_VERIFIER_ATTESTATION EmptyString))
  /\ (well_formed_attestation (client_id (payload j)) att ->
      truthy (redirect_uris (payload att)) = true ->
      ~ redirect_uri_allowed (redirect_uris (payload att)) (redirect_uri (payload j)) ->
      getRequestObjectJwtVerifier j raw =
        Throw (SIOPError BAD_VERIFIER_ATTESTATION_REDIRECT_URIS EmptyString))
  /\ (well_formed_attestation (client_id (payload j)) att ->
      truthy (redirect_uris (payload att)) = false
      \/ redirect_uri_allowed (redirect_uris (payload att)) (redirect_uri (payload j)) ->
      getRequestObjectJwtVerifier j raw =
        Ok (JwkJwtVerifier request_object (opt_get (cnf (payload att)) "jwk") None)).
Proof.
  intros Hs Hj Ha Ht Hp.
  rewrite (request_object_verifier_attestation j raw a att Hs Hj Ha Ht Hp).
  split; [|split].
  - intros Hbad Hnn Hjn.
    destruct (attestation_rejected _ att) eqn:Hrej; [reflexivity|].
    apply orb_false_iff in Hrej as Hcnf. destruct Hcnf as [_ Hcnf].
    apply negb_false_iff, String.eqb_eq in Hcnf.
    rewrite get_prop_object by assumption. simpl.
    destruct (String.eqb (typeof (opt_get (cnf (payload att)) "jwk")) "object") eqn:Hjwk;
      [|reflexivity].
    exfalso. apply Hbad. apply attestation_accepted.
    apply String.eqb_eq in Hjwk. auto.
  - intros Hwf Hdecl Hnot.
    apply attestation_accepted in Hwf as (Hrej & Hjwk & Hnn & _). rewrite Hrej.
    apply orb_false_iff in Hrej as [_ Hcnf].
    apply negb_false_iff, String.eqb_eq in Hcnf.
    rewrite get_prop_object by assumption. simpl. rewrite Hjwk, Hdecl. simpl.
    destruct (redirect_uris_rejected _ _) eqn:Hr; [reflexivity|].
    apply redirect_uris_rejected_false in Hr. contradiction.
  - intros Hwf Hru.
    apply attestation_accepted in Hwf as (Hrej & Hjwk & Hnn & _). rewrite Hrej.
    apply orb_false_iff in Hrej as [_ Hcnf].
    apply negb_false_iff, String.eqb_eq in Hcnf.
    rewrite get_prop_object by assumption. simpl. rewrite Hjwk. simpl.
    destruct Hru as [-> | Hok]; [reflexivity|].
    apply redirect_uris_rejected_false in Hok. rewrite Hok, andb_false_r. reflexivity.
Qed.

End JwtVerifierProofs.

(** ** Concrete tokens *)

Section JwtVerifierExamples.
Import JwtVerifier VerifierSpec.

Local Abbreviation resolve parse :=
  (JwtVerifier.getRequestObjectJwtVerifier unit sampleDigest sampleThumbprint parse).

Lemma getJwkVerifier_id_token_thumbprint_witness :
  truthy (jwk (header sampleIdToken)) = true
  /\ typeof (jwk (header sampleIdToken)) = "object"
  /\ JwtVerifier.getJwkVerifier unit sampleDigest sampleThumbprint sampleIdToken id_token
     = Ok (JwkJwtVerifier id_token sampleJwk (Some sampleThumbprintUri)).
Proof.
  split; [reflexivity|]. split; [reflexivity|].
  destruct (getJwkVerifier_id_token_thumbprint unit sampleDigest sampleThumbprint
              sampleIdToken eq_refl eq_refl) as [Hiff _].
  apply Hiff. exists sampleThumbprintUri, tt. repeat split.
Defined.

(** C5, as stated, fails: a [kid] without [#] that does not start with
    [did:] is not a failure under auto-detection; the token resolves to the
    custom verifier. *)
Lemma did_resolution_counterexample :
  kid (header (withKid "key-1" None)) = Some "key-1"
  /\ includes "key-1" "#" = false
  /\ client_id_scheme (payload (withKid "key-1" None)) = None
  /\ resolve (parseAs (withKid "key-1" None)) (withKid "key-1" None) "e30.e30"
     = Ok (CustomJwtVerifier request_object).
Proof. repeat split. Qed.

Lemma did_resolution_witness :
  did_or_undeclared (client_id_scheme (payload (withKid "did:example:123#key-1" None)))
  /\ resolve (parseAs (withKid "key-1" None)) (withKid "did:example:123#key-1" None) "e30.e30"
     = Ok (DidJwtVerifier request_object "did:example:123#key-1").
Proof.
  assert (did_or_undeclared
            (client_id_scheme (payload (withKid "did:example:123#key-1" None)))) as H
    by (left; reflexivity).
  split; [exact H|].
  destruct (did_resolution unit sampleDigest sampleThumbprint
              (parseAs (withKid "key-1" None))
              (withKid "did:example:123#key-1" None) "e30.e30" H) as [Hdid _].
  apply (Hdid "did:example:123#key-1"); reflexivity.
Defined.

(** C2, as stated, fails: with no [redirect_uri] claim at all the claim
    differs from [client_id], yet the call does not fail; the unsigned token
    resolves by auto-detection. *)
Lemma redirect_uri_scheme_counterexample :
  client_id_scheme (payload (redirectUriRequest (Some "https://client.example.org/cb") None))
    = Some "redirect_uri"
  /\ redirect_uri (payload (redirectUriRequest (Some "https://client.example.org/cb") None))
     <> client_id (payload (redirectUriRequest (Some "https://client.example.org/cb") None))
  /\ resolve (parseAs sampleIdToken)
       (redirectUriRequest (Some "https://client.example.org/cb") None)
       "eyJhbGciOiJub25lIn0.e30"
     = Ok (CustomJwtVerifier request_object).
Proof. split; [reflexivity|]. split; [discriminate|reflexivity]. Qed.

Lemma redirect_uri_scheme_witness :
  client_id_scheme
    (payload (redirectUriRequest (Some "https://client.example.org/cb")
                (Some "https://other.example.org/cb")))
    = Some "redirect_uri"
  /\ resolve (parseAs sampleIdToken)
       (redirectUriRequest (Some "https://client.example.org/cb")
          (Some "https://other.example.org/cb"))
       "eyJhbGciOiJub25lIn0.e30"
     = Throw (SIOPError INVALID_CLIENT_ID_MUST_MATCH_REDIRECT_URI EmptyString).
Proof.
  split; [reflexivity|].
  destruct (redirect_uri_scheme unit sampleDigest sampleThumbprint (parseAs sampleIdToken)
              (redirectUriRequest (Some "https://client.example.org/cb")
                 (Some "https://other.example.org/cb"))
              "eyJhbGciOiJub25lIn0.e30" eq_refl) as [Hmismatch _].
  apply Hmismatch; [reflexivity | discriminate].
Defined.

(** C6, as stated, fails: the attestation declares [redirect_uris] as the
    empty string, which is not an array of strings, yet the request is
    accepted. *)
Lemma verifier_attestation_scheme_counterexample :
  redirect_uris (payload (sampleAttestation (JObject [("jwk", sampleJwk)]) (JString EmptyString)))
    <> JUndefined
  /\ isArray (redirect_uris
                (payload (sampleAttestation (JObject [("jwk", sampleJwk)]) (JString EmptyString))))
     = false
  /\ resolve (parseAs (sampleAttestation (JObject [("jwk", sampleJwk)]) (JString EmptyString)))
       (attestedRequest (Some "https://client.example.org/cb")) "e30.e30.c2ln"
     = Ok (JwkJwtVerifier request_object sampleJwk None).
Proof. split; [discriminate|]. split; reflexivity. Qed.

Lemma verifier_attestation_scheme_witness :
  resolve
    (parseAs (sampleAttestation (JObject [("jwk", sampleJwk)])
                (JArray [JString "https://client.example.org/cb"])))
    (attestedRequest (Some "https://client.example.org/cb")) "e30.e30.c2ln"
  = Ok (JwkJwtVerifier request_object sampleJwk None).
Proof.
  destruct (verifier_attestation_scheme unit sampleDigest sampleThumbprint
              (parseAs (sampleAttestation (JObject [("jwk", sampleJwk)])
                          (JArray [JString "https://client.example.org/cb"])))
              (attestedRequest (Some "https://client.example.org/cb")) "e30.e30.c2ln"
              "eyJ0eXAiOiJ2ZXJpZmllci1hdHRlc3RhdGlvbitqd3QifQ.e30.c2ln"
              (sampleAttestation (JObject [("jwk", sampleJwk)])
                 (JArray [JString "https://client.example.org/cb"]))
              eq_refl eq_refl ltac:(discriminate) eq_refl eq_refl)
    as (_ & _ & Haccept).
  apply Haccept.
  - repeat split; try reflexivity.
    + exists "https://attester.example.org". split; [reflexivity | discriminate].
    + exists 1900000000%Z. split; [reflexivity | discriminate].
  - right. exists ["https://client.example.org/cb"], "https://client.example.org/cb".
    repeat split; [discriminate | left; reflexivity].
Defined.

(** The attestation with [cnf: null] ends in a [TypeError]. *)
Lemma verifier_attestation_null_cnf_example :
  resolve (parseAs (sampleAttestation JNull JUndefined))
    (attestedRequest None) "e30.e30.c2ln"
  = Throw TypeError.
Proof. reflexivity. Qed.

(** The attestation with [cnf: { jwk: null }] is accepted, with a [null] key. *)
Lemma verifier_attestation_null_jwk_example :
  resolve (parseAs (sampleAttestation (JObject [("jwk", JNull)]) JUndefined))
    (attestedRequest None) "e30.e30.c2ln"
  = Ok (JwkJwtVerifier request_object JNull None).
Proof. reflexivity. Qed.

End JwtVerifierExamples.

(* ===================================================================== *)
(** * CredentialOfferUtils: the grants of an offer *)
(* ===================================================================== *)

Section OfferProofs.
Import CredentialOfferUtils OfferSpec.

Variable RandomState : Type.
Variable uuidv4 : RandomState -> string * RandomState.

Local Abbreviation applyGrants := (CredentialOfferUtils.applyGrants RandomState uuidv4).
Local Abbreviation createCredentialOfferObject :=
  (CredentialOfferUtils.createCredentialOfferObject RandomState uuidv4).
Local Abbreviation issuerState_or_uuid :=
  (CredentialOfferUtils.issuerState_or_uuid RandomState uuidv4).

Lemma grants_or_empty_set_grants g p : grants_or_empty (set_grants (Some g) p) = g.
Proof. reflexivity. Qed.

Lemma applyGrants_preAuthorized opts p rs :
  truthy_str (Opts.preAuthorizedCode opts) = true ->
  applyGrants opts p rs =
    (set_grants (Some (obj_set PRE_AUTH_GRANT (preAuthorizedGrant opts) (grants_or_empty p))) p, rs).
Proof. intros H. unfold CredentialOfferUtils.applyGrants. rewrite H. reflexivity. Qed.

Lemma applyGrants_keep opts p rs :
  truthy_str (Opts.preAuthorizedCode opts) = false ->
  has_issuer_state (grants_or_empty p) = true ->
  applyGrants opts p rs = (set_grants (Some (grants_or_empty p)) p, rs).
Proof.
  intros H Hs. unfold CredentialOfferUtils.applyGrants, has_issuer_state in *.
  rewrite H, Hs. reflexivity.
Qed.

Lemma applyGrants_authorization_code opts p rs :
  truthy_str (Opts.preAuthorizedCode opts) = false ->
  has_issuer_state (grants_or_empty p) = false ->
  applyGrants opts p rs =
    (set_grants (Some (authorizationCodeOnly (fst (issuerState_or_uuid opts rs)))) p,
     snd (issuerState_or_uuid opts rs)).
Proof.
  intros H Hs. unfold CredentialOfferUtils.applyGrants, has_issuer_state in *.
  rewrite H, Hs. simpl. destruct (issuerState_or_uuid opts rs). reflexivity.
Qed.

(** What a successful call returns: the base payload, supplied or built from
    the metadata, after the grants block has run twice. *)
Lemma createCredentialOfferObject_ok md opts rs r rs' :
  createCredentialOfferObject md opts rs = Ok (r, rs') ->
  exists p0,
    match Opts.credentialOffer opts with
    | Some p => p0 = p
    | None => Payload.grants p0 = None
    end
    /\ (Offer.credential_offer r, rs')
       = applyGrants opts (fst (applyGrants opts p0 rs)) (snd (applyGrants opts p0 rs))
    /\ Offer.grants r = grants_or_empty (Offer.credential_offer r).
Proof.
  unfold CredentialOfferUtils.createCredentialOfferObject.
  destruct (_ && _); [discriminate|].
  match goal with |- context [Js.bind ?b _] => destruct b as [base|]; [|discriminate] end.
  cbn [Js.bind].
  match goal with |- context [Js.bind ?b _] => destruct b as [p0|] eqn:Hp0; [|discriminate] end.
  cbn [Js.bind].
  destruct (applyGrants opts p0 rs) as [p1 rs1] eqn:H1. cbv beta iota.
  destruct (applyGrants opts p1 rs1) as [p2 rs2] eqn:H2.
  intros [= <- <-]. exists p0. cbn [fst snd Offer.credential_offer Offer.grants].
  rewrite H1. cbn [fst snd]. rewrite H2. split; [|split; reflexivity].
  destruct (Opts.credentialOffer opts) as [p|].
  - congruence.
  - destruct (md ≫= Metadata.credential_configurations_supported) as [c|]; [|discriminate].
    injection Hp0 as <-. reflexivity.
Qed.

Lemma createCredentialOfferObject_supplied md opts rs p r rs' :
  Opts.credentialOffer opts = Some p ->
  createCredentialOfferObject md opts rs = Ok (r, rs') ->
  (Offer.credential_offer r, rs')
    = applyGrants opts (fst (applyGrants opts p rs)) (snd (applyGrants opts p rs))
  /\ Offer.grants r = grants_or_empty (Offer.credential_offer r).
Proof.
  intros Hp Hok. destruct (createCredentialOfferObject_ok md opts rs r rs' Hok)
    as (p0 & Hp0 & Hr & Hg).
  rewrite Hp in Hp0. subst p0. auto.
Qed.

(** The three branches of the grants block on a caller-supplied payload:
    when a (non-empty) pre-authorized code is supplied, only the
    pre-authorized-code entry of the grants map is written and every other
    entry is unchanged; when none is supplied and
    [authorization_code.issuer_state] already exists, the grants map is
    unchanged; when none is supplied and no such [issuer_state] exists, the
    grants map is replaced by the map holding only the authorization-code
    grant, whose [issuer_state] is the caller's or a generated one. *)
Lemma createCredentialOfferObject_grants_frame
    (md : option Metadata.t) (opts : Opts.t) (rs : RandomState)
    (p : Payload.t) (r : Offer.t) (rs' : RandomState) :
  Opts.credentialOffer opts = Some p ->
  createCredentialOfferObject md opts rs = Ok (r, rs') ->
  (truthy_str (Opts.preAuthorizedCode opts) = true ->
   Offer.grants r = obj_set PRE_AUTH_GRANT (preAuthorizedGrant opts) (grants_or_empty p)
   /\ obj_get PRE_AUTH_GRANT (Offer.grants r) = preAuthorizedGrant opts
   /\ forall k, k <> PRE_AUTH_GRANT ->
                obj_get k (Offer.grants r) = obj_get k (grants_or_empty p))
  /\ (truthy_str (Opts.preAuthorizedCode opts) = false ->
      has_issuer_state (grants_or_empty p) = true ->
      Offer.grants r = grants_or_empty p)
  /\ (truthy_str (Opts.preAuthorizedCode opts) = false ->
      has_issuer_state (grants_or_empty p) = false ->
      exists st, Offer.grants r = authorizationCodeOnly st
                 /\ (forall s, Opts.issuerState opts = Some s -> st = s)
                 /\ (Opts.issuerState opts = None ->
                     fst (uuidv4 rs) <> EmptyString -> st = fst (uuidv4 rs))
                 /\ forall k, k <> "authorization_code" ->
                              obj_get k (Offer.grants r) = JUndefined).
Proof.
  intros Hp Hok.
  destruct (createCredentialOfferObject_supplied md opts rs p r rs' Hp Hok) as [Hr Hg].
  rewrite Hg. clear Hg Hok. split; [|split].
  - intros Hpre. rewrite !applyGrants_preAuthorized in Hr by exact Hpre.
    cbn [fst snd] in Hr. injection Hr as -> _.
    rewrite !grants_or_empty_set_grants, obj_set_set.
    split; [reflexivity|]. split; [apply obj_get_set_eq|].
    intros k Hk. now apply obj_get_set_ne.
  - intros Hpre Hst. rewrite (applyGrants_keep opts p rs Hpre Hst) in Hr.
    cbn [fst snd] in Hr. rewrite applyGrants_keep in Hr by assumption.
    injection Hr as -> _. reflexivity.
  - intros Hpre Hst. rewrite (applyGrants_authorization_code opts p rs Hpre Hst) in Hr.
    cbn [fst snd] in Hr.
    set (st1 := fst (issuerState_or_uuid opts rs)) in *.
    set (rs1 := snd (issuerState_or_uuid opts rs)) in *.
    destruct (String.eqb st1 EmptyString) eqn:Hempty.
    + rewrite applyGrants_authorization_code in Hr; [|assumption|].
      2:{ rewrite grants_or_empty_set_grants. unfold has_issuer_state. simpl.
          rewrite Hempty. reflexivity. }
      injection Hr as -> _. rewrite grants_or_empty_set_grants.
      exists (fst (issuerState_or_uuid opts rs1)). split; [reflexivity|].
      apply String.eqb_eq in Hempty. split; [|split].
      * intros s Hs. unfold CredentialOfferUtils.issuerState_or_uuid. rewrite Hs. reflexivity.
      * intros Hnone Hne. exfalso. apply Hne. subst st1.
        unfold CredentialOfferUtils.issuerState_or_uuid in Hempty.
        rewrite Hnone in Hempty. exact Hempty.
      * intros k Hk. simpl. apply String.eqb_neq in Hk. rewrite Hk. reflexivity.
    + rewrite applyGrants_keep in Hr; [|assumption|].
      2:{ rewrite grants_or_empty_set_grants. unfold has_issuer_state. simpl.
          rewrite Hempty. reflexivity. }
      injection Hr as -> _. rewrite !grants_or_empty_set_grants.
      exists st1. split; [reflexivity|]. split; [|split].
      * intros s Hs. subst st1. unfold CredentialOfferUtils.issuerState_or_uuid.
        rewrite Hs. reflexivity.
      * intros Hnone _. subst st1. unfold CredentialOfferUtils.issuerState_or_uuid.
        rewrite Hnone. reflexivity.
      * intros k Hk. simpl. apply String.eqb_neq in Hk. rewrite Hk. reflexivity.
Qed.

(** C3. Where the code departs from the claim: on a caller-supplied payload,
    with no pre-authorized code supplied and no
    [authorization_code.issuer_state] on the payload, lines 73-77 assign a
    new single-entry map, so every grants entry other than
    [authorization_code] that the payload carried is absent from the result,
    the pre-authorized-code grant included.  The two sibling branches keep
    the supplied entries ([createCredentialOfferObject_grants_frame]). *)
Theorem createCredentialOfferObject_drops_supplied_grants
    (md : option Metadata.t) (opts : Opts.t) (rs : RandomState)
    (p : Payload.t) (r : Offer.t) (rs' : RandomState) (k : string) :
  Opts.credentialOffer opts = Some p ->
  truthy_str (Opts.preAuthorizedCode opts) = false ->
  has_issuer_state (grants_or_empty p) = false ->
  createCredentialOfferObject md opts rs = Ok (r, rs') ->
  k <> "authorization_code" ->
  obj_get k (Offer.grants r) = JUndefined
  /\ obj_get k (grants_or_empty (Offer.credential_offer r)) = JUndefined.
Proof.
  intros Hp Hpre Hst Hok Hk.
  destruct (createCredentialOfferObject_supplied md opts rs p r rs' Hp Hok) as [_ Hg].
  destruct (createCredentialOfferObject_grants_frame md opts rs p r rs' Hp Hok)
    as (_ & _ & Hreplaced).
  destruct (Hreplaced Hpre Hst) as (st & _ & _ & _ & Hgone).
  rewrite <- Hg. split; now apply Hgone.
Qed.

(** C7 (amended). Building an offer with [preAuthorizedCode = "abc"] and no
    [txCode]: the pre-authorized-code entry of the grants is
    [{ "pre-authorized_code": "abc", tx_code: undefined }], as a JSON
    document [{ "pre-authorized_code": "abc" }], and every other entry is
    the one of the supplied payload, an authorization-code grant included.
    When the offer is built from the issuer metadata, or from a payload that
    carries no grants, the grants map is, as a JSON document and in the text
    [JSON.stringify] writes, exactly the single-entry map from the
    pre-authorized-code grant type to [{ "pre-authorized_code": "abc" }],
    with no authorization-code grant present. *)
Theorem createCredentialOfferObject_pre_authorized_abc
    (md : option Metadata.t) (opts : Opts.t) (rs : RandomState)
    (r : Offer.t) (rs' : RandomState) :
  Opts.preAuthorizedCode opts = Some "abc" ->
  Opts.txCode opts = JUndefined ->
  createCredentialOfferObject md opts rs = Ok (r, rs') ->
  obj_get PRE_AUTH_GRANT (Offer.grants r)
    = JObject [("pre-authorized_code", JString "abc"); ("tx_code", JUndefined)]
  /\ JsonSpec.json_form (obj_get PRE_AUTH_GRANT (Offer.grants r))
     = JObject [("pre-authorized_code", JString "abc")]
  /\ (forall k, k <> PRE_AUTH_GRANT ->
        obj_get k (Offer.grants r)
        = match Opts.credentialOffer opts with
          | Some p => obj_get k (grants_or_empty p)
          | None => JUndefined
          end)
  /\ ((forall p, Opts.credentialOffer opts = Some p -> grants_or_empty p = []) ->
      Offer.grants r
        = [(PRE_AUTH_GRANT,
            JObject [("pre-authorized_code", JString "abc"); ("tx_code", JUndefined)])]
      /\ JsonSpec.json_form (JObject (Offer.grants r))
         = JObject [(PRE_AUTH_GRANT, JObject [("pre-authorized_code", JString "abc")])]
      /\ (forall Number_toString,
            Json.stringify Number_toString (JObject (Offer.grants r))
            = Json.stringify Number_toString
                (JObject [(PRE_AUTH_GRANT,
                           JObject [("pre-authorized_code", JString "abc")])]))
      /\ obj_get "authorization_code" (Offer.grants r) = JUndefined)
  /\ Payload.grants (Offer.credential_offer r) = Some (Offer.grants r).
Proof.
  intros Hcode Htx Hok.
  destruct (createCredentialOfferObject_ok md opts rs r rs' Hok) as (p0 & Hp0 & Hr & Hg).
  assert (truthy_str (Opts.preAuthorizedCode opts) = true) as Hpre
    by (rewrite Hcode; reflexivity).
  rewrite !applyGrants_preAuthorized in Hr by exact Hpre.
  cbn [fst snd] in Hr. injection Hr as Hr _.
  assert (Offer.grants r
          = obj_set PRE_AUTH_GRANT
              (JObject [("pre-authorized_code", JString "abc"); ("tx_code", JUndefined)])
              (grants_or_empty p0)) as Hgrants.
  { rewrite Hg, Hr, !grants_or_empty_set_grants, obj_set_set.
    unfold preAuthorizedGrant. rewrite Hcode, Htx. reflexivity. }
  split; [rewrite Hgrants; apply obj_get_set_eq|].
  split; [rewrite Hgrants, obj_get_set_eq; reflexivity|].
  split; [|split].
  - intros k Hk. rewrite Hgrants, obj_get_set_ne by exact Hk.
    destruct (Opts.credentialOffer opts) as [p|].
    + subst p0. reflexivity.
    + unfold grants_or_empty. rewrite Hp0. reflexivity.
  - intros Hnone.
    assert (grants_or_empty p0 = []) as Hempty.
    { destruct (Opts.credentialOffer opts) as [p|] eqn:Hp.
      - subst p0. now apply Hnone.
      - unfold grants_or_empty. rewrite Hp0. reflexivity. }
    rewrite Hgrants, Hempty. repeat split.
  - rewrite Hg, Hr. reflexivity.
Qed.

End OfferProofs.

(** ** Concrete offers *)

Section OfferExamples.
Import CredentialOfferUtils OfferSpec.

Local Abbreviation build :=
  (CredentialOfferUtils.createCredentialOfferObject nat sampleUuid).

(** The failing input of C3: a supplied payload whose grants hold only a
    pre-authorized-code grant, and no pre-authorized code option.  The
    result holds a generated authorization-code grant and the supplied grant
    is gone. *)
Lemma createCredentialOfferObject_drops_supplied_grants_witness :
  obj_get PRE_AUTH_GRANT (grants_or_empty (samplePayload (Some (preAuthorizedOnly "abc"))))
    = JObject [("pre-authorized_code", JString "abc")]
  /\ build None (suppliedOpts (samplePayload (Some (preAuthorizedOnly "abc"))) None) 0
     = Ok ({| Offer.credential_offer :=
                samplePayload
                  (Some (authorizationCodeOnly "c0c4b7a4-1fd4-4d8e-9a46-5c8f7f4b3c11"));
              Offer.credential_offer_uri := None;
              Offer.scheme := "openid-credential-offer";
              Offer.baseUri := EmptyString;
              Offer.grants :=
                authorizationCodeOnly "c0c4b7a4-1fd4-4d8e-9a46-5c8f7f4b3c11" |}, 1)
  /\ obj_get PRE_AUTH_GRANT
       (authorizationCodeOnly "c0c4b7a4-1fd4-4d8e-9a46-5c8f7f4b3c11")
     = JUndefined.
Proof.
  split; [reflexivity|]. split; [reflexivity|].
  exact (proj1 (createCredentialOfferObject_drops_supplied_grants nat sampleUuid None
                  (suppliedOpts (samplePayload (Some (preAuthorizedOnly "abc"))) None) 0
                  (samplePayload (Some (preAuthorizedOnly "abc")))
                  {| Offer.credential_offer :=
                       samplePayload
                         (Some (authorizationCodeOnly
                                  "c0c4b7a4-1fd4-4d8e-9a46-5c8f7f4b3c11"));
                     Offer.credential_offer_uri := None;
                     Offer.scheme := "openid-credential-offer";
                     Offer.baseUri := EmptyString;
                     Offer.grants :=
                       authorizationCodeOnly "c0c4b7a4-1fd4-4d8e-9a46-5c8f7f4b3c11" |}
                  1 PRE_AUTH_GRANT eq_refl eq_refl eq_refl eq_refl
                  ltac:(discriminate))).
Defined.

(** The sibling branch: with a pre-authorized code supplied, the
    authorization-code grant of the supplied payload is kept. *)
Lemma createCredentialOfferObject_grants_frame_kept :
  obj_get "authorization_code"
    (authorizationCodeOnly "state-1"
     ++ [(PRE_AUTH_GRANT,
          JObject [("pre-authorized_code", JString "abc"); ("tx_code", JUndefined)])])
  = obj_get "authorization_code" (authorizationCodeOnly "state-1").
Proof.
  destruct (createCredentialOfferObject_grants_frame nat sampleUuid None
              (suppliedOpts (samplePayload (Some (authorizationCodeOnly "state-1")))
                 (Some "abc"))
              0 (samplePayload (Some (authorizationCodeOnly "state-1")))
              {| Offer.credential_offer :=
                   samplePayload
                     (Some (authorizationCodeOnly "state-1"
                            ++ [(PRE_AUTH_GRANT,
                                 JObject [("pre-authorized_code", JString "abc");
                                          ("tx_code", JUndefined)])]));
                 Offer.credential_offer_uri := None;
                 Offer.scheme := "openid-credential-offer";
                 Offer.baseUri := EmptyString;
                 Offer.grants :=
                   authorizationCodeOnly "state-1"
                   ++ [(PRE_AUTH_GRANT,
                        JObject [("pre-authorized_code", JString "abc");
                                 ("tx_code", JUndefined)])] |}
              0 eq_refl eq_refl) as [Hpre _].
  destruct (Hpre eq_refl) as (_ & _ & Hframe).
  apply Hframe. discriminate.
Defined.

(** C7, as stated, fails on a supplied payload that carries an
    authorization-code grant: the grants returned hold two entries, and the
    authorization-code grant is present. *)
Lemma createCredentialOfferObject_pre_authorized_abc_counterexample :
  build None
    (suppliedOpts (samplePayload (Some (authorizationCodeOnly "state-1"))) (Some "abc")) 0
  = Ok ({| Offer.credential_offer :=
             samplePayload
               (Some (authorizationCodeOnly "state-1"
                      ++ [(PRE_AUTH_GRANT,
                           JObject [("pre-authorized_code", JString "abc");
                                    ("tx_code", JUndefined)])]));
           Offer.credential_offer_uri := None;
           Offer.scheme := "openid-credential-offer";
           Offer.baseUri := EmptyString;
           Offer.grants :=
             authorizationCodeOnly "state-1"
             ++ [(PRE_AUTH_GRANT,
                  JObject [("pre-authorized_code", JString "abc");
                           ("tx_code", JUndefined)])] |}, 0)
  /\ obj_get "authorization_code"
       (authorizationCodeOnly "state-1"
        ++ [(PRE_AUTH_GRANT,
             JObject [("pre-authorized_code", JString "abc"); ("tx_code", JUndefined)])])
     = JObject [("issuer_state", JString "state-1")]
  /\ JsonSpec.json_form
       (JObject (authorizationCodeOnly "state-1"
                 ++ [(PRE_AUTH_GRANT,
                      JObject [("pre-authorized_code", JString "abc");
                               ("tx_code", JUndefined)])]))
     <> JObject [(PRE_AUTH_GRANT, JObject [("pre-authorized_code", JString "abc")])].
Proof. split; [reflexivity|]. split; [reflexivity|]. discriminate. Qed.

Lemma createCredentialOfferObject_pre_authorized_abc_witness :
  build (Some sampleMetadata) (preAuthorizedOpts "abc") 0
    = Ok ({| Offer.credential_offer :=
               {| Payload.credential_issuer := Some "https://issuer.example.org";
                  Payload.credential_configuration_ids := ["UniversityDegree_JWT"];
                  Payload.grants :=
                    Some [(PRE_AUTH_GRANT,
                           JObject [("pre-authorized_code", JString "abc");
                                    ("tx_code", JUndefined)])];
                  Payload.other_members := [] |};
             Offer.credential_offer_uri := None;
             Offer.scheme := "openid-credential-offer";
             Offer.baseUri := EmptyString;
             Offer.grants :=
               [(PRE_AUTH_GRANT,
                 JObject [("pre-authorized_code", JString "abc");
                          ("tx_code", JUndefined)])] |}, 0)
  /\ JsonSpec.json_form
       (JObject [(PRE_AUTH_GRANT,
                  JObject [("pre-authorized_code", JString "abc");
                           ("tx_code", JUndefined)])])
     = JObject [(PRE_AUTH_GRANT, JObject [("pre-authorized_code", JString "abc")])]
  /\ obj_get "authorization_code"
       [(PRE_AUTH_GRANT,
         JObject [("pre-authorized_code", JString "abc"); ("tx_code", JUndefined)])]
     = JUndefined.
Proof.
  split; [reflexivity|].
  destruct (createCredentialOfferObject_pre_authorized_abc nat sampleUuid
              (Some sampleMetadata) (preAuthorizedOpts "abc") 0
              {| Offer.credential_offer :=
                   {| Payload.credential_issuer := Some "https://issuer.example.org";
                      Payload.credential_configuration_ids := ["UniversityDegree_JWT"];
                      Payload.grants :=
                        Some [(PRE_AUTH_GRANT,
                               JObject [("pre-authorized_code", JString "abc");
                                        ("tx_code", JUndefined)])];
                      Payload.other_members := [] |};
                 Offer.credential_offer_uri := None;
                 Offer.scheme := "openid-credential-offer";
                 Offer.baseUri := EmptyString;
                 Offer.grants :=
                   [(PRE_AUTH_GRANT,
                     JObject [("pre-authorized_code", JString "abc");
                              ("tx_code", JUndefined)])] |}
              0 eq_refl eq_refl eq_refl) as (_ & _ & _ & Hsingle & _).
  destruct (Hsingle ltac:(discriminate)) as (_ & Hjson & _ & Hnone).
  split; [exact Hjson | exact Hnone].
Defined.

End OfferExamples.

(* ===================================================================== *)
(** * CredentialOfferUtils: the transaction code *)
(* ===================================================================== *)

(** What the pattern accepts: the empty string, and any string with at least
    one character of the class. *)
Lemma assertValidPinNumber_accepts msg s :
  CredentialOfferUtils.assertValidPinNumber msg (Some s) = Ok tt
  <-> s = EmptyString \/ CredentialOfferUtils.regex_test_class CredentialOfferUtils.pin_class s = true.
Proof.
  unfold CredentialOfferUtils.assertValidPinNumber. simpl.
  destruct (String.eqb_spec s EmptyString) as [->|Hne]; simpl.
  - split; auto.
  - destruct (CredentialOfferUtils.regex_test_class _ s); simpl; split; auto.
    + discriminate.
    + intros [?|?]; [contradiction | discriminate].
Qed.

(** C4 (the code at the failing inputs). A string of nine digits, and a
    string mixing a digit with letters, are accepted; the validation error is
    raised only for a non-empty string none of whose characters is a digit,
    a brace or a comma. *)
Theorem assertValidPinNumber_accepts_malformed (msg : string) :
  CredentialOfferUtils.assertValidPinNumber msg (Some "123456789") = Ok tt
  /\ CredentialOfferUtils.assertValidPinNumber msg (Some "pin1") = Ok tt
  /\ CredentialOfferUtils.assertValidPinNumber msg (Some "{,}") = Ok tt
  /\ CredentialOfferUtils.assertValidPinNumber msg (Some "abcd") = Throw (Error msg).
Proof. repeat split. Qed.

(* ===================================================================== *)
(** * CredentialRequestUtil: the draft-8 credential request *)
(* ===================================================================== *)

Section CredentialRequestProofs.
Import CredentialRequestUtil.

Variable getFormatForVersion : string -> OpenId4VCIVersion -> result string.

Local Abbreviation getCredentialRequestForVersion :=
  (CredentialRequestUtil.getCredentialRequestForVersion getFormatForVersion).

Lemma filter_only_VerifiableCredential (ts : list string) :
  Forall (fun t => t = "VerifiableCredential") ts ->
  List.filter (fun type => negb (String.eqb type "VerifiableCredential")) ts = [].
Proof.
  induction 1 as [|t ts Ht _ IH]; [reflexivity|].
  simpl. subst t. simpl. exact IH.
Qed.

(** C10. For a [jwt_vc_json] or [jwt_vc] request whose [types] is non-empty
    and holds only ["VerifiableCredential"], [getTypesFromRequest] with the
    filter passes its non-empty check and returns the empty list, and
    [getCredentialRequestForVersion] for draft 8 does not fail on the types:
    it returns the draft-8 request whose [type] is absent, with the format
    computed by [getFormatForVersion]. *)
Theorem getCredentialRequestForVersion_only_VerifiableCredential
    (req : UniformCredentialRequest) (ts : list string) :
  format req = "jwt_vc_json" \/ format req = "jwt_vc" ->
  types req = Some ts ->
  ts <> [] ->
  Forall (fun t => t = "VerifiableCredential") ts ->
  getTypesFromRequest req true = Ok []
  /\ getCredentialRequestForVersion req VER_1_0_08
     = (let* draft8Format := getFormatForVersion (format req) VER_1_0_08 in
        Ok (Draft08 {| format_08 := draft8Format;
                       proof_08 := proof req;
                       type_08 := None |}))
  /\ forall draft8Format,
       getFormatForVersion (format req) VER_1_0_08 = Ok draft8Format ->
       getCredentialRequestForVersion req VER_1_0_08
       = Ok (Draft08 {| format_08 := draft8Format;
                        proof_08 := proof req;
                        type_08 := None |}).
Proof.
  intros Hfmt Hts Hne Hall.
  assert (getTypesFromRequest req true = Ok []) as Htypes.
  { unfold getTypesFromRequest.
    assert (String.eqb (format req) "jwt_vc_json" || String.eqb (format req) "jwt_vc" = true)
      as -> by (destruct Hfmt as [-> | ->]; reflexivity).
    rewrite Hts. cbn [Js.bind].
    destruct ts as [|t ts']; [contradiction|].
    cbn [length Nat.eqb].
    rewrite filter_only_VerifiableCredential by exact Hall. reflexivity. }
  split; [exact Htypes|].
  unfold CredentialRequestUtil.getCredentialRequestForVersion. cbn [version_eqb].
  rewrite Htypes. split.
  - destruct (getFormatForVersion (format req) VER_1_0_08); reflexivity.
  - intros f ->. reflexivity.
Qed.

End CredentialRequestProofs.

Lemma getCredentialRequestForVersion_only_VerifiableCredential_witness :
  CredentialRequestUtil.getCredentialRequestForVersion RequestSpec.sampleFormatForVersion
    RequestSpec.onlyVerifiableCredential CredentialRequestUtil.VER_1_0_08
  = Ok (CredentialRequestUtil.Draft08
          {| CredentialRequestUtil.format_08 := "jwt_vc";
             CredentialRequestUtil.proof_08 := JObject [("proof_type", JString "jwt")];
             CredentialRequestUtil.type_08 := None |}).
Proof.
  destruct (getCredentialRequestForVersion_only_VerifiableCredential
              RequestSpec.sampleFormatForVersion RequestSpec.onlyVerifiableCredential
              ["VerifiableCredential"; "VerifiableCredential"]
              (or_introl eq_refl) eq_refl ltac:(discriminate)
              ltac:(repeat constructor)) as (_ & _ & Hdraft8).
  apply Hdraft8. reflexivity.
Defined.

(* ===================================================================== *)
(** * The session store: expiry *)
(* ===================================================================== *)

Section StateManagerProofs.
Import CredentialOfferUtils StateManager.

Lemma getState_clearExpiredStates (st : store) (now : Z) (id : string) :
  getState id (clearExpiredStates now st)
  = match getState id st with
    | Some s => if expired st now s then None else Some s
    | None => None
    end.
Proof.
  unfold getState, clearExpiredStates. cbn [states with_states].
  destruct (states st !! id) as [s|] eqn:Hs.
  - destruct (expired st now s) eqn:He.
    + apply map_lookup_filter_None. right. intros s' Hs'. cbn [snd].
      rewrite Hs in Hs'. injection Hs' as <-. rewrite He. discriminate.
    + apply map_lookup_filter_Some. split; [exact Hs | exact He].
  - apply map_lookup_filter_None. left. exact Hs.
Qed.

(** C9. [clearExpiredStates now] removes exactly the sessions with
    [created_at + ttl <= now]: such a session is absent afterwards, every
    other session is still returned by [getState], and no session appears.
    The boundary is inclusive: [created_at + ttl = now] is removed,
    [created_at + ttl = now + 1] is retained.  The test is the one of
    [isPreAuthorizedCodeExpired] for a lifetime given in seconds, wherever
    the arithmetic of that function is exact. *)
Theorem clearExpiredStates_removes_exactly_expired (st : store) (now : Z) :
  (forall id s, getState id st = Some s ->
                (createdAt s + ttl st <= now)%Z ->
                getState id (clearExpiredStates now st) = None)
  /\ (forall id s, getState id st = Some s ->
                   (now < createdAt s + ttl st)%Z ->
                   getState id (clearExpiredStates now st) = Some s)
  /\ (forall id, getState id st = None ->
                 getState id (clearExpiredStates now st) = None)
  /\ (forall id s, getState id st = Some s ->
                   (createdAt s + ttl st = now)%Z ->
                   getState id (clearExpiredStates now st) = None)
  /\ (forall id s, getState id st = Some s ->
                   (createdAt s + ttl st = now + 1)%Z ->
                   getState id (clearExpiredStates now st) = Some s)
  /\ (forall s seconds, ttl st = (seconds * 1000)%Z ->
                        exact_expiry now s seconds = true ->
                        isPreAuthorizedCodeExpired now s seconds
                        = Some (expired st now s)).
Proof.
  assert (forall id s, getState id st = Some s ->
                       (createdAt s + ttl st <= now)%Z ->
                       getState id (clearExpiredStates now st) = None) as Hgone.
  { intros id s Hs Hle. rewrite getState_clearExpiredStates, Hs.
    unfold expired. apply Z.leb_le in Hle. rewrite Hle. reflexivity. }
  assert (forall id s, getState id st = Some s ->
                       (now < createdAt s + ttl st)%Z ->
                       getState id (clearExpiredStates now st) = Some s) as Hkept.
  { intros id s Hs Hlt. rewrite getState_clearExpiredStates, Hs.
    unfold expired. apply Z.leb_gt in Hlt. rewrite Hlt. reflexivity. }
  repeat split.
  - exact Hgone.
  - exact Hkept.
  - intros id Hs. rewrite getState_clearExpiredStates, Hs. reflexivity.
  - intros id s Hs Heq. apply (Hgone id s Hs). lia.
  - intros id s Hs Heq. apply (Hkept id s Hs). lia.
  - intros s seconds Httl Hexact. unfold expired, isPreAuthorizedCodeExpired.
    rewrite Hexact, Httl, Z.geb_leb. reflexivity.
Qed.

(** The scenario of the test suite, [should delete all expired states]:
    sweeping ten seconds after the middle session was created removes the
    sessions of yesterday and of today and keeps the one of tomorrow, for
    every lifetime of at most those ten seconds. *)
Lemma test_should_delete_all_expired_states (lifetime t : Z) :
  (0 <= lifetime <= 10000)%Z ->
  let st := clearExpiredStates (t + 10000) (StoreSpec.testStore lifetime t) in
  getState "0" st = None
  /\ getState "1" st = None
  /\ getState "2" st = Some (StoreSpec.sampleSession (t + StoreSpec.day)).
Proof.
  intros Hl st. subst st. rewrite !getState_clearExpiredStates.
  change (getState "0" (StoreSpec.testStore lifetime t))
    with (Some (StoreSpec.sampleSession (t - StoreSpec.day))).
  change (getState "1" (StoreSpec.testStore lifetime t))
    with (Some (StoreSpec.sampleSession t)).
  change (getState "2" (StoreSpec.testStore lifetime t))
    with (Some (StoreSpec.sampleSession (t + StoreSpec.day))).
  unfold expired, StoreSpec.day. cbn [createdAt StoreSpec.sampleSession ttl StoreSpec.testStore
    setState with_states StoreSpec.emptyStore].
  repeat split.
  - destruct (Z.leb_spec (t - 86400000 + lifetime) (t + 10000)); [reflexivity | lia].
  - destruct (Z.leb_spec (t + lifetime) (t + 10000)); [reflexivity | lia].
  - destruct (Z.leb_spec (t + 86400000 + lifetime) (t + 10000)); [lia | reflexivity].
Qed.

End StateManagerProofs.

Lemma clearExpiredStates_removes_exactly_expired_witness :
  StateManager.getState "0"
    (StateManager.clearExpiredStates 1700000000000
       (StoreSpec.testStore StoreSpec.day 1700000000000)) = None
  /\ StateManager.getState "1"
       (StateManager.clearExpiredStates 1700000000000
          (StoreSpec.testStore StoreSpec.day 1700000000000))
     = Some (StoreSpec.sampleSession 1700000000000).
Proof.
  destruct (clearExpiredStates_removes_exactly_expired
              (StoreSpec.testStore StoreSpec.day 1700000000000) 1700000000000)
    as (_ & Hkept & _ & Hboundary & _).
  split.
  - apply (Hboundary "0" (StoreSpec.sampleSession (1700000000000 - StoreSpec.day)));
      reflexivity.
  - apply (Hkept "1" (StoreSpec.sampleSession 1700000000000)); reflexivity.
Defined.

(* ===================================================================== *)
(** * The serialisation built-ins read back what they wrote *)
(* ===================================================================== *)

Lemma append_cons (x : ascii) (a b : string) : String x a +:+ b = String x (a +:+ b).
Proof. reflexivity. Qed.

Lemma append_empty_l (a : string) : EmptyString +:+ a = a.
Proof. reflexivity. Qed.

Lemma append_assoc (a b c : string) : (a +:+ b) +:+ c = a +:+ (b +:+ c).
Proof.
  induction a as [|x a IH]; [reflexivity|].
  rewrite !append_cons, IH. reflexivity.
Qed.

Lemma append_empty_r (a : string) : a +:+ EmptyString = a.
Proof.
  induction a as [|x a IH]; [reflexivity|].
  rewrite append_cons, IH. reflexivity.
Qed.

Lemma append_length (a b : string) :
  String.length (a +:+ b) = (String.length a + String.length b)%nat.
Proof.
  induction a as [|x a IH]; [reflexivity|].
  rewrite append_cons. cbn [String.length]. rewrite IH. reflexivity.
Qed.

Lemma prefix_append (a b : string) : String.prefix a (a +:+ b) = true.
Proof.
  induction a as [|x a IH]; [apply prefix_empty|].
  rewrite append_cons. cbn [String.prefix].
  destruct (ascii_dec x x); [exact IH | congruence].
Qed.

Lemma drop_append (a b : string) : drop (String.length a) (a +:+ b) = b.
Proof.
  induction a as [|x a IH]; [reflexivity|].
  rewrite append_cons. exact IH.
Qed.

Section UriProofs.
Import Uri.

Lemma decode_encode_char (c : ascii) (s : string) :
  decodeURIComponent (encode_char c +:+ s)
  = (let* t := decodeURIComponent s in Ok (String c t)).
Proof.
  destruct c as [[] [] [] [] [] [] [] []]; reflexivity.
Qed.

(** [decodeURIComponent] undoes [encodeURIComponent]. *)
Lemma decodeURIComponent_encodeURIComponent (s : string) :
  decodeURIComponent (encodeURIComponent s) = Ok s.
Proof.
  induction s as [|c s IH]; [reflexivity|].
  change (encodeURIComponent (String c s)) with (encode_char c +:+ encodeURIComponent s).
  rewrite decode_encode_char, IH. reflexivity.
Qed.

End UriProofs.

Section JsonProofs.
Import Json JsonSpec.

Variable Number_toString : Z -> string.

Local Abbreviation stringify := (Json.stringify Number_toString).
Local Abbreviation text := (JsonSpec.text Number_toString).
Local Abbreviation member_text := (JsonSpec.member_text Number_toString).
Local Abbreviation reads_back := (JsonSpec.reads_back Number_toString).

(** ** Strings *)

Lemma parse_quote_char (c : ascii) (s : string) :
  parse_string_body (quote_char c +:+ s)
  = match parse_string_body s with
    | Some (t, r) => Some (String c t, r)
    | None => None
    end.
Proof.
  destruct c as [[] [] [] [] [] [] [] []]; reflexivity.
Qed.

Lemma parse_string_body_quote_body (s rest : string) :
  parse_string_body (quote_body s +:+ String DQUOTE rest) = Some (s, rest).
Proof.
  induction s as [|c s IH]; [reflexivity|].
  change (quote_body (String c s)) with (quote_char c +:+ quote_body s).
  rewrite append_assoc, parse_quote_char, IH. reflexivity.
Qed.

Lemma quote_append (s rest : string) :
  quote s +:+ rest = String DQUOTE (quote_body s +:+ String DQUOTE rest).
Proof. unfold quote. rewrite append_cons, append_assoc. reflexivity. Qed.

(** ** Numbers *)

Lemma to_uint_no_leading_zero (p : positive) (d : Decimal.uint) :
  Pos.to_uint p <> Decimal.D0 d.
Proof.
  intros H.
  assert (Decimal.unorm (Pos.to_uint p) = Pos.to_uint p) as Hnorm.
  { rewrite <- (DecimalPos.Unsigned.to_of (Pos.to_uint p)).
    rewrite DecimalPos.Unsigned.of_to. reflexivity. }
  assert (Decimal.nzhead (Pos.to_uint p) <> Decimal.Nil) as Hnz.
  { intros Hnil. apply DecimalFacts.unorm_0 in Hnil.
    apply (DecimalPos.Unsigned.to_uint_nonzero p). congruence. }
  apply DecimalFacts.unorm_nzhead in Hnz.
  apply (DecimalFacts.nzhead_nonzero (Pos.to_uint p) d). congruence.
Qed.

Lemma span_digits_end (rest : string) :
  ends_number rest = true -> span_digits rest = (EmptyString, rest).
Proof.
  destruct rest as [|c rest]; [reflexivity|].
  cbn [ends_number span_digits]. intros H. apply negb_true_iff in H. rewrite H. reflexivity.
Qed.

Lemma span_digits_uint (d : Decimal.uint) (rest : string) :
  ends_number rest = true ->
  span_digits (NilEmpty.string_of_uint d +:+ rest) = (NilEmpty.string_of_uint d, rest).
Proof.
  intros Hrest.
  induction d as [|d IH|d IH|d IH|d IH|d IH|d IH|d IH|d IH|d IH|d IH];
    cbn [NilEmpty.string_of_uint];
    [ now apply span_digits_end
    | rewrite append_cons; cbn [span_digits]; rewrite IH; reflexivity .. ].
Qed.

Lemma of_uint_to_uint (p : positive) : Z.of_uint (Pos.to_uint p) = Z.pos p.
Proof.
  unfold Z.of_uint. rewrite DecimalPos.Unsigned.of_to. reflexivity.
Qed.

Lemma parse_number_digits (d : Decimal.uint) (rest : string) :
  d <> Decimal.Nil ->
  (forall d', d = Decimal.D0 d' -> d' = Decimal.Nil) ->
  ends_number rest = true ->
  span_digits (NilEmpty.string_of_uint d +:+ rest) = (NilEmpty.string_of_uint d, rest)
  /\ exists c more,
       NilEmpty.string_of_uint d = String c more
       /\ is_digit c = true
       /\ Ascii.eqb c "0" && negb (String.eqb more EmptyString) = false.
Proof.
  intros Hnil Hzero Hrest. split; [now apply span_digits_uint|].
  destruct d as [|d|d|d|d|d|d|d|d|d|d]; try congruence;
    cbn [NilEmpty.string_of_uint]; eexists _, _; (split; [reflexivity|]);
    (split; [reflexivity|]); try reflexivity.
  rewrite (Hzero d eq_refl). reflexivity.
Qed.

Lemma parse_number_unsigned (d : Decimal.uint) (rest : string) :
  d <> Decimal.Nil ->
  (forall d', d = Decimal.D0 d' -> d' = Decimal.Nil) ->
  ends_number rest = true ->
  (is_safe_integer (Z.of_uint d) = true ->
   parse_number (NilEmpty.string_of_uint d +:+ rest) = Some (Z.of_uint d, rest))
  /\ (Z.of_uint d <> 0%Z -> is_safe_integer (- Z.of_uint d) = true ->
      parse_number (String "-" (NilEmpty.string_of_uint d +:+ rest))
      = Some ((- Z.of_uint d)%Z, rest)).
Proof.
  intros Hnil Hzero Hrest.
  destruct (parse_number_digits d rest Hnil Hzero Hrest) as (Hspan & c & more & Hd & Hc & Hlead).
  split.
  - intros Hsafe. unfold parse_number.
    assert (exists t, NilEmpty.string_of_uint d +:+ rest = String c t) as [t Ht]
      by (rewrite Hd, append_cons; eauto).
    rewrite Ht.
    assert (Ascii.eqb c "-" = false) as ->.
    { destruct c as [[] [] [] [] [] [] [] []]; try reflexivity; discriminate Hc. }
    rewrite <- Ht, Hspan, Hd, Hlead, <- Hd, NilEmpty.usu. cbn [andb].
    rewrite Hsafe. reflexivity.
  - intros Hne Hsafe. unfold parse_number. rewrite Ascii.eqb_refl.
    rewrite Hspan, Hd, Hlead, <- Hd, NilEmpty.usu. cbn [andb].
    assert ((- Z.of_uint d =? 0)%Z = false) as -> by (apply Z.eqb_neq; lia).
    rewrite Hsafe. reflexivity.
Qed.

Lemma parse_number_string_of_Z (n : Z) (rest : string) :
  is_safe_integer n = true ->
  ends_number rest = true ->
  parse_number (string_of_Z n +:+ rest) = Some (n, rest).
Proof.
  intros Hsafe Hrest. unfold string_of_Z.
  destruct n as [|p|p]; cbn [Z.to_int NilEmpty.string_of_int].
  - apply (parse_number_unsigned (Decimal.D0 Decimal.Nil) rest);
      try assumption; congruence.
  - rewrite <- of_uint_to_uint in *.
    apply (parse_number_unsigned (Pos.to_uint p) rest); try assumption.
    + apply DecimalPos.Unsigned.to_uint_nonnil.
    + intros d' H. exfalso. exact (to_uint_no_leading_zero p d' H).
  - rewrite append_cons.
    change (Z.neg p) with (- Z.pos p)%Z in *. rewrite <- of_uint_to_uint in *.
    apply (parse_number_unsigned (Pos.to_uint p) rest); try assumption.
    + apply DecimalPos.Unsigned.to_uint_nonnil.
    + intros d' H. exfalso. exact (to_uint_no_leading_zero p d' H).
    + rewrite of_uint_to_uint. discriminate.
Qed.

(** The text of a number starts with a digit or a minus sign. *)
Lemma string_of_Z_head (n : Z) :
  exists c t, string_of_Z n = String c t /\ is_digit c || Ascii.eqb c "-" = true.
Proof.
  unfold string_of_Z. destruct n as [|p|p]; cbn [Z.to_int NilEmpty.string_of_int].
  - eexists _, _. split; reflexivity.
  - pose proof (DecimalPos.Unsigned.to_uint_nonnil p) as Hnil.
    destruct (Pos.to_uint p); try congruence;
      cbn [NilEmpty.string_of_uint]; eexists _, _; split; reflexivity.
  - eexists _, _. split; reflexivity.
Qed.

Lemma parse_value_numeric_head (fuel : nat) (c : ascii) (t : string) :
  is_digit c || Ascii.eqb c "-" = true ->
  parse_value (S fuel) (String c t)
  = match parse_number (String c t) with
    | Some (n, r) => Some (JNumber n, r)
    | None => None
    end.
Proof.
  destruct c as [[] [] [] [] [] [] [] []]; intros H; try discriminate H; reflexivity.
Qed.

Lemma parse_value_number (fuel : nat) (n : Z) (rest : string) :
  is_safe_integer n = true ->
  ends_number rest = true ->
  parse_value (S fuel) (string_of_Z n +:+ rest) = Some (JNumber n, rest).
Proof.
  intros Hsafe Hrest.
  destruct (string_of_Z_head n) as (c & t & Ht & Hc).
  pose proof (parse_number_string_of_Z n rest Hsafe Hrest) as Hnum.
  rewrite Ht, append_cons in *.
  rewrite parse_value_numeric_head by exact Hc. rewrite Hnum. reflexivity.
Qed.

(** ** Values *)

(** Induction over values with the hypothesis available for every element of
    an array and every member of an object. *)
Lemma value_nested_ind (P : value -> Prop) :
  P JUndefined -> P JNull -> (forall b, P (JBool b)) -> (forall n, P (JNumber n)) ->
  (forall s, P (JString s)) ->
  (forall l, Forall P l -> P (JArray l)) ->
  (forall o, Forall (fun kv => P (snd kv)) o -> P (JObject o)) ->
  forall v, P v.
Proof.
  intros Hu Hn Hb Hz Hs Ha Ho. fix IH 1. intros [| |b|n|s|l|o].
  - exact Hu.
  - exact Hn.
  - apply Hb.
  - apply Hz.
  - apply Hs.
  - apply Ha. induction l as [|x l IHl]; constructor; [apply IH | exact IHl].
  - apply Ho. induction o as [|[k x] o IHo]; constructor; [apply IH | exact IHo].
Qed.

Lemma text_array (l : list value) :
  text (JArray l) = "[" +:+ join "," (map text l) +:+ "]".
Proof. reflexivity. Qed.

Lemma text_number (n : Z) : is_safe_integer n = true -> text (JNumber n) = string_of_Z n.
Proof.
  intros Hsafe. unfold JsonSpec.text. cbn [Json.stringify default].
  unfold string_of_number. rewrite Hsafe. reflexivity.
Qed.

Lemma stringify_defined (v : value) :
  is_json v = true -> stringify v = Some (text v).
Proof. destruct v as [| |[]| | | |]; try reflexivity. discriminate. Qed.

Lemma omap_cons_eq {A B : Type} (f : A -> option B) (x : A) (l : list A) :
  omap f (x :: l) = match f x with
                    | Some y => y :: omap f l
                    | None => omap f l
                    end.
Proof. reflexivity. Qed.

Lemma omap_members (o : list (string * value)) :
  forallb (fun kv => is_json (snd kv)) o = true ->
  omap (fun kv => match stringify (snd kv) with
                  | Some t => Some (quote (fst kv) +:+ ":" +:+ t)
                  | None => None
                  end) o
  = map member_text o.
Proof.
  induction o as [|[k x] o IH]; [reflexivity|].
  cbn [forallb snd]. intros H. apply andb_true_iff in H as [Hx Ho].
  rewrite omap_cons_eq. cbn [snd fst map]. rewrite (stringify_defined x Hx).
  unfold member_text at 1. cbn [fst snd]. f_equal. apply IH, Ho.
Qed.

Lemma text_object (o : list (string * value)) :
  forallb (fun kv => is_json (snd kv)) o = true ->
  text (JObject o) = "{" +:+ join "," (map member_text o) +:+ "}".
Proof.
  intros H. unfold text. cbn [Json.stringify]. rewrite (omap_members o H). reflexivity.
Qed.

(** *** How a text starts *)

Lemma starts_value_append (t rest : string) :
  starts_value t = true -> starts_value (t +:+ rest) = true.
Proof. destruct t as [|c t]; [discriminate|]. rewrite append_cons. trivial. Qed.

Lemma starts_value_numeric (c : ascii) (t : string) :
  is_digit c || Ascii.eqb c "-" = true -> starts_value (String c t) = true.
Proof.
  destruct c as [[] [] [] [] [] [] [] []]; intros H; try discriminate H; reflexivity.
Qed.

Lemma starts_value_text (v : value) : is_json v = true -> starts_value (text v) = true.
Proof.
  destruct v as [| |[]|n|s|l|o]; try reflexivity; try discriminate.
  cbn [is_json]. intros Hsafe. rewrite (text_number n Hsafe).
  destruct (string_of_Z_head n) as (c & t & -> & Hc).
  now apply starts_value_numeric.
Qed.

Lemma starts_value_inv (t : string) :
  starts_value t = true ->
  exists c r, t = String c r /\ is_ws c = false
              /\ Ascii.eqb c "]" = false /\ Ascii.eqb c "}" = false.
Proof.
  destruct t as [|c r]; [discriminate|]. cbn [starts_value].
  intros H. apply andb_true_iff in H as [H H3]. apply andb_true_iff in H as [H1 H2].
  exists c, r. rewrite negb_true_iff in *. auto.
Qed.

Lemma skip_ws_head (c : ascii) (r : string) :
  is_ws c = false -> skip_ws (String c r) = String c r.
Proof. intros H. cbn [skip_ws]. rewrite H. reflexivity. Qed.

(** *** One step of each parser *)

Lemma parse_value_string (fuel : nat) (s : string) :
  parse_value (S fuel) (String DQUOTE s)
  = match parse_string_body s with
    | Some (t, r) => Some (JString t, r)
    | None => None
    end.
Proof. reflexivity. Qed.

Lemma parse_value_array (fuel : nat) (s : string) :
  parse_value (S fuel) (String "[" s)
  = match skip_ws s with
    | EmptyString => None
    | String c1 r1 =>
        if Ascii.eqb c1 "]" then Some (JArray [], r1)
        else match parse_elements fuel (String c1 r1) with
             | Some (l, r) => Some (JArray l, r)
             | None => None
             end
    end.
Proof. reflexivity. Qed.

Lemma parse_value_object (fuel : nat) (s : string) :
  parse_value (S fuel) (String "{" s)
  = match skip_ws s with
    | EmptyString => None
    | String c1 r1 =>
        if Ascii.eqb c1 "}" then Some (JObject [], r1)
        else match parse_members fuel [] (String c1 r1) with
             | Some (o, r) => Some (JObject o, r)
             | None => None
             end
    end.
Proof. reflexivity. Qed.

Lemma parse_elements_step (fuel : nat) (s : string) :
  parse_elements (S fuel) s
  = match parse_value fuel s with
    | None => None
    | Some (v, r) =>
        match skip_ws r with
        | EmptyString => None
        | String c r' =>
            if Ascii.eqb c "," then
              match parse_elements fuel r' with
              | Some (l, r'') => Some (v :: l, r'')
              | None => None
              end
            else if Ascii.eqb c "]" then Some ([v], r')
            else None
        end
    end.
Proof. reflexivity. Qed.

Lemma parse_members_step (fuel : nat) (acc : obj) (k : string) (s : string) :
  parse_members (S fuel) acc (quote k +:+ ":" +:+ s)
  = match parse_value fuel s with
    | None => None
    | Some (v, r2) =>
        match skip_ws r2 with
        | EmptyString => None
        | String c2 r3 =>
            if Ascii.eqb c2 "," then parse_members fuel (obj_set k v acc) r3
            else if Ascii.eqb c2 "}" then Some (obj_set k v acc, r3)
            else None
        end
    end.
Proof.
  rewrite quote_append.
  change (parse_members (S fuel) acc
            (String DQUOTE (quote_body k +:+ String DQUOTE (":" +:+ s))))
    with (match parse_string_body (quote_body k +:+ String DQUOTE (":" +:+ s)) with
          | None => None
          | Some (k, r) =>
              match skip_ws r with
              | EmptyString => None
              | String c1 r1 =>
                  if Ascii.eqb c1 ":" then
                    match parse_value fuel r1 with
                    | None => None
                    | Some (v, r2) =>
                        match skip_ws r2 with
                        | EmptyString => None
                        | String c2 r3 =>
                            if Ascii.eqb c2 "," then parse_members fuel (obj_set k v acc) r3
                            else if Ascii.eqb c2 "}" then Some (obj_set k v acc, r3)
                            else None
                        end
                    end
                  else None
              end
          end).
  rewrite parse_string_body_quote_body. reflexivity.
Qed.

(** *** Property lists *)

Lemma obj_set_fresh (k : string) (v : value) (acc : obj) :
  existsb (String.eqb k) (map fst acc) = false -> obj_set k v acc = acc ++ [(k, v)].
Proof.
  induction acc as [|[k' v'] acc IH]; [reflexivity|].
  cbn [map fst existsb obj_set]. intros H. apply orb_false_iff in H as [Hk Hacc].
  rewrite Hk, IH by exact Hacc. reflexivity.
Qed.

Lemma existsb_app_one (k k' : string) (l : list string) :
  existsb (String.eqb k) (l ++ [k']) = existsb (String.eqb k) l || String.eqb k k'.
Proof. rewrite existsb_app. cbn [existsb]. rewrite orb_false_r. reflexivity. Qed.

(** *** Arrays and objects *)

Lemma list_sum_map_cons {A : Type} (f : A -> nat) (x : A) (l : list A) :
  list_sum (map f (x :: l)) = (f x + list_sum (map f l))%nat.
Proof. reflexivity. Qed.

Lemma parse_elements_join (l : list value) :
  Forall reads_back l -> forallb is_json l = true -> l <> [] ->
  forall fuel rest,
    (list_sum (map (fun x => S (size x)) l) <= fuel)%nat ->
    parse_elements fuel (join "," (map text l) +:+ "]" +:+ rest) = Some (l, rest).
Proof.
  induction 1 as [|x l Hx _ IH]; [congruence|].
  cbn [forallb]. intros Hjson _. apply andb_true_iff in Hjson as [Hjx Hjl].
  intros [|fuel] rest Hfuel; rewrite list_sum_map_cons in Hfuel; [lia|].
  rewrite parse_elements_step.
  destruct l as [|y l'].
  - cbn [map join]. rewrite (Hx Hjx fuel ("]" +:+ rest)) by (lia || reflexivity).
    reflexivity.
  - change (join "," (map text (x :: y :: l')))
      with (text x +:+ "," +:+ join "," (map text (y :: l'))).
    rewrite !append_assoc.
    rewrite (Hx Hjx fuel) by (lia || reflexivity).
    change (skip_ws ("," +:+ join "," (map text (y :: l')) +:+ "]" +:+ rest))
      with (String "," (join "," (map text (y :: l')) +:+ "]" +:+ rest)).
    cbn [Ascii.eqb Bool.eqb]. cbv iota.
    rewrite (IH Hjl ltac:(congruence) fuel rest) by lia. reflexivity.
Qed.

Lemma parse_members_join (o : list (string * value)) :
  Forall (fun kv => reads_back (snd kv)) o ->
  forallb (fun kv => is_json (snd kv)) o = true -> o <> [] ->
  forall acc fuel rest,
    distinct (map fst o) = true ->
    (forall k, In k (map fst o) -> existsb (String.eqb k) (map fst acc) = false) ->
    (list_sum (map (fun kv => S (size (snd kv))) o) <= fuel)%nat ->
    parse_members fuel acc (join "," (map member_text o) +:+ "}" +:+ rest)
    = Some (acc ++ o, rest).
Proof.
  induction 1 as [|[k x] o Hx _ IH]; [congruence|].
  cbn [forallb snd]. intros Hjson _. apply andb_true_iff in Hjson as [Hjx Hjo].
  intros acc [|fuel] rest Hdist Hfresh Hfuel; rewrite list_sum_map_cons in Hfuel;
    cbn [snd] in Hfuel; [lia|].
  cbn [map fst distinct] in Hdist. apply andb_true_iff in Hdist as [Hk Hdist].
  apply negb_true_iff in Hk.
  assert (obj_set k x acc = acc ++ [(k, x)]) as Hset
    by (apply obj_set_fresh, Hfresh; left; reflexivity).
  cbn [snd] in Hx.
  destruct o as [|kv o'].
  - cbn [map join]. unfold member_text. cbn [fst snd].
    rewrite !append_assoc, parse_members_step.
    rewrite (Hx Hjx fuel ("}" +:+ rest)) by (lia || reflexivity).
    rewrite Hset. reflexivity.
  - change (join "," (map member_text ((k, x) :: kv :: o')))
      with (member_text (k, x) +:+ "," +:+ join "," (map member_text (kv :: o'))).
    unfold member_text at 1. cbn [fst snd].
    rewrite !append_assoc, parse_members_step.
    rewrite (Hx Hjx fuel) by (lia || reflexivity).
    change (skip_ws ("," +:+ join "," (map member_text (kv :: o')) +:+ "}" +:+ rest))
      with (String "," (join "," (map member_text (kv :: o')) +:+ "}" +:+ rest)).
    cbn [Ascii.eqb Bool.eqb]. cbv iota.
    rewrite Hset.
    rewrite (IH Hjo ltac:(congruence) (acc ++ [(k, x)]) fuel rest).
    + rewrite <- app_assoc. reflexivity.
    + exact Hdist.
    + intros k' Hin. rewrite map_app. cbn [map fst]. rewrite existsb_app_one.
      rewrite (Hfresh k') by (right; exact Hin). cbn [orb].
      destruct (String.eqb_spec k' k) as [->|]; [|reflexivity].
      exfalso.
      assert (existsb (String.eqb k) (map fst (kv :: o')) = true) as Htrue
        by (apply existsb_exists; exists k; split; [exact Hin | apply String.eqb_refl]).
      congruence.
    + lia.
Qed.

Lemma starts_value_join (ts : list string) (rest : string) :
  ts <> [] -> Forall (fun t => starts_value t = true) ts ->
  starts_value (join "," ts +:+ rest) = true.
Proof.
  intros Hne Hall. destruct Hall as [|t ts Ht Hts]; [congruence|].
  destruct ts as [|t' ts'].
  - cbn [join]. now apply starts_value_append.
  - change (join "," (t :: t' :: ts')) with (t +:+ "," +:+ join "," (t' :: ts')).
    rewrite append_assoc. now apply starts_value_append.
Qed.

Lemma parse_value_literal (fuel : nat) (rest : string) :
  parse_value (S fuel) ("null" +:+ rest) = Some (JNull, rest)
  /\ parse_value (S fuel) ("true" +:+ rest) = Some (JBool true, rest)
  /\ parse_value (S fuel) ("false" +:+ rest) = Some (JBool false, rest).
Proof. destruct rest; repeat split. Qed.

(** Every JSON value is read back from its text. *)
Lemma reads_back_all (v : value) : reads_back v.
Proof.
  induction v as [| |b|n|s|l IH|o IH] using value_nested_ind; unfold reads_back.
  - discriminate.
  - intros _ [|fuel] rest Hfuel _; [cbn [size] in Hfuel; lia|].
    apply (parse_value_literal fuel rest).
  - intros _ [|fuel] rest Hfuel _; [cbn [size] in Hfuel; lia|].
    destruct b; apply (parse_value_literal fuel rest).
  - cbn [is_json]. intros Hsafe [|fuel] rest Hfuel Hrest; [cbn [size] in Hfuel; lia|].
    rewrite (text_number n Hsafe). now apply parse_value_number.
  - intros _ [|fuel] rest Hfuel _; [cbn [size] in Hfuel; lia|].
    change (text (JString s)) with (quote s).
    rewrite quote_append, parse_value_string, parse_string_body_quote_body. reflexivity.
  - cbn [is_json]. intros Hjson [|fuel] rest Hfuel _; [cbn [size] in Hfuel; lia|].
    rewrite text_array, !append_assoc, append_cons, append_empty_l.
    rewrite parse_value_array.
    destruct l as [|x l']; [reflexivity|].
    assert (starts_value (join "," (map text (x :: l')) +:+ "]" +:+ rest) = true) as Hstart.
    { apply starts_value_join; [discriminate|].
      apply List.Forall_map, List.Forall_forall. intros y Hy.
      apply starts_value_text. rewrite forallb_forall in Hjson. now apply Hjson. }
    apply starts_value_inv in Hstart as (c & r & Heq & Hws & Hclose & _).
    rewrite Heq, skip_ws_head, Hclose by exact Hws. rewrite <- Heq.
    rewrite (parse_elements_join (x :: l') IH Hjson ltac:(discriminate) fuel rest).
    + reflexivity.
    + cbn [size] in Hfuel. lia.
  - cbn [is_json]. intros Hjson [|fuel] rest Hfuel _; [cbn [size] in Hfuel; lia|].
    apply andb_true_iff in Hjson as [Hjson Hdist].
    rewrite (text_object o Hjson), !append_assoc, append_cons, append_empty_l.
    rewrite parse_value_object.
    destruct o as [|kv o']; [reflexivity|].
    assert (starts_value (join "," (map member_text (kv :: o')) +:+ "}" +:+ rest) = true)
      as Hstart.
    { apply starts_value_join; [discriminate|].
      apply List.Forall_map, List.Forall_forall. intros y _. reflexivity. }
    apply starts_value_inv in Hstart as (c & r & Heq & Hws & _ & Hclose).
    rewrite Heq, skip_ws_head, Hclose by exact Hws. rewrite <- Heq.
    rewrite (parse_members_join (kv :: o') IH Hjson ltac:(discriminate) [] fuel rest).
    + reflexivity.
    + exact Hdist.
    + reflexivity.
    + cbn [size] in Hfuel. lia.
Qed.

(** *** The recursion depth is bounded by the length of the text *)

Lemma sum_le_join {A : Type} (sz : A -> nat) (tx : A -> string) (l : list A) :
  Forall (fun x => (sz x <= String.length (tx x))%nat) l ->
  (list_sum (map (fun x => S (sz x)) l) <= S (String.length (join "," (map tx l))))%nat.
Proof.
  induction 1 as [|x l Hx Hl IH]; [cbn; lia|].
  rewrite list_sum_map_cons. destruct l as [|y l'].
  - cbn [map join list_sum fold_right]. lia.
  - change (join "," (map tx (x :: y :: l')))
      with (tx x +:+ "," +:+ join "," (map tx (y :: l'))).
    rewrite !append_length. cbn [String.length]. lia.
Qed.

Lemma size_le_length (v : value) :
  is_json v = true -> (size v <= String.length (text v))%nat.
Proof.
  induction v as [| |b|n|s|l IH|o IH] using value_nested_ind.
  - discriminate.
  - intros _. cbn. lia.
  - intros _. destruct b; cbn; lia.
  - cbn [is_json]. intros Hsafe. rewrite (text_number n Hsafe).
    destruct (string_of_Z_head n) as (c & t & -> & _). cbn. lia.
  - intros _. cbn [size]. change (text (JString s)) with (quote s).
    unfold quote. cbn [String.length]. lia.
  - cbn [is_json]. intros Hjson. rewrite text_array, !append_length. cbn [size String.length].
    assert (Forall (fun x => (size x <= String.length (text x))%nat) l) as Hall.
    { apply List.Forall_forall. intros x Hx. rewrite List.Forall_forall in IH.
      apply IH; [exact Hx|]. rewrite forallb_forall in Hjson. now apply Hjson. }
    pose proof (sum_le_join size text l Hall). lia.
  - cbn [is_json]. intros Hjson. apply andb_true_iff in Hjson as [Hjson _].
    rewrite (text_object o Hjson), !append_length. cbn [size String.length].
    assert (Forall (fun kv => (size (snd kv) <= String.length (member_text kv))%nat) o)
      as Hall.
    { apply List.Forall_forall. intros kv Hkv. rewrite List.Forall_forall in IH.
      unfold member_text. rewrite !append_length.
      assert (size (snd kv) <= String.length (text (snd kv)))%nat; [|lia].
      apply IH; [exact Hkv|]. rewrite forallb_forall in Hjson. now apply Hjson. }
    pose proof (sum_le_join (fun kv => size (snd kv)) member_text o Hall). lia.
Qed.

(** [JSON.parse] reads a JSON value back from the text [JSON.stringify]
    wrote. *)
Lemma parse_text (v : value) : is_json v = true -> parse (text v) = Some v.
Proof.
  intros Hjson. unfold parse.
  assert (parse_value (String.length (text v)) (text v +:+ EmptyString)
          = Some (v, EmptyString)) as Hread.
  { apply reads_back_all; [exact Hjson | now apply size_le_length | reflexivity]. }
  rewrite append_empty_r in Hread. rewrite Hread. reflexivity.
Qed.

(** *** Values that hold undefined *)

Lemma json_form_is_json (v : value) : is_json v = true -> json_form v = v.
Proof.
  induction v as [| |b|n|s|l IH|o IH] using value_nested_ind; try reflexivity.
  - cbn [is_json json_form]. intros Hjson. f_equal.
    rewrite <- (map_id l) at 2. apply map_ext_in. intros x Hx.
    rewrite List.Forall_forall in IH. rewrite forallb_forall in Hjson.
    specialize (Hjson x Hx). specialize (IH x Hx Hjson).
    destruct x; try exact IH. discriminate.
  - cbn [is_json json_form]. intros Hjson. apply andb_true_iff in Hjson as [Hjson _].
    f_equal. induction o as [|[k x] o IHo]; [reflexivity|].
    cbn [forallb snd] in Hjson. apply andb_true_iff in Hjson as [Hx Ho].
    inversion IH as [|? ? IHx IHrest]; subst. cbn [snd] in IHx.
    rewrite omap_cons_eq. cbn [snd fst]. rewrite (IHx Hx), (IHo IHrest Ho).
    destruct x; try reflexivity. discriminate.
Qed.

Lemma stringify_json_form (v : value) : stringify (json_form v) = stringify v.
Proof.
  induction v as [| |b|n|s|l IH|o IH] using value_nested_ind; try reflexivity.
  - cbn [json_form Json.stringify]. rewrite map_map.
    match goal with
    | |- Some (_ +:+ join _ ?a +:+ _) = Some (_ +:+ join _ ?b +:+ _) =>
        assert (a = b) as ->; [|reflexivity]
    end.
    apply map_ext_in. intros x Hx. rewrite List.Forall_forall in IH.
    specialize (IH x Hx). destruct x; try (rewrite IH; reflexivity). reflexivity.
  - cbn [json_form Json.stringify].
    match goal with
    | |- Some (_ +:+ join _ ?a +:+ _) = Some (_ +:+ join _ ?b +:+ _) =>
        assert (a = b) as ->; [|reflexivity]
    end.
    induction o as [|[k x] o IHo]; [reflexivity|].
    inversion IH as [|? ? IHx IHrest]; subst. cbn [snd] in IHx.
    rewrite !omap_cons_eq. cbn [snd fst].
    destruct x; cbn [Json.stringify]; rewrite ?omap_cons_eq; cbn [snd fst];
      try (rewrite IHx); try (rewrite (IHo IHrest)); reflexivity.
Qed.

Lemma existsb_omap_keys (k : string) (g : string * value -> option (string * value))
    (o : list (string * value)) :
  (forall kv kv', g kv = Some kv' -> fst kv' = fst kv) ->
  existsb (String.eqb k) (map fst o) = false ->
  existsb (String.eqb k) (map fst (omap g o)) = false.
Proof.
  intros Hg. induction o as [|kv o IH]; [reflexivity|].
  cbn [map existsb]. intros H. apply orb_false_iff in H as [Hk Ho].
  rewrite omap_cons_eq. destruct (g kv) as [kv'|] eqn:Hkv; [|now apply IH].
  cbn [map existsb]. rewrite (Hg kv kv' Hkv), Hk. now apply IH.
Qed.

Lemma distinct_omap_keys (g : string * value -> option (string * value))
    (o : list (string * value)) :
  (forall kv kv', g kv = Some kv' -> fst kv' = fst kv) ->
  distinct (map fst o) = true -> distinct (map fst (omap g o)) = true.
Proof.
  intros Hg. induction o as [|kv o IH]; [reflexivity|].
  cbn [map distinct]. intros H. apply andb_true_iff in H as [Hk Ho].
  rewrite omap_cons_eq. destruct (g kv) as [kv'|] eqn:Hkv; [|now apply IH].
  cbn [map distinct]. rewrite (Hg kv kv' Hkv), IH by exact Ho.
  apply negb_true_iff in Hk. rewrite (existsb_omap_keys _ g o Hg Hk). reflexivity.
Qed.

Lemma is_json_json_form (v : value) :
  representable v = true -> v <> JUndefined -> is_json (json_form v) = true.
Proof.
  induction v as [| |b|n|s|l IH|o IH] using value_nested_ind; try reflexivity;
    try (cbn [representable json_form is_json]; intros Hsafe _; exact Hsafe).
  - congruence.
  - cbn [representable json_form is_json]. intros Hwk _.
    apply forallb_forall. intros y Hy. apply in_map_iff in Hy as (x & <- & Hx).
    rewrite List.Forall_forall in IH. rewrite forallb_forall in Hwk.
    specialize (IH x Hx (Hwk x Hx)).
    destruct x; try (apply IH; discriminate). reflexivity.
  - cbn [representable json_form is_json]. intros Hwk _.
    apply andb_true_iff in Hwk as [Hwk Hdist]. apply andb_true_iff. split.
    + clear Hdist. induction o as [|[k x] o IHo]; [reflexivity|].
      inversion IH as [|? ? IHx IHrest]; subst. cbn [snd] in IHx.
      cbn [forallb snd] in Hwk. apply andb_true_iff in Hwk as [Hx Ho].
      rewrite omap_cons_eq. cbn [snd fst].
      destruct x; try (cbn [forallb snd]; rewrite (IHo IHrest Ho), IHx by (assumption || discriminate); reflexivity).
      now apply IHo.
    + apply distinct_omap_keys; [|exact Hdist].
      intros [k x] kv'. cbn [snd fst]. destruct x; intros [= <-]; reflexivity.
Qed.

(** [JSON.parse] after [JSON.stringify] yields the JSON document the value
    denotes; for a JSON value that is the value itself. *)
Lemma parse_stringify (v : value) (t : string) :
  representable v = true -> stringify v = Some t ->
  parse t = Some (json_form v)
  /\ (is_json v = true -> json_form v = v).
Proof.
  intros Hwk Ht. split; [|apply json_form_is_json].
  assert (v <> JUndefined) as Hdef by (intros ->; discriminate).
  pose proof (is_json_json_form v Hwk Hdef) as Hjson.
  pose proof (parse_text (json_form v) Hjson) as Hparse.
  unfold JsonSpec.text in Hparse. rewrite stringify_json_form, Ht in Hparse. exact Hparse.
Qed.

End JsonProofs.

(* ===================================================================== *)
(** * CredentialOfferUtils: the offer URI *)
(* ===================================================================== *)

Section OfferUriProofs.
Import CredentialOfferUtils JsonSpec.

Variable Number_toString : Z -> string.

Local Abbreviation createCredentialOfferURIFromObject :=
  (CredentialOfferUtils.createCredentialOfferURIFromObject Number_toString).

(** C8 (amended). When no [credential_offer_uri] is set, a URI returned by
    [createCredentialOfferURIFromObject] ends in
    [?credential_offer=<encoded>]; url-decoding that value and JSON-parsing
    it reproduces the [credential_offer] payload exactly when the payload is
    a JSON value, and otherwise yields the payload as a JSON document: the
    members holding undefined are gone and an undefined array element reads
    [null]. *)
Theorem createCredentialOfferURIFromObject_round_trip
    (offer : OfferObject.t) (opts : UriOpts.t) (uri : string) :
  truthy_str (OfferObject.credential_offer_uri offer) = false ->
  createCredentialOfferURIFromObject offer opts = Ok uri ->
  exists base q,
    uri = base +:+ "?credential_offer=" +:+ q
    /\ (is_json (OfferObject.credential_offer offer) = true ->
        decoded_payload q = Some (OfferObject.credential_offer offer))
    /\ (representable (OfferObject.credential_offer offer) = true ->
        OfferObject.credential_offer offer <> JUndefined ->
        decoded_payload q = Some (json_form (OfferObject.credential_offer offer))).
Proof.
  intros Huri. unfold CredentialOfferUtils.createCredentialOfferURIFromObject.
  rewrite Huri. destruct (_ && _); [discriminate|].
  match goal with
  | |- Ok (?s +:+ "://" +:+ ?b +:+ "?credential_offer=" +:+ ?q) = Ok _ -> _ =>
      intros [= <-]; exists (s +:+ "://" +:+ b), q
  end.
  split; [rewrite !append_assoc; reflexivity|].
  unfold decoded_payload. rewrite decodeURIComponent_encodeURIComponent. split.
  - intros Hjson. rewrite (stringify_defined Number_toString _ Hjson).
    cbn [string_of_stringified default]. now apply parse_text.
  - intros Hrep Hdef.
    destruct (Json.stringify Number_toString (OfferObject.credential_offer offer))
      as [t|] eqn:Ht.
    + cbn [string_of_stringified default].
      exact (proj1 (parse_stringify Number_toString _ t Hrep Ht)).
    + destruct (OfferObject.credential_offer offer) as [| |[]| | | |];
        try discriminate; congruence.
Qed.

End OfferUriProofs.

Section OfferUriExamples.
Import CredentialOfferUtils JsonSpec.

Local Abbreviation offer_uri :=
  (CredentialOfferUtils.createCredentialOfferURIFromObject digits_in_full).

Lemma createCredentialOfferURIFromObject_round_trip_witness :
  exists base q,
    offer_uri sampleOfferObject noUriOpts = Ok (base +:+ "?credential_offer=" +:+ q)
    /\ decoded_payload q = Some sampleOffer.
Proof.
  edestruct (createCredentialOfferURIFromObject_round_trip digits_in_full
               sampleOfferObject noUriOpts _ eq_refl eq_refl)
    as (base & q & Huri & Hexact & _).
  exists base, q. split.
  - rewrite <- Huri. reflexivity.
  - apply Hexact. reflexivity.
Defined.

(** C8, as stated, fails on the payload the offer builder itself writes for
    a pre-authorized code without [txCode]: its [tx_code] member holds
    undefined and is missing from what is parsed back. *)
Lemma createCredentialOfferURIFromObject_round_trip_counterexample :
  offer_uri preAuthorizedOfferObject noUriOpts
  = Ok ("openid-credential-offer://?credential_offer="
        +:+ "%7B%22credential_issuer%22%3A%22https%3A%2F%2Fissuer.example.org%22%2C%22credential_configuration_ids%22%3A%5B%22UniversityDegree_JWT%22%5D%2C%22grants%22%3A%7B%22urn%3Aietf%3Aparams%3Aoauth%3Agrant-type%3Apre-authorized_code%22%3A%7B%22pre-authorized_code%22%3A%22abc%22%7D%7D%7D")
  /\ decoded_payload
       "%7B%22credential_issuer%22%3A%22https%3A%2F%2Fissuer.example.org%22%2C%22credential_configuration_ids%22%3A%5B%22UniversityDegree_JWT%22%5D%2C%22grants%22%3A%7B%22urn%3Aietf%3Aparams%3Aoauth%3Agrant-type%3Apre-authorized_code%22%3A%7B%22pre-authorized_code%22%3A%22abc%22%7D%7D%7D"
     = Some (JObject
               [("credential_issuer", JString "https://issuer.example.org");
                ("credential_configuration_ids", JArray [JString "UniversityDegree_JWT"]);
                ("grants",
                 JObject [(PRE_AUTH_GRANT,
                           JObject [("pre-authorized_code", JString "abc")])])])
  /\ decoded_payload
       "%7B%22credential_issuer%22%3A%22https%3A%2F%2Fissuer.example.org%22%2C%22credential_configuration_ids%22%3A%5B%22UniversityDegree_JWT%22%5D%2C%22grants%22%3A%7B%22urn%3Aietf%3Aparams%3Aoauth%3Agrant-type%3Apre-authorized_code%22%3A%7B%22pre-authorized_code%22%3A%22abc%22%7D%7D%7D"
     <> Some preAuthorizedOffer.
Proof.
  split; [vm_compute; reflexivity|].
  split; [vm_compute; reflexivity|].
  vm_compute. discriminate.
Qed.

(** The deep link of the sample offer, character for character. *)
Lemma sample_offer_uri :
  offer_uri sampleOfferObject noUriOpts
  = Ok "openid-credential-offer://?credential_offer=%7B%22credential_issuer%22%3A%22https%3A%2F%2Fissuer.example.org%22%2C%22credential_configuration_ids%22%3A%5B%22UniversityDegree_JWT%22%5D%2C%22grants%22%3A%7B%22urn%3Aietf%3Aparams%3Aoauth%3Agrant-type%3Apre-authorized_code%22%3A%7B%22pre-authorized_code%22%3A%22abc%22%2C%22tx_code%22%3A%7B%22length%22%3A4%2C%22input_mode%22%3A%22numeric%22%7D%7D%7D%7D".
Proof. vm_compute. reflexivity. Qed.

End OfferUriExamples.

(* ===================================================================== *)
(** * JwtVerifier: the remaining branches of the resolver *)
(* ===================================================================== *)

Section ResolverProofs.
Import JwtVerifier VerifierSpec ResolverSpec.

Variable DigestAlgorithm : Type.
Variable digestOf : string -> result DigestAlgorithm.
Variable thumbprintOf : value -> DigestAlgorithm -> result string.
Variable parseJWT : string -> result Jwt.

Local Abbreviation getJwkVerifier :=
  (JwtVerifier.getJwkVerifier DigestAlgorithm digestOf thumbprintOf).
Local Abbreviation getJwtVerifierWithContext :=
  (JwtVerifier.getJwtVerifierWithContext DigestAlgorithm digestOf thumbprintOf).
Local Abbreviation getRequestObjectJwtVerifier :=
  (JwtVerifier.getRequestObjectJwtVerifier DigestAlgorithm digestOf thumbprintOf parseJWT).

(** ** getX5cVerifier *)

Lemma certificate_chain_checks (c : value) :
  truthy c = true
  /\ negb (isArray c) || (array_length c =? 0)%nat || negb (array_every is_string c) = false
  <-> certificate_chain c.
Proof.
  unfold certificate_chain. split.
  - intros [_ H]. apply orb_false_iff in H as [H Hstr].
    apply orb_false_iff in H as [Harr Hlen].
    destruct c as [| | | | |l|]; try discriminate. cbn in Hlen, Hstr.
    apply negb_false_iff, forallb_is_string in Hstr as [certs ->].
    exists certs. split; [|reflexivity]. intros ->. discriminate.
  - intros (certs & Hne & ->). split; [reflexivity|].
    cbn [isArray negb orb array_length array_every].
    assert (forallb is_string (map JString certs) = true) as ->
      by (apply forallb_is_string; eauto).
    destruct certs; [congruence | reflexivity].
Qed.

Lemma getX5cVerifier_ok (j : Jwt) (type : JwtType) (v : Verifier) :
  getX5cVerifier j type = Ok v
  <-> certificate_chain (x5c (header j))
      /\ v = X5cJwtVerifier type (x5c (header j)) (iss (payload j)).
Proof.
  unfold getX5cVerifier. rewrite <- certificate_chain_checks.
  destruct (truthy (x5c (header j))); cbn [negb].
  - destruct (_ || _).
    + split; [discriminate | intros [[_ [=]] _]].
    + split; [intros [= <-]; auto | intros [_ ->]; reflexivity].
  - split; [discriminate | intros [[[=] _] _]].
Qed.

Lemma getX5cVerifier_throw (j : Jwt) (type : JwtType) (e : exn) :
  getX5cVerifier j type = Throw e -> exists detail, e = SIOPError INVALID_JWT detail.
Proof.
  unfold getX5cVerifier. destruct (negb _); [intros [= <-]; eauto|].
  destruct (_ || _); [intros [= <-]; eauto | discriminate].
Qed.

(** X1. [getX5cVerifier] succeeds exactly when the [x5c] header is a
    non-empty array of strings; the verifier then carries that very array and
    the payload's [iss] as issuer.  Every failure is an invalid-token error. *)
Theorem getX5cVerifier_chain (j : Jwt) (type : JwtType) :
  (forall v,
      getX5cVerifier j type = Ok v
      <-> certificate_chain (x5c (header j))
          /\ v = X5cJwtVerifier type (x5c (header j)) (iss (payload j)))
  /\ (forall e, getX5cVerifier j type = Throw e ->
                exists detail, e = SIOPError INVALID_JWT detail).
Proof.
  split; [intros v; apply getX5cVerifier_ok | intros e; apply getX5cVerifier_throw].
Qed.

(** ** getJwkVerifier for the other token types *)

Lemma is_object_checks (v : value) :
  is_object v = true <-> truthy v = true /\ typeof v = "object".
Proof. destruct v; simpl; split; try tauto; try discriminate; intros [H1 H2]; discriminate. Qed.

Lemma getJwkVerifier_other (j : Jwt) (type : JwtType) (v : Verifier) :
  type <> id_token ->
  getJwkVerifier j type = Ok v
  <-> is_object (jwk (header j)) = true
      /\ v = JwkJwtVerifier type (jwk (header j)) None.
Proof.
  intros Htype. rewrite is_object_checks. unfold JwtVerifier.getJwkVerifier.
  assert (JwtType_eqb type id_token = false) as -> by (destruct type; try reflexivity; congruence).
  destruct (truthy (jwk (header j))); cbn [negb].
  - destruct (String.eqb_spec (typeof (jwk (header j))) "object") as [He|Hne]; cbn [negb].
    + split; [intros [= <-]; auto | intros [_ ->]; reflexivity].
    + split; [discriminate | intros [[_ ?] _]; contradiction].
  - split; [discriminate | intros [[[=] _] _]].
Qed.

(** X2. For a request object or a verifier attestation, [getJwkVerifier]
    succeeds exactly when the [jwk] header is an object (as [typeof] sees
    it, [null] apart), whatever the thumbprint helpers do and whatever
    [sub_jwk] holds; the verifier carries the [jwk] and no thumbprint.  Every
    failure is an invalid-token error. *)
Theorem getJwkVerifier_without_thumbprint (j : Jwt) (type : JwtType) :
  type <> id_token ->
  (forall v,
      getJwkVerifier j type = Ok v
      <-> is_object (jwk (header j)) = true
          /\ v = JwkJwtVerifier type (jwk (header j)) None)
  /\ (forall e, getJwkVerifier j type = Throw e ->
                exists detail, e = SIOPError INVALID_JWT detail).
Proof.
  intros Htype. split; [intros v; now apply getJwkVerifier_other|].
  intros e. unfold JwtVerifier.getJwkVerifier.
  assert (JwtType_eqb type id_token = false) as -> by (destruct type; try reflexivity; congruence).
  destruct (negb _); [intros [= <-]; eauto|].
  destruct (negb _); [intros [= <-]; eauto | discriminate].
Qed.

(** ** Auto-detection *)

Lemma getDidJwtVerifier_ok (j : Jwt) (type : JwtType) (v : Verifier) :
  getDidJwtVerifier j type = Ok v
  <-> exists k, kid (header j) = Some k /\ includes k "#" = true
                /\ v = DidJwtVerifier type k.
Proof.
  split.
  - unfold getDidJwtVerifier. destruct (kid (header j)) as [k|]; [|discriminate].
    destruct (negb (truthy_str (Some k))); [discriminate|].
    destruct (includes k "#") eqn:Hi; [|discriminate].
    intros [= <-]. eauto.
  - intros (k & Hk & Hi & ->). now apply getDidJwtVerifier_fragment.
Qed.

Lemma getJwkVerifier_id_token_ok (j : Jwt) (v : Verifier) :
  getJwkVerifier j id_token = Ok v ->
  exists s, sub_jwk (payload j) = JString s
            /\ is_object (jwk (header j)) = true
            /\ v = JwkJwtVerifier id_token (jwk (header j)) (Some s).
Proof.
  unfold JwtVerifier.getJwkVerifier.
  destruct (truthy (jwk (header j))) eqn:Ht; [|discriminate]. cbn [negb].
  destruct (String.eqb_spec (typeof (jwk (header j))) "object") as [He|]; [|discriminate].
  cbn [negb JwtType_eqb].
  destruct (sub_jwk (payload j)) as [| | | |s| |]; try discriminate.
  destruct (digestOf s) as [alg|]; [|discriminate]. cbn [Js.bind].
  destruct (thumbprintOf _ alg) as [s'|]; [|discriminate]. cbn [Js.bind].
  destruct (negb _); [discriminate|]. intros [= <-].
  exists s. repeat split. apply is_object_checks. auto.
Qed.

Lemma getJwtVerifierWithContext_ok (j : Jwt) (type : JwtType) (v : Verifier) :
  getJwtVerifierWithContext j type = Ok v -> detected_from j type v.
Proof.
  unfold JwtVerifier.getJwtVerifierWithContext. fold (did_kid j).
  destruct (did_kid j) eqn:Hdid.
  - intros H. apply getDidJwtVerifier_ok in H as (k & Hk & Hi & ->).
    cbn [detected_from]. unfold did_kid in Hdid. rewrite Hk in Hdid. auto.
  - destruct (truthy (x5c (header j))) eqn:Hx.
    + intros H. apply getX5cVerifier_ok in H as [Hchain ->].
      cbn [detected_from]. auto.
    + destruct (truthy (jwk (header j))) eqn:Hj.
      * destruct type.
        -- intros H. apply getJwkVerifier_id_token_ok in H as (s & Hs & Hobj & ->).
           cbn [detected_from]. repeat split; auto; [congruence | eauto].
        -- intros H. apply getJwkVerifier_other in H as [Hobj ->]; [|discriminate].
           cbn [detected_from]. repeat split; auto. discriminate.
        -- intros H. apply getJwkVerifier_other in H as [Hobj ->]; [|discriminate].
           cbn [detected_from]. repeat split; auto. discriminate.
      * intros [= <-]. cbn [detected_from]. auto.
Qed.

(** X3. Auto-detection returns each kind of verifier only from its own
    header material, in the order [kid] starting with [did:], [x5c], [jwk]:
    a Did verifier has the [kid] as [didUrl] and a fragment; an X5c verifier
    is returned only when the [kid] names no DID; a Jwk verifier only when
    moreover [x5c] is absent; an OpenID-Federation verifier never.  A token
    with none of the three resolves to the custom verifier and never fails. *)
Theorem getJwtVerifierWithContext_detection (j : Jwt) (type : JwtType) :
  (forall v, getJwtVerifierWithContext j type = Ok v -> detected_from j type v)
  /\ (did_kid j = false ->
      truthy (x5c (header j)) = false -> truthy (jwk (header j)) = false ->
      getJwtVerifierWithContext j type = Ok (CustomJwtVerifier type)).
Proof.
  split; [intros v; apply getJwtVerifierWithContext_ok|].
  intros Hdid Hx Hj. unfold JwtVerifier.getJwtVerifierWithContext.
  fold (did_kid j). rewrite Hdid, Hx, Hj. reflexivity.
Qed.

(** ** The dispatch on [client_id_scheme] *)

(** Which branch produced a verifier. *)
Lemma getRequestObjectJwtVerifier_ok (j : Jwt) (raw : string) (v : Verifier) :
  getRequestObjectJwtVerifier j raw = Ok v ->
  getJwtVerifierWithContext j request_object = Ok v
  \/ (client_id_scheme (payload j) = Some "did"
      /\ getDidJwtVerifier j request_object = Ok v)
  \/ getX5cVerifier j request_object = Ok v
  \/ (client_id_scheme (payload j) = Some "verifier_attestation"
      /\ exists key, v = JwkJwtVerifier request_object key None)
  \/ (client_id_scheme (payload j) = Some "entity_id"
      /\ exists cid, client_id (payload j) = Some cid
                     /\ startsWith cid "http" = true
                     /\ v = OpenIdFederationJwtVerifier request_object cid).
Proof.
  unfold JwtVerifier.getRequestObjectJwtVerifier.
  destruct (negb (truthy_str _)); [auto|].
  destruct (opt_str_eqb _ (Some "did")) eqn:Hdid;
    [apply opt_str_eqb_eq in Hdid; auto|].
  destruct (opt_str_eqb _ (Some "pre-registered")); [auto|].
  destruct (_ || _); [auto|].
  destruct (opt_str_eqb _ (Some "redirect_uri")).
  { destruct (_ && _); [discriminate|]. destruct (_ <? _)%nat; [discriminate | auto]. }
  destruct (opt_str_eqb _ (Some "verifier_attestation")) eqn:Hva.
  { apply opt_str_eqb_eq in Hva.
    destruct (jwt (header j)) as [a|]; [|discriminate].
    destruct (negb (truthy_str (Some a))); [discriminate|].
    destruct (negb (strict_eq_str _ _)); [discriminate|].
    destruct (parseJWT a) as [att|]; [|discriminate]. cbn [Js.bind].
    match goal with |- (if ?b then _ else _) = _ -> _ => destruct b; [discriminate|] end.
    destruct (get_prop _ _) as [k|]; [|discriminate]. cbn [Js.bind].
    destruct (negb _); [discriminate|].
    destruct (_ && _); [discriminate|].
    intros [= <-]. right. right. right. left. eauto. }
  destruct (opt_str_eqb _ (Some "entity_id")) eqn:Heid; [|discriminate].
  apply opt_str_eqb_eq in Heid.
  destruct (client_id (payload j)) as [cid|]; [|discriminate].
  destruct (startsWith cid "http") eqn:Hhttp; [|discriminate]. cbn [negb].
  intros [= <-]. right. right. right. right. eauto.
Qed.

(** X4. Every verifier returned for a request object has type
    [request-object] and carries no [jwkThumbprint], under every scheme. *)
Theorem getRequestObjectJwtVerifier_type (j : Jwt) (raw : string) (v : Verifier) :
  getRequestObjectJwtVerifier j raw = Ok v ->
  verifier_type v = request_object /\ verifier_thumbprint v = None.
Proof.
  intros H. apply getRequestObjectJwtVerifier_ok in H
    as [H|[[_ H]|[H|[[_ [key ->]]|[_ (cid & _ & _ & ->)]]]]]; try (split; reflexivity).
  - apply getJwtVerifierWithContext_ok in H.
    destruct v; cbn [detected_from] in H; cbn [verifier_type verifier_thumbprint].
    + split; [apply H | reflexivity].
    + split; [apply H | reflexivity].
    + split; [apply H | reflexivity].
    + destruct H as (-> & _ & _ & _ & _ & Hnone & _). split; [reflexivity|].
      apply Hnone. discriminate.
    + contradiction.
  - apply getDidJwtVerifier_ok in H as (k & _ & _ & ->). split; reflexivity.
  - apply getX5cVerifier_ok in H as [_ ->]. split; reflexivity.
Qed.

(** X5. Where each verifier returned for a request object comes from: a Did
    verifier has the [kid] header as [didUrl], with a fragment, and either
    the scheme is [did] or the [kid] starts with [did:]; an X5c verifier
    carries the [x5c] header, a non-empty array of strings, and the payload's
    [iss]; an OpenID-Federation verifier is returned only under scheme
    [entity_id], for the [client_id], which starts with [http]; a custom
    verifier only for a token without DID [kid], [x5c] and [jwk]; a Jwk
    verifier carries the [jwk] header unless the scheme is
    [verifier_attestation]. *)
Theorem getRequestObjectJwtVerifier_provenance (j : Jwt) (raw : string) (v : Verifier) :
  getRequestObjectJwtVerifier j raw = Ok v -> resolved_from j v.
Proof.
  intros H. apply getRequestObjectJwtVerifier_ok in H
    as [H|[[Hs H]|[H|[[Hs [key ->]]|[Hs (cid & Hc & Hh & ->)]]]]].
  - apply getJwtVerifierWithContext_ok in H.
    destruct v; cbn [detected_from] in H; cbn [resolved_from].
    + destruct H as (_ & Hk & Hd & Hi). auto.
    + destruct H as (_ & _ & Hc & Hchain & Hi). auto.
    + destruct H as (_ & Hd & Hx & Hj). auto.
    + destruct H as (_ & _ & _ & Hk & Ho & _). auto.
    + contradiction.
  - apply getDidJwtVerifier_ok in H as (k & Hk & Hi & ->). cbn [resolved_from]. auto.
  - apply getX5cVerifier_ok in H as [Hchain ->]. cbn [resolved_from]. auto.
  - cbn [resolved_from]. auto.
  - cbn [resolved_from]. auto.
Qed.

(** X6. Under scheme [x509_san_dns] or [x509_san_uri] the resolver succeeds
    exactly when the [x5c] header is a non-empty array of strings, and then
    returns the X5c verifier for it, whatever else the headers hold (a DID
    [kid] or a [jwk] are not looked at); every failure is an invalid-token
    error. *)
Theorem x509_san_scheme (j : Jwt) (raw : string) :
  client_id_scheme (payload j) = Some "x509_san_dns"
  \/ client_id_scheme (payload j) = Some "x509_san_uri" ->
  (forall v,
      getRequestObjectJwtVerifier j raw = Ok v
      <-> certificate_chain (x5c (header j))
          /\ v = X5cJwtVerifier request_object (x5c (header j)) (iss (payload j)))
  /\ (forall e, getRequestObjectJwtVerifier j raw = Throw e ->
                exists detail, e = SIOPError INVALID_JWT detail).
Proof.
  intros Hs.
  assert (getRequestObjectJwtVerifier j raw = getX5cVerifier j request_object) as ->.
  { unfold JwtVerifier.getRequestObjectJwtVerifier. destruct Hs as [-> | ->]; reflexivity. }
  split; [intros v; apply getX5cVerifier_ok | intros e; apply getX5cVerifier_throw].
Qed.

(** X7. Under scheme [entity_id] the resolver looks at the [client_id] only:
    when it starts with [http] the result is the OpenID-Federation verifier
    for that [client_id], otherwise the entity-id error; headers and raw
    token play no part. *)
Theorem entity_id_scheme (j : Jwt) (raw cid : string) :
  client_id_scheme (payload j) = Some "entity_id" ->
  client_id (payload j) = Some cid ->
  (startsWith cid "http" = true ->
   getRequestObjectJwtVerifier j raw = Ok (OpenIdFederationJwtVerifier request_object cid))
  /\ (startsWith cid "http" = false ->
      getRequestObjectJwtVerifier j raw =
        Throw (SIOPError INVALID_REQUEST_OBJECT_ENTITY_ID_SCHEME_CLIENT_ID EmptyString)).
Proof.
  intros Hs Hc. unfold JwtVerifier.getRequestObjectJwtVerifier. rewrite Hs, Hc. cbn.
  split; intros ->; reflexivity.
Qed.

(** X8. A declared (non-empty) [client_id_scheme] outside the seven the
    resolver knows fails with the unknown-scheme error, whatever the token
    holds; the comparison is exact, so a scheme in another letter case is
    unknown. *)
Theorem unknown_scheme (j : Jwt) (raw scheme : string) :
  client_id_scheme (payload j) = Some scheme ->
  scheme <> EmptyString ->
  known_scheme scheme = false ->
  getRequestObjectJwtVerifier j raw = Throw (SIOPError INVALID_CLIENT_ID_SCHEME EmptyString).
Proof.
  intros Hs Hne Hk. unfold known_scheme in Hk.
  repeat (apply orb_false_iff in Hk as [Hk ?]).
  unfold JwtVerifier.getRequestObjectJwtVerifier. rewrite Hs.
  cbn [truthy_str opt_str_eqb]. apply String.eqb_neq in Hne. rewrite Hne. cbn [negb].
  repeat match goal with H : String.eqb scheme _ = false |- _ => rewrite H; clear H end.
  reflexivity.
Qed.

(** X9. Under scheme [verifier_attestation] the two header checks come before
    the nested token is parsed: without a (non-empty) [jwt] header the call
    fails with the missing-attestation error, and with one but an outer
    [typ] other than the attestation subtype it fails with the
    attestation-typ error, whatever [parseJWT] would do; once both pass, a
    failure of [parseJWT] is the failure of the call. *)
Theorem verifier_attestation_header_checks (j : Jwt) (raw : string) :
  client_id_scheme (payload j) = Some "verifier_attestation" ->
  (truthy_str (jwt (header j)) = false ->
   getRequestObjectJwtVerifier j raw = Throw (SIOPError MISSING_ATTESTATION_JWT EmptyString))
  /\ (truthy_str (jwt (header j)) = true ->
      typ (header j) <> JString verifierAttestationSubtype ->
      getRequestObjectJwtVerifier j raw =
        Throw (SIOPError MISSING_ATTESTATION_JWT_TYP EmptyString))
  /\ (forall a e,
         jwt (header j) = Some a -> a <> EmptyString ->
         typ (header j) = JString verifierAttestationSubtype ->
         parseJWT a = Throw e ->
         getRequestObjectJwtVerifier j raw = Throw e).
Proof.
  intros Hs. unfold JwtVerifier.getRequestObjectJwtVerifier. rewrite Hs. cbn.
  split; [|split].
  - destruct (jwt (header j)) as [a|]; [|reflexivity]. intros Ht. cbn in Ht |- *.
    rewrite Ht. reflexivity.
  - destruct (jwt (header j)) as [a|]; [|discriminate]. intros Ht Htyp. cbn in Ht |- *.
    rewrite Ht. cbn.
    destruct (strict_eq_str (typ (header j)) (Some verifierAttestationSubtype)) eqn:He;
      [|reflexivity].
    apply strict_eq_str_eq in He. contradiction.
  - intros a e Hj Ha Htyp Hp. rewrite Hj, Htyp. cbn.
    apply String.eqb_neq in Ha. rewrite Ha. cbn. rewrite Hp. reflexivity.
Qed.

End ResolverProofs.

Section ResolverExamples.
Import JwtVerifier VerifierSpec ResolverSpec.

Local Abbreviation resolve :=
  (JwtVerifier.getRequestObjectJwtVerifier unit sampleDigest sampleThumbprint
     (parseAs sampleIdToken)).

Lemma getX5cVerifier_chain_witness :
  getX5cVerifier (requestWith x5cHeader None None) request_object
  = Ok (X5cJwtVerifier request_object sampleChain (JString "https://client.example.org")).
Proof.
  destruct (getX5cVerifier_chain (requestWith x5cHeader None None) request_object)
    as [Hiff _].
  apply Hiff. split; [|reflexivity].
  exists ["MIIBkTCCATegAwIBAgIU"; "MIIBjzCCATWgAwIBAgIU"]. split; [discriminate | reflexivity].
Defined.

Lemma getJwkVerifier_without_thumbprint_witness :
  JwtVerifier.getJwkVerifier unit sampleDigest sampleThumbprint
    (requestWith jwkHeader None None) request_object
  = Ok (JwkJwtVerifier request_object sampleJwk None).
Proof.
  destruct (getJwkVerifier_without_thumbprint unit sampleDigest sampleThumbprint
              (requestWith jwkHeader None None) request_object ltac:(discriminate))
    as [Hiff _].
  apply Hiff. split; reflexivity.
Defined.

Lemma getJwtVerifierWithContext_detection_witness :
  detected_from (requestWith x5cHeader None None) request_object
    (DidJwtVerifier request_object "did:example:123#key-1")
  /\ JwtVerifier.getJwtVerifierWithContext unit sampleDigest sampleThumbprint
       (requestWith emptyHeader None None) verifier_attestation
     = Ok (CustomJwtVerifier verifier_attestation).
Proof.
  split.
  - destruct (getJwtVerifierWithContext_detection unit sampleDigest sampleThumbprint
                (requestWith x5cHeader None None) request_object) as [Hdet _].
    apply Hdet. reflexivity.
  - destruct (getJwtVerifierWithContext_detection unit sampleDigest sampleThumbprint
                (requestWith emptyHeader None None) verifier_attestation) as [_ Hcustom].
    apply Hcustom; reflexivity.
Defined.

Lemma getRequestObjectJwtVerifier_type_witness :
  verifier_type (JwkJwtVerifier request_object sampleJwk None) = request_object
  /\ verifier_thumbprint (JwkJwtVerifier request_object sampleJwk None) = None.
Proof.
  apply (getRequestObjectJwtVerifier_type unit sampleDigest sampleThumbprint
           (parseAs sampleIdToken)
           (requestWith jwkHeader (Some "pre-registered") None) "e30.e30.c2ln").
  reflexivity.
Defined.

Lemma getRequestObjectJwtVerifier_provenance_witness :
  resolved_from (requestWith x5cHeader (Some "redirect_uri") None)
    (DidJwtVerifier request_object "did:example:123#key-1").
Proof.
  apply (getRequestObjectJwtVerifier_provenance unit sampleDigest sampleThumbprint
           (parseAs sampleIdToken)
           (requestWith x5cHeader (Some "redirect_uri") None) "e30.e30").
  reflexivity.
Defined.

Lemma x509_san_scheme_witness :
  resolve (requestWith x5cHeader (Some "x509_san_dns") None) "e30.e30.c2ln"
  = Ok (X5cJwtVerifier request_object sampleChain (JString "https://client.example.org")).
Proof.
  destruct (x509_san_scheme unit sampleDigest sampleThumbprint (parseAs sampleIdToken)
              (requestWith x5cHeader (Some "x509_san_dns") None) "e30.e30.c2ln"
              (or_introl eq_refl)) as [Hiff _].
  apply Hiff. split; [|reflexivity].
  exists ["MIIBkTCCATegAwIBAgIU"; "MIIBjzCCATWgAwIBAgIU"]. split; [discriminate | reflexivity].
Defined.

Lemma entity_id_scheme_witness :
  resolve (requestWith x5cHeader (Some "entity_id") (Some "https://rp.example.org"))
    "e30.e30.c2ln"
  = Ok (OpenIdFederationJwtVerifier request_object "https://rp.example.org")
  /\ resolve (requestWith x5cHeader (Some "entity_id") (Some "did:example:rp"))
       "e30.e30.c2ln"
     = Throw (SIOPError INVALID_REQUEST_OBJECT_ENTITY_ID_SCHEME_CLIENT_ID EmptyString).
Proof.
  split.
  - apply (entity_id_scheme unit sampleDigest sampleThumbprint (parseAs sampleIdToken)
             (requestWith x5cHeader (Some "entity_id") (Some "https://rp.example.org"))
             "e30.e30.c2ln" "https://rp.example.org" eq_refl eq_refl).
    reflexivity.
  - apply (entity_id_scheme unit sampleDigest sampleThumbprint (parseAs sampleIdToken)
             (requestWith x5cHeader (Some "entity_id") (Some "did:example:rp"))
             "e30.e30.c2ln" "did:example:rp" eq_refl eq_refl).
    reflexivity.
Defined.

Lemma unknown_scheme_witness :
  resolve (requestWith x5cHeader (Some "DID") None) "e30.e30.c2ln"
  = Throw (SIOPError INVALID_CLIENT_ID_SCHEME EmptyString).
Proof.
  apply (unknown_scheme unit sampleDigest sampleThumbprint (parseAs sampleIdToken)
           (requestWith x5cHeader (Some "DID") None) "e30.e30.c2ln" "DID" eq_refl).
  - discriminate.
  - reflexivity.
Defined.

Lemma verifier_attestation_header_checks_witness :
  resolve (requestWith x5cHeader (Some "verifier_attestation") None) "e30.e30.c2ln"
  = Throw (SIOPError MISSING_ATTESTATION_JWT EmptyString)
  /\ JwtVerifier.getRequestObjectJwtVerifier unit sampleDigest sampleThumbprint
       (fun _ => Throw SyntaxError)
       {| header := {| kid := None; typ := JString "JWT"; x5c := JUndefined;
                       jwk := JUndefined; jwt := Some "not-a-token" |};
          payload := payload (requestWith emptyHeader (Some "verifier_attestation") None) |}
       "e30.e30.c2ln"
     = Throw (SIOPError MISSING_ATTESTATION_JWT_TYP EmptyString).
Proof.
  split.
  - destruct (verifier_attestation_header_checks unit sampleDigest sampleThumbprint
                (parseAs sampleIdToken)
                (requestWith x5cHeader (Some "verifier_attestation") None) "e30.e30.c2ln"
                eq_refl) as [Hmissing _].
    apply Hmissing. reflexivity.
  - destruct (verifier_attestation_header_checks unit sampleDigest sampleThumbprint
                (fun _ => Throw SyntaxError)
                {| header := {| kid := None; typ := JString "JWT"; x5c := JUndefined;
                                jwk := JUndefined; jwt := Some "not-a-token" |};
                   payload := payload (requestWith emptyHeader (Some "verifier_attestation")
                                         None) |}
                "e30.e30.c2ln" eq_refl) as (_ & Htyp & _).
    apply Htyp; [reflexivity | discriminate].
Defined.

End ResolverExamples.

(* ===================================================================== *)
(** * CredentialOfferUtils: scheme, base URI, payload and generator *)
(* ===================================================================== *)

Lemma prefix_split (p s : string) :
  String.prefix p s = true -> s = p +:+ drop (String.length p) s.
Proof.
  revert s. induction p as [|c p IH]; intros s H; [reflexivity|].
  destruct s as [|a s]; [discriminate|]. cbn [String.prefix] in H.
  destruct (ascii_dec c a) as [->|]; [|discriminate].
  rewrite append_cons. cbn [String.length drop]. f_equal. now apply IH.
Qed.

Lemma replace_prefix (p s rep : string) :
  String.prefix p s = true -> replace s p rep = rep +:+ drop (String.length p) s.
Proof. intros H. destruct s; cbn [replace]; rewrite H; reflexivity. Qed.

Lemma includes_append_l (a s pat : string) :
  includes s pat = true -> includes (a +:+ s) pat = true.
Proof.
  intros H. induction a as [|c a IH]; [exact H|].
  rewrite append_cons. cbn [includes]. rewrite IH. apply orb_true_r.
Qed.

Lemma includes_prefix (s pat : string) :
  String.prefix pat s = true -> includes s pat = true.
Proof. intros H. destruct s; cbn [includes]; rewrite H; reflexivity. Qed.

Lemma includes_infix (a pat b : string) : includes (a +:+ pat +:+ b) pat = true.
Proof. apply includes_append_l, includes_prefix, prefix_append. Qed.

Section OfferFlowProofs.
Import CredentialOfferUtils OfferSpec.

Variable RandomState : Type.
Variable uuidv4 : RandomState -> string * RandomState.
Variable Number_toString : Z -> string.

Local Abbreviation applyGrants := (CredentialOfferUtils.applyGrants RandomState uuidv4).
Local Abbreviation createCredentialOfferObject :=
  (CredentialOfferUtils.createCredentialOfferObject RandomState uuidv4).
Local Abbreviation issuerState_or_uuid :=
  (CredentialOfferUtils.issuerState_or_uuid RandomState uuidv4).
Local Abbreviation createCredentialOfferURIFromObject :=
  (CredentialOfferUtils.createCredentialOfferURIFromObject Number_toString).

(** X10. Without issuer metadata and without a [credentialOffer] payload the
    call never succeeds: with no [credentialOfferUri] either it fails with
    the provide-a-source error, and a [credentialOfferUri] alone only moves
    the failure to a later check. *)
Theorem createCredentialOfferObject_needs_source (opts : Opts.t) (rs : RandomState) :
  Opts.credentialOffer opts = None ->
  (exists e, createCredentialOfferObject None opts rs = Throw e)
  /\ (truthy_str (Opts.credentialOfferUri opts) = false ->
      createCredentialOfferObject None opts rs =
        Throw (Error "You have to provide issuerMetadata or credentialOffer object for creating a deeplink")).
Proof.
  intros Hoffer. unfold CredentialOfferUtils.createCredentialOfferObject.
  rewrite Hoffer. cbn.
  destruct (truthy_str (Opts.credentialOfferUri opts)); cbn; [|split; eauto].
  split; [|discriminate].
  destruct (truthy_str (Opts.baseUri opts)); cbn; [eauto|].
  match goal with |- context [if ?b then _ else _] => destruct b end; cbn; eauto.
Qed.

(** The members of the result that do not depend on the grants. *)
Lemma createCredentialOfferObject_members md opts rs r rs' :
  createCredentialOfferObject md opts rs = Ok (r, rs') ->
  exists base,
    Offer.baseUri r = replace base (Offer.scheme r +:+ "://") EmptyString
    /\ (truthy_str (Opts.baseUri opts) = true -> Opts.baseUri opts = Some base)
    /\ (truthy_str (Opts.baseUri opts) = false ->
        if startsWith (Offer.scheme r) "http"
        then md ≫= Metadata.credential_issuer = Some base
             /\ startsWith base (Offer.scheme r +:+ "://") = true
        else base = EmptyString)
    /\ Offer.scheme r
       = match Opts.scheme opts with
         | Some s => replace s "://" EmptyString
         | None =>
             match Opts.baseUri opts with
             | Some b => if includes b "://" then hd EmptyString (split b "://")
                         else defaultScheme
             | None => defaultScheme
             end
         end
    /\ Offer.credential_offer_uri r
       = if truthy_str (Opts.credentialOfferUri opts)
         then Some (Offer.scheme r +:+ "://" +:+ Offer.baseUri r
                    +:+ "?credential_offer_uri="
                    +:+ default EmptyString (Opts.credentialOfferUri opts))
         else None.
Proof.
  unfold CredentialOfferUtils.createCredentialOfferObject.
  destruct (_ && _); [discriminate|].
  set (scheme := match Opts.scheme opts with Some s => _ | None => _ end).
  match goal with |- context [Js.bind ?b _] => destruct b as [base|] eqn:Hbase; [|discriminate] end.
  cbn [Js.bind].
  match goal with |- context [Js.bind ?b _] => destruct b as [p0|]; [|discriminate] end.
  cbn [Js.bind].
  destruct (applyGrants opts p0 rs) as [p1 rs1]. cbv beta iota.
  destruct (applyGrants opts p1 rs1) as [p2 rs2].
  intros [= <- <-]. cbn [Offer.baseUri Offer.scheme Offer.credential_offer_uri].
  exists base. split; [reflexivity|].
  destruct (truthy_str (Opts.baseUri opts)) eqn:Hb.
  - injection Hbase as <-. split; [|split; [discriminate | split; reflexivity]].
    intros _. destruct (Opts.baseUri opts); [reflexivity | discriminate].
  - split; [discriminate|]. split; [|split; reflexivity]. intros _.
    destruct (startsWith scheme "http").
    + revert Hbase.
      destruct (md ≫= Metadata.credential_issuer) as [issuer|];
        cbn [truthy_str default from_option id]; [|discriminate].
      destruct (String.eqb issuer EmptyString); cbn [negb]; [discriminate|].
      destruct (startsWith issuer (scheme +:+ "://")) eqn:Hp; cbn [negb]; [|discriminate].
      intros [= <-]. auto.
    + injection Hbase as <-. reflexivity.
Qed.

(** X11. With neither a [scheme] nor a (non-empty) [baseUri] option the offer
    uses the default deep-link scheme and an empty base URI, whatever the
    issuer metadata holds; a [credentialOfferUri] is then wrapped as
    [openid-credential-offer://?credential_offer_uri=<uri>]. *)
Theorem createCredentialOfferObject_default_scheme
    (md : option Metadata.t) (opts : Opts.t) (rs : RandomState)
    (r : Offer.t) (rs' : RandomState) :
  Opts.scheme opts = None ->
  truthy_str (Opts.baseUri opts) = false ->
  createCredentialOfferObject md opts rs = Ok (r, rs') ->
  Offer.scheme r = "openid-credential-offer"
  /\ Offer.baseUri r = EmptyString
  /\ Offer.credential_offer_uri r
     = if truthy_str (Opts.credentialOfferUri opts)
       then Some ("openid-credential-offer://?credential_offer_uri="
                  +:+ default EmptyString (Opts.credentialOfferUri opts))
       else None.
Proof.
  intros Hs Hb Hok.
  destruct (createCredentialOfferObject_members md opts rs r rs' Hok)
    as (base & Hbase & _ & Hnone & Hscheme & Huri).
  rewrite Hs in Hscheme.
  assert (Offer.scheme r = "openid-credential-offer") as Hdef.
  { rewrite Hscheme. destruct (Opts.baseUri opts) as [b|]; [|reflexivity].
    cbn in Hb. apply negb_false_iff, String.eqb_eq in Hb. subst b. reflexivity. }
  specialize (Hnone Hb). rewrite Hdef in Hnone. cbn in Hnone. subst base.
  rewrite Hdef in Hbase. cbn in Hbase.
  rewrite Huri, Hbase, Hdef. repeat split.
Qed.

(** X12. When no [baseUri] option is given and the scheme of the result is
    HTTP-like (starts with [http]), the issuer metadata carries a
    [credential_issuer], and it is exactly [scheme://baseUri] for the scheme
    and base URI returned. *)
Theorem createCredentialOfferObject_http_issuer
    (md : option Metadata.t) (opts : Opts.t) (rs : RandomState)
    (r : Offer.t) (rs' : RandomState) :
  truthy_str (Opts.baseUri opts) = false ->
  createCredentialOfferObject md opts rs = Ok (r, rs') ->
  startsWith (Offer.scheme r) "http" = true ->
  exists issuer,
    md ≫= Metadata.credential_issuer = Some issuer
    /\ issuer = Offer.scheme r +:+ "://" +:+ Offer.baseUri r.
Proof.
  intros Hb Hok Hhttp.
  destruct (createCredentialOfferObject_members md opts rs r rs' Hok)
    as (base & Hbase & _ & Hnone & _ & _).
  specialize (Hnone Hb). rewrite Hhttp in Hnone. destruct Hnone as [Hissuer Hprefix].
  exists base. split; [exact Hissuer|].
  unfold startsWith in Hprefix.
  rewrite Hbase, (replace_prefix _ _ _ Hprefix), append_empty_l, <- append_assoc.
  now apply prefix_split.
Qed.

(** ** The generator *)

Lemma applyGrants_generator_untouched opts p rs :
  truthy_str (Opts.preAuthorizedCode opts) = true
  \/ is_Some (Opts.issuerState opts)
  \/ has_issuer_state (grants_or_empty p) = true ->
  snd (applyGrants opts p rs) = rs.
Proof.
  unfold CredentialOfferUtils.applyGrants, has_issuer_state.
  destruct (truthy_str (Opts.preAuthorizedCode opts)); [reflexivity|].
  intros [H|[[s Hs]|H]]; [discriminate| |rewrite H; reflexivity].
  destruct (negb _); [|reflexivity].
  unfold CredentialOfferUtils.issuerState_or_uuid. rewrite Hs. reflexivity.
Qed.

Lemma has_issuer_state_kept opts p rs :
  has_issuer_state (grants_or_empty p) = true ->
  has_issuer_state (grants_or_empty (fst (applyGrants opts p rs))) = true
  \/ truthy_str (Opts.preAuthorizedCode opts) = true.
Proof.
  intros H. destruct (truthy_str (Opts.preAuthorizedCode opts)) eqn:Hpre; [auto|].
  left. rewrite (applyGrants_keep _ _ opts p rs Hpre H). exact H.
Qed.

(** X13. [uuidv4] is not called when a pre-authorized code is supplied, when
    an [issuerState] option is supplied, or when the supplied payload
    already carries an [authorization_code.issuer_state]: the generator
    state comes back unchanged. *)
Theorem createCredentialOfferObject_generator_untouched
    (md : option Metadata.t) (opts : Opts.t) (rs : RandomState)
    (r : Offer.t) (rs' : RandomState) :
  createCredentialOfferObject md opts rs = Ok (r, rs') ->
  truthy_str (Opts.preAuthorizedCode opts) = true
  \/ is_Some (Opts.issuerState opts)
  \/ (exists p, Opts.credentialOffer opts = Some p
                /\ has_issuer_state (grants_or_empty p) = true) ->
  rs' = rs.
Proof.
  intros Hok Hcase.
  destruct (createCredentialOfferObject_ok _ _ md opts rs r rs' Hok) as (p0 & Hp0 & Hr & _).
  apply (f_equal snd) in Hr. cbn [snd] in Hr. rewrite Hr.
  assert (truthy_str (Opts.preAuthorizedCode opts) = true
          \/ is_Some (Opts.issuerState opts)
          \/ has_issuer_state (grants_or_empty p0) = true) as Hcase0.
  { destruct Hcase as [H|[H|(p & Hp & H)]]; auto.
    rewrite Hp in Hp0. subst p0. auto. }
  rewrite (applyGrants_generator_untouched opts p0 rs Hcase0).
  apply applyGrants_generator_untouched.
  destruct Hcase0 as [H|[H|H]]; auto.
  destruct (has_issuer_state_kept opts p0 rs H); auto.
Qed.

(** X14. With no pre-authorized code, no [issuerState] option and no
    [issuer_state] on the payload, one identifier is drawn from the
    generator and, when it is not empty, it becomes the [issuer_state] of
    the only grant; the second run of the grants block draws nothing. *)
Theorem createCredentialOfferObject_fresh_issuer_state
    (md : option Metadata.t) (opts : Opts.t) (rs : RandomState)
    (r : Offer.t) (rs' : RandomState) :
  createCredentialOfferObject md opts rs = Ok (r, rs') ->
  truthy_str (Opts.preAuthorizedCode opts) = false ->
  Opts.issuerState opts = None ->
  (forall p, Opts.credentialOffer opts = Some p ->
             has_issuer_state (grants_or_empty p) = false) ->
  fst (uuidv4 rs) <> EmptyString ->
  Offer.grants r = authorizationCodeOnly (fst (uuidv4 rs))
  /\ rs' = snd (uuidv4 rs).
Proof.
  intros Hok Hpre Hstate Hpayload Hfresh.
  destruct (createCredentialOfferObject_ok _ _ md opts rs r rs' Hok) as (p0 & Hp0 & Hr & Hg).
  assert (has_issuer_state (grants_or_empty p0) = false) as Hnone.
  { destruct (Opts.credentialOffer opts) as [p|].
    - subst p0. now apply Hpayload.
    - unfold grants_or_empty. rewrite Hp0. reflexivity. }
  rewrite (applyGrants_authorization_code _ _ opts p0 rs Hpre Hnone) in Hr.
  cbn [fst snd] in Hr.
  assert (issuerState_or_uuid opts rs = uuidv4 rs) as Hdraw
    by (unfold CredentialOfferUtils.issuerState_or_uuid; rewrite Hstate; reflexivity).
  rewrite Hdraw in Hr.
  rewrite applyGrants_keep in Hr; [|exact Hpre|].
  - injection Hr as Hr ->. rewrite Hg, Hr. split; reflexivity.
  - rewrite grants_or_empty_set_grants. unfold has_issuer_state. cbn.
    apply String.eqb_neq in Hfresh. rewrite Hfresh. reflexivity.
Qed.

(** ** The payload *)

Lemma applyGrants_members opts p rs :
  let p' := fst (applyGrants opts p rs) in
  Payload.credential_issuer p' = Payload.credential_issuer p
  /\ Payload.credential_configuration_ids p' = Payload.credential_configuration_ids p
  /\ Payload.other_members p' = Payload.other_members p
  /\ is_Some (Payload.grants p').
Proof.
  unfold CredentialOfferUtils.applyGrants.
  destruct (truthy_str _); [cbn; eauto|].
  destruct (negb _); [|cbn; eauto].
  destruct (issuerState_or_uuid opts rs). cbn. eauto.
Qed.

(** X15. The grants are the only member of a supplied payload the call
    changes: issuer, configuration ids and every other member come back as
    supplied, and the [grants] member of the result is the grants map of the
    payload returned. *)
Theorem createCredentialOfferObject_payload_frame
    (md : option Metadata.t) (opts : Opts.t) (rs : RandomState)
    (p : Payload.t) (r : Offer.t) (rs' : RandomState) :
  Opts.credentialOffer opts = Some p ->
  createCredentialOfferObject md opts rs = Ok (r, rs') ->
  Payload.credential_issuer (Offer.credential_offer r) = Payload.credential_issuer p
  /\ Payload.credential_configuration_ids (Offer.credential_offer r)
     = Payload.credential_configuration_ids p
  /\ Payload.other_members (Offer.credential_offer r) = Payload.other_members p
  /\ Payload.grants (Offer.credential_offer r) = Some (Offer.grants r).
Proof.
  intros Hp Hok.
  destruct (createCredentialOfferObject_supplied _ _ md opts rs p r rs' Hp Hok) as [Hr Hg].
  apply (f_equal fst) in Hr. cbn [fst] in Hr.
  destruct (applyGrants_members opts p rs) as (H1 & H2 & H3 & _).
  destruct (applyGrants_members opts (fst (applyGrants opts p rs))
              (snd (applyGrants opts p rs))) as (K1 & K2 & K3 & [g K4]).
  rewrite <- Hr in K1, K2, K3, K4. rewrite Hg.
  unfold grants_or_empty. rewrite K4. repeat split; congruence.
Qed.

(** X16. Without a supplied payload the offer is built from the metadata:
    a success means the metadata carries
    [credential_configurations_supported], and the payload returned has the
    metadata's issuer and, as configuration ids, the keys of that object in
    their order. *)
Theorem createCredentialOfferObject_from_metadata
    (md : option Metadata.t) (opts : Opts.t) (rs : RandomState)
    (r : Offer.t) (rs' : RandomState) :
  Opts.credentialOffer opts = None ->
  createCredentialOfferObject md opts rs = Ok (r, rs') ->
  exists m configurations,
    md = Some m
    /\ Metadata.credential_configurations_supported m = Some configurations
    /\ Payload.credential_issuer (Offer.credential_offer r) = Metadata.credential_issuer m
    /\ Payload.credential_configuration_ids (Offer.credential_offer r)
       = obj_keys configurations
    /\ Payload.other_members (Offer.credential_offer r) = [].
Proof.
  intros Hnone. unfold CredentialOfferUtils.createCredentialOfferObject. rewrite Hnone.
  destruct (_ && _); [discriminate|].
  match goal with |- context [Js.bind ?b _] => destruct b as [base|]; [|discriminate] end.
  cbn [Js.bind].
  destruct md as [m|]; [|discriminate]. cbn [mbind option_bind].
  destruct (Metadata.credential_configurations_supported m) as [cfg|] eqn:Hcfg;
    [|discriminate].
  cbn [Js.bind].
  match goal with |- context [applyGrants opts ?p rs] => set (p0 := p) end.
  pose proof (applyGrants_members opts p0 rs) as (H1 & H2 & H3 & _).
  destruct (applyGrants opts p0 rs) as [p1 rs1]. cbv beta iota.
  pose proof (applyGrants_members opts p1 rs1) as (K1 & K2 & K3 & _).
  destruct (applyGrants opts p1 rs1) as [p2 rs2].
  intros [= <- <-]. cbn [fst Offer.credential_offer] in *.
  exists m, cfg. rewrite K1, K2, K3, H1, H2, H3. auto.
Qed.

(** ** From the offer object to the URI *)

Lemma includes_offer_uri (scheme baseUri uri : string) :
  includes (scheme +:+ "://" +:+ baseUri +:+ "?credential_offer_uri=" +:+ uri)
    "credential_offer_uri=" = true.
Proof.
  do 3 apply includes_append_l.
  change ("?credential_offer_uri=" +:+ uri)
    with ("?" +:+ "credential_offer_uri=" +:+ uri).
  apply includes_append_l, includes_prefix, prefix_append.
Qed.

Lemma includes_truthy (u pat : string) :
  includes u pat = true -> pat <> EmptyString -> truthy_str (Some u) = true.
Proof.
  intros Hin Hpat. cbn [truthy_str]. apply negb_true_iff, String.eqb_neq.
  intros ->. destruct pat; [congruence | discriminate].
Qed.

Lemma createCredentialOfferURIFromObject_marked o uopts u :
  OfferObject.credential_offer_uri o = Some u ->
  includes u "credential_offer_uri=" = true ->
  forall res, createCredentialOfferURIFromObject o uopts = Ok res -> res = u.
Proof.
  intros Hu Hin res. unfold CredentialOfferUtils.createCredentialOfferURIFromObject.
  destruct (_ && _); [discriminate|].
  rewrite Hu, (includes_truthy u _ Hin) by discriminate.
  cbn [default from_option id]. rewrite Hin. congruence.
Qed.

(** X17. When a [credentialOfferUri] is supplied, the [credential_offer_uri]
    of the object built is [scheme://baseUri?credential_offer_uri=<uri>], and
    [createCredentialOfferURIFromObject], given that object with any
    options, returns exactly this string whenever it returns: the payload
    is not serialised and the scheme and base URI are not applied twice. *)
Theorem createCredentialOfferURIFromObject_of_hosted_offer
    (md : option Metadata.t) (opts : Opts.t) (rs : RandomState)
    (r : Offer.t) (rs' : RandomState)
    (payload : value) (uopts : UriOpts.t) (res : string) :
  createCredentialOfferObject md opts rs = Ok (r, rs') ->
  truthy_str (Opts.credentialOfferUri opts) = true ->
  createCredentialOfferURIFromObject (OfferFlowSpec.offer_object r payload) uopts = Ok res ->
  Offer.credential_offer_uri r = Some res
  /\ res = Offer.scheme r +:+ "://" +:+ Offer.baseUri r +:+ "?credential_offer_uri="
           +:+ default EmptyString (Opts.credentialOfferUri opts).
Proof.
  intros Hok Huri Hres.
  destruct (createCredentialOfferObject_members md opts rs r rs' Hok)
    as (_ & _ & _ & _ & _ & Hu).
  rewrite Huri in Hu.
  rewrite (createCredentialOfferURIFromObject_marked
             (OfferFlowSpec.offer_object r payload) uopts _ Hu
             (includes_offer_uri _ _ _) res Hres).
  split; [exact Hu | reflexivity].
Qed.

End OfferFlowProofs.

Section HostedOfferProofs.
Import CredentialOfferUtils OfferFlowSpec.

Variable Number_toString : Z -> string.

Local Abbreviation createCredentialOfferURIFromObject :=
  (CredentialOfferUtils.createCredentialOfferURIFromObject Number_toString).

(** X18. [createCredentialOfferURIFromObject] cannot fail when no scheme is
    given by the options or the offer; whenever it fails, the scheme in use
    starts with [http] and the error is the missing-base-URI error naming
    that scheme. *)
Theorem createCredentialOfferURIFromObject_failure
    (o : OfferObject.t) (uopts : UriOpts.t) :
  (UriOpts.scheme uopts = None -> OfferObject.scheme o = None ->
   exists uri, createCredentialOfferURIFromObject o uopts = Ok uri)
  /\ (forall e, createCredentialOfferURIFromObject o uopts = Throw e ->
      exists scheme,
        startsWith scheme "http" = true
        /\ e = Error ("Cannot use scheme '" +:+ scheme
                      +:+ "' without providing a baseUri value")).
Proof.
  unfold CredentialOfferUtils.createCredentialOfferURIFromObject. split.
  - intros -> ->. cbn [startsWith andb].
    change (startsWith defaultScheme "http") with false. cbn [andb].
    destruct (truthy_str _); [destruct (includes _ _)|]; eauto.
  - intros e.
    match goal with |- context [startsWith ?s "http" && _] =>
      destruct (startsWith s "http") eqn:Hhttp; cbn [andb];
      [destruct (String.eqb _ EmptyString);
       [intros [= <-]; exists s; auto|]|]
    end;
    (destruct (truthy_str _); [destruct (includes _ _)|]; discriminate).
Qed.

(** X19. With a [credential_offer_uri] on the offer the payload plays no
    part in the result; every URI returned contains
    [credential_offer_uri=], so handing it back as the offer's
    [credential_offer_uri] returns it unchanged. *)
Theorem createCredentialOfferURIFromObject_hosted
    (o : OfferObject.t) (uopts : UriOpts.t) (payload : value) :
  truthy_str (OfferObject.credential_offer_uri o) = true ->
  createCredentialOfferURIFromObject (with_payload o payload) uopts
    = createCredentialOfferURIFromObject o uopts
  /\ forall res,
       createCredentialOfferURIFromObject o uopts = Ok res ->
       includes res "credential_offer_uri=" = true
       /\ createCredentialOfferURIFromObject (with_offer_uri o res) uopts = Ok res.
Proof.
  intros Huri. split.
  - unfold CredentialOfferUtils.createCredentialOfferURIFromObject, with_payload.
    cbn [OfferObject.credential_offer_uri OfferObject.scheme OfferObject.baseUri].
    rewrite Huri. reflexivity.
  - intros res Hres.
    assert (includes res "credential_offer_uri=" = true) as Hin.
    { revert Hres. unfold CredentialOfferUtils.createCredentialOfferURIFromObject.
      destruct (_ && _); [discriminate|]. rewrite Huri.
      destruct (includes _ _) eqn:Hin; intros [= <-];
        [exact Hin | apply includes_offer_uri]. }
    split; [exact Hin|].
    revert Hres. unfold CredentialOfferUtils.createCredentialOfferURIFromObject, with_offer_uri.
    cbn [OfferObject.credential_offer_uri OfferObject.scheme OfferObject.baseUri].
    destruct (_ && _); [discriminate|]. intros _.
    rewrite (includes_truthy res _ Hin) by discriminate.
    cbn [default from_option id]. rewrite Hin. reflexivity.
Qed.

(** X20. Wherever the arithmetic is exact (the clock, [createdAt], the
    duration, its product with 1000 and the expiry instant are safe
    integers), expiry is monotone: a session expired at some instant for
    some duration is expired at every later instant and for every shorter
    duration; the instant [createdAt + 1000 * duration] itself counts as
    expired, the millisecond before does not. *)
Theorem isPreAuthorizedCodeExpired_monotone
    (now later : Z) (state : CredentialOfferSession) (secs longer : Z) :
  (now <= later)%Z -> (secs <= longer)%Z ->
  isPreAuthorizedCodeExpired now state longer = Some true ->
  exact_expiry later state secs = true ->
  isPreAuthorizedCodeExpired later state secs = Some true
  /\ isPreAuthorizedCodeExpired (createdAt state + secs * 1000) state secs = Some true
  /\ (exact_expiry (createdAt state + secs * 1000 - 1) state secs = true ->
      isPreAuthorizedCodeExpired (createdAt state + secs * 1000 - 1) state secs
      = Some false).
Proof.
  unfold isPreAuthorizedCodeExpired. intros Hnow Hsecs Hexp Hexact.
  destruct (exact_expiry now state longer); [|discriminate].
  injection Hexp as Hexp. rewrite Z.geb_leb in Hexp. apply Z.leb_le in Hexp.
  rewrite Hexact, !Z.geb_leb.
  assert (exact_expiry (createdAt state + secs * 1000) state secs = true) as ->.
  { unfold exact_expiry in *.
    apply andb_true_iff in Hexact as [Hexact Hsum].
    apply andb_true_iff in Hexact as [Hexact Hproduct].
    apply andb_true_iff in Hexact as [Hexact Hduration].
    apply andb_true_iff in Hexact as [_ Hcreated].
    rewrite Hsum, Hcreated, Hduration, Hproduct. reflexivity. }
  split; [f_equal; apply Z.leb_le; lia|]. split; [f_equal; apply Z.leb_le; lia|].
  intros ->. f_equal. apply Z.leb_gt. lia.
Qed.

Lemma digits_pin_class (s : string) :
  s <> EmptyString -> digits s = true -> regex_test_class pin_class s = true.
Proof.
  destruct s as [|c s]; [congruence|]. intros _. cbn [digits regex_test_class].
  intros H. apply andb_true_iff in H as [H _]. unfold pin_class. rewrite H. reflexivity.
Qed.

(** X21. A PIN made of decimal digits only is accepted whatever its length,
    as are an absent and an empty PIN; the only error the check raises is
    [PIN_VALIDATION_ERROR]. *)
Theorem assertValidPinNumber_digits (msg : string) (s : string) :
  digits s = true ->
  assertValidPinNumber msg (Some s) = Ok tt
  /\ assertValidPinNumber msg None = Ok tt
  /\ forall pin e, assertValidPinNumber msg pin = Throw e -> e = Error msg.
Proof.
  intros Hd. split; [|split; [reflexivity|]].
  - apply assertValidPinNumber_accepts.
    destruct (String.eqb_spec s EmptyString) as [->|Hne]; [auto|].
    right. now apply digits_pin_class.
  - intros pin e. unfold assertValidPinNumber.
    destruct (_ && _); congruence.
Qed.

End HostedOfferProofs.

Section OfferFlowExamples.
Import CredentialOfferUtils OfferSpec OfferFlowSpec.

Local Abbreviation build :=
  (CredentialOfferUtils.createCredentialOfferObject nat sampleUuid).
Local Abbreviation offer_uri :=
  (CredentialOfferUtils.createCredentialOfferURIFromObject JsonSpec.digits_in_full).

Lemma createCredentialOfferObject_needs_source_witness :
  build None noOpts 0
  = Throw (Error "You have to provide issuerMetadata or credentialOffer object for creating a deeplink").
Proof.
  exact (proj2 (createCredentialOfferObject_needs_source nat sampleUuid noOpts 0 eq_refl)
           eq_refl).
Defined.

Lemma createCredentialOfferObject_default_scheme_witness :
  exists r rs',
    build (Some sampleMetadata) (hostedOpts "https://issuer.example.org/offers/1") 0
      = Ok (r, rs')
    /\ Offer.scheme r = "openid-credential-offer"
    /\ Offer.baseUri r = EmptyString
    /\ Offer.credential_offer_uri r
       = Some "openid-credential-offer://?credential_offer_uri=https://issuer.example.org/offers/1".
Proof.
  eexists; eexists. split; [reflexivity|].
  exact (createCredentialOfferObject_default_scheme nat sampleUuid
           (Some sampleMetadata) (hostedOpts "https://issuer.example.org/offers/1") 0
           _ _ eq_refl eq_refl eq_refl).
Defined.

Lemma createCredentialOfferObject_http_issuer_witness :
  exists r rs',
    build (Some sampleMetadata) (schemeOpts "https") 0 = Ok (r, rs')
    /\ Offer.scheme r = "https" /\ Offer.baseUri r = "issuer.example.org"
    /\ exists issuer,
         Some sampleMetadata ≫= Metadata.credential_issuer = Some issuer
         /\ issuer = Offer.scheme r +:+ "://" +:+ Offer.baseUri r.
Proof.
  eexists; eexists. split; [reflexivity|]. split; [reflexivity|]. split; [reflexivity|].
  exact (createCredentialOfferObject_http_issuer nat sampleUuid
           (Some sampleMetadata) (schemeOpts "https") 0 _ _ eq_refl eq_refl eq_refl).
Defined.

Lemma createCredentialOfferObject_generator_untouched_witness :
  exists r rs',
    build None (suppliedOpts (samplePayload (Some (authorizationCodeOnly "state-1"))) None) 0
      = Ok (r, rs')
    /\ rs' = 0.
Proof.
  eexists; eexists. split; [reflexivity|].
  apply (createCredentialOfferObject_generator_untouched nat sampleUuid None
           (suppliedOpts (samplePayload (Some (authorizationCodeOnly "state-1"))) None)
           0 _ _ eq_refl).
  right. right. eexists. split; reflexivity.
Defined.

Lemma createCredentialOfferObject_fresh_issuer_state_witness :
  exists r rs',
    build (Some sampleMetadata) noOpts 0 = Ok (r, rs')
    /\ Offer.grants r = authorizationCodeOnly "c0c4b7a4-1fd4-4d8e-9a46-5c8f7f4b3c11"
    /\ rs' = 1.
Proof.
  eexists; eexists. split; [reflexivity|].
  apply (createCredentialOfferObject_fresh_issuer_state nat sampleUuid
           (Some sampleMetadata) noOpts 0 _ _ eq_refl eq_refl eq_refl);
    [intros p Hp | ]; discriminate.
Defined.

Lemma createCredentialOfferObject_payload_frame_witness :
  exists r rs',
    build None (suppliedOpts (samplePayload None) (Some "abc")) 0 = Ok (r, rs')
    /\ Payload.credential_issuer (Offer.credential_offer r)
       = Some "https://issuer.example.org"
    /\ Payload.credential_configuration_ids (Offer.credential_offer r)
       = ["UniversityDegree_JWT"]
    /\ Payload.other_members (Offer.credential_offer r) = []
    /\ Payload.grants (Offer.credential_offer r) = Some (Offer.grants r).
Proof.
  eexists; eexists. split; [reflexivity|].
  exact (createCredentialOfferObject_payload_frame nat sampleUuid None
           (suppliedOpts (samplePayload None) (Some "abc")) 0 (samplePayload None)
           _ _ eq_refl eq_refl).
Defined.

Lemma createCredentialOfferObject_from_metadata_witness :
  exists r rs',
    build (Some sampleMetadata) noOpts 0 = Ok (r, rs')
    /\ exists m configurations,
         Some sampleMetadata = Some m
         /\ Metadata.credential_configurations_supported m = Some configurations
         /\ Payload.credential_issuer (Offer.credential_offer r)
            = Metadata.credential_issuer m
         /\ Payload.credential_configuration_ids (Offer.credential_offer r)
            = obj_keys configurations
         /\ Payload.other_members (Offer.credential_offer r) = [].
Proof.
  eexists; eexists. split; [reflexivity|].
  exact (createCredentialOfferObject_from_metadata nat sampleUuid
           (Some sampleMetadata) noOpts 0 _ _ eq_refl eq_refl).
Defined.

Lemma createCredentialOfferURIFromObject_of_hosted_offer_witness :
  exists r rs',
    build (Some sampleMetadata) (hostedOpts "https://issuer.example.org/offers/1") 0
      = Ok (r, rs')
    /\ offer_uri (offer_object r JsonSpec.sampleOffer)
         JsonSpec.noUriOpts
       = Ok "openid-credential-offer://?credential_offer_uri=https://issuer.example.org/offers/1"
    /\ Offer.credential_offer_uri r
       = Some "openid-credential-offer://?credential_offer_uri=https://issuer.example.org/offers/1".
Proof.
  eexists; eexists. split; [reflexivity|]. split; [reflexivity|].
  exact (proj1 (createCredentialOfferURIFromObject_of_hosted_offer nat sampleUuid
                  JsonSpec.digits_in_full (Some sampleMetadata)
                  (hostedOpts "https://issuer.example.org/offers/1") 0 _ _
                  JsonSpec.sampleOffer JsonSpec.noUriOpts _ eq_refl eq_refl eq_refl)).
Defined.

Lemma createCredentialOfferURIFromObject_hosted_witness :
  offer_uri
    (with_payload (hostedOfferObject "https://issuer.example.org/offers/1")
       JsonSpec.sampleOffer)
    JsonSpec.noUriOpts
  = Ok "openid-credential-offer://?credential_offer_uri=https://issuer.example.org/offers/1".
Proof.
  rewrite (proj1 (createCredentialOfferURIFromObject_hosted JsonSpec.digits_in_full
                    (hostedOfferObject "https://issuer.example.org/offers/1")
                    JsonSpec.noUriOpts JsonSpec.sampleOffer eq_refl)).
  reflexivity.
Defined.

Lemma isPreAuthorizedCodeExpired_monotone_witness :
  isPreAuthorizedCodeExpired 1700000300000 sampleSession 300 = Some true
  /\ isPreAuthorizedCodeExpired 1700000400000 sampleSession 60 = Some true.
Proof.
  split; [reflexivity|].
  apply (isPreAuthorizedCodeExpired_monotone 1700000300000 1700000400000
           sampleSession 60 300); [lia | lia | reflexivity | reflexivity].
Defined.

Lemma assertValidPinNumber_digits_witness :
  digits "0042" = true
  /\ assertValidPinNumber "PIN must consist of maximum 8 numeric characters" (Some "0042")
     = Ok tt.
Proof.
  split; [reflexivity|].
  apply (assertValidPinNumber_digits
           "PIN must consist of maximum 8 numeric characters" "0042" eq_refl).
Defined.

End OfferFlowExamples.

(* ===================================================================== *)
(** * CredentialRequestUtil: types and versions *)
(* ===================================================================== *)

Lemma head_filter_find {A : Type} (p : A -> bool) (l : list A) :
  head (List.filter p l) = List.find p l.
Proof.
  induction l as [|a l IH]; [reflexivity|].
  cbn [List.filter List.find]. destruct (p a); [reflexivity | exact IH].
Qed.

Section RequestFlowProofs.
Import CredentialRequestUtil RequestFlowSpec.

Variable getFormatForVersion : string -> OpenId4VCIVersion -> result string.

Local Abbreviation getCredentialRequestForVersion :=
  (CredentialRequestUtil.getCredentialRequestForVersion getFormatForVersion).

(** The filter is the last step, after every check. *)
Lemma getTypesFromRequest_true req :
  getTypesFromRequest req true
  = let* ts := getTypesFromRequest req false in
    Ok (List.filter notVerifiableCredential ts).
Proof.
  unfold getTypesFromRequest.
  match goal with |- Js.bind ?b _ = _ => destruct b as [[ts|]|e] end;
    cbn [Js.bind]; try reflexivity.
  destruct (length ts =? 0)%nat; reflexivity.
Qed.

(** X22. The list returned without the filter is never empty, and the
    filtered call returns that list without its ["VerifiableCredential"]
    entries, which may leave nothing: the emptiness check comes before the
    filter.  The filtered call fails exactly as the unfiltered one. *)
Theorem getTypesFromRequest_filter
    (req : UniformCredentialRequest) (ts : list string) :
  getTypesFromRequest req false = Ok ts ->
  ts <> []
  /\ getTypesFromRequest req true = Ok (List.filter notVerifiableCredential ts)
  /\ ~ In "VerifiableCredential" (List.filter notVerifiableCredential ts)
  /\ forall req' e, getTypesFromRequest req' false = Throw e <->
                    getTypesFromRequest req' true = Throw e.
Proof.
  intros Hts. split; [|split; [|split]].
  - revert Hts. unfold getTypesFromRequest.
    match goal with |- Js.bind ?b _ = _ -> _ => destruct b as [[l|]|e] end;
      cbn [Js.bind]; try discriminate.
    destruct l; [discriminate|]. cbn. now intros [= <-].
  - rewrite getTypesFromRequest_true, Hts. reflexivity.
  - intros Hin. apply List.filter_In in Hin as [_ Hin]. discriminate.
  - intros req' e. rewrite getTypesFromRequest_true.
    destruct (getTypesFromRequest req' false); cbn [Js.bind]; split;
      intros H; (discriminate || exact H).
Qed.

(** X23. Types are deduced for five formats only: a call on any other
    format fails with the could-not-deduce error.  For [vc+sd-jwt] the
    unfiltered result is the one-element list holding [vct], and reading a
    missing [credential_definition] is a [TypeError]. *)
Theorem getTypesFromRequest_formats
    (req : UniformCredentialRequest) (filter : bool) (ts : list string) :
  getTypesFromRequest req filter = Ok ts ->
  In (format req) supported_formats
  /\ (format req = "vc+sd-jwt" ->
      exists cd, credential_definition req = Some cd
                 /\ getTypesFromRequest req false = Ok [CredentialDefinition.vct cd])
  /\ forall req',
       (~ In (format req') supported_formats ->
        getTypesFromRequest req' filter
        = Throw (Error "Could not deduce types from credential request"))
       /\ (In (format req') definition_formats ->
           credential_definition req' = None ->
           getTypesFromRequest req' filter = Throw TypeError).
Proof.
  intros Hok. split; [|split].
  - revert Hok. unfold getTypesFromRequest, supported_formats.
    destruct (String.eqb_spec (format req) "jwt_vc_json") as [->|_]; [cbn; auto|].
    destruct (String.eqb_spec (format req) "jwt_vc") as [->|_]; [cbn; auto|].
    destruct (String.eqb_spec (format req) "jwt_vc_json-ld") as [->|_]; [cbn; auto|].
    destruct (String.eqb_spec (format req) "ldp_vc") as [->|_]; [cbn; auto 6|].
    destruct (String.eqb_spec (format req) "vc+sd-jwt") as [->|_]; [cbn; auto 6|].
    cbn. discriminate.
  - intros Hfmt. revert Hok. unfold getTypesFromRequest. rewrite Hfmt.
    cbn [String.eqb Ascii.eqb Bool.eqb orb].
    destruct (credential_definition req) as [cd|]; [|discriminate].
    intros _. exists cd. split; reflexivity.
  - intros req'. split.
    + unfold getTypesFromRequest, supported_formats. intros Hnot.
      destruct (String.eqb_spec (format req') "jwt_vc_json") as [E|_];
        [exfalso; apply Hnot; rewrite E; cbn; auto|].
      destruct (String.eqb_spec (format req') "jwt_vc") as [E|_];
        [exfalso; apply Hnot; rewrite E; cbn; auto|].
      destruct (String.eqb_spec (format req') "jwt_vc_json-ld") as [E|_];
        [exfalso; apply Hnot; rewrite E; cbn; auto|].
      destruct (String.eqb_spec (format req') "ldp_vc") as [E|_];
        [exfalso; apply Hnot; rewrite E; cbn; auto 6|].
      destruct (String.eqb_spec (format req') "vc+sd-jwt") as [E|_];
        [exfalso; apply Hnot; rewrite E; cbn; auto 6|].
      reflexivity.
    + unfold getTypesFromRequest, definition_formats.
      intros [E|[E|[E|[]]]] Hnone; rewrite <- E, Hnone; reflexivity.
Qed.

(** X24. A draft-8 request is built from the format [getFormatForVersion]
    returns, the proof of the request, and as [type] the first of the
    request's types that is not ["VerifiableCredential"] (absent when there
    is none). *)
Theorem getCredentialRequestForVersion_draft8
    (req : UniformCredentialRequest) (c : CredentialRequest) :
  getCredentialRequestForVersion req VER_1_0_08 = Ok c ->
  exists draft8Format ts,
    getFormatForVersion (format req) VER_1_0_08 = Ok draft8Format
    /\ getTypesFromRequest req false = Ok ts
    /\ c = Draft08 {| format_08 := draft8Format;
                      proof_08 := proof req;
                      type_08 := List.find notVerifiableCredential ts |}.
Proof.
  unfold CredentialRequestUtil.getCredentialRequestForVersion. cbn [version_eqb].
  destruct (getFormatForVersion (format req) VER_1_0_08) as [f|]; [|discriminate].
  cbn [Js.bind]. rewrite getTypesFromRequest_true.
  destruct (getTypesFromRequest req false) as [ts|]; [|discriminate].
  cbn [Js.bind]. intros [= <-]. exists f, ts. rewrite head_filter_find. auto.
Qed.

(** X25. For every version other than draft 8 the request is returned as it
    is, and neither [getFormatForVersion] nor [getTypesFromRequest] is
    consulted; for draft 8 the format is converted first, so an error of
    [getFormatForVersion] is the error of the call whatever the types. *)
Theorem getCredentialRequestForVersion_other_versions
    (req : UniformCredentialRequest) (version : OpenId4VCIVersion) :
  version <> VER_1_0_08 ->
  getCredentialRequestForVersion req version = Ok (Uniform req)
  /\ forall req' e,
       getFormatForVersion (format req') VER_1_0_08 = Throw e ->
       getCredentialRequestForVersion req' VER_1_0_08 = Throw e.
Proof.
  intros Hv. unfold CredentialRequestUtil.getCredentialRequestForVersion. split.
  - destruct version; try reflexivity. congruence.
  - intros req' e ->. reflexivity.
Qed.

End RequestFlowProofs.

Section RequestFlowExamples.
Import CredentialRequestUtil RequestSpec RequestFlowSpec.

Lemma getTypesFromRequest_filter_witness :
  getTypesFromRequest degreeRequest true = Ok ["UniversityDegreeCredential"].
Proof.
  exact (proj1 (proj2 (getTypesFromRequest_filter degreeRequest
                         ["VerifiableCredential"; "UniversityDegreeCredential"] eq_refl))).
Defined.

Lemma getTypesFromRequest_formats_witness :
  In (format sdJwtRequest) supported_formats
  /\ getTypesFromRequest ldpRequest false = Throw TypeError.
Proof.
  destruct (getTypesFromRequest_formats sdJwtRequest false
              ["https://credentials.example.org/identity"] eq_refl)
    as (Hin & _ & Hfail).
  split; [exact Hin|].
  apply (proj2 (Hfail ldpRequest)); [cbn; auto | reflexivity].
Defined.

Lemma getCredentialRequestForVersion_draft8_witness :
  exists draft8Format ts,
    sampleFormatForVersion (format degreeRequest) VER_1_0_08 = Ok draft8Format
    /\ getTypesFromRequest degreeRequest false = Ok ts
    /\ Draft08 {| format_08 := "jwt_vc";
                  proof_08 := JObject [("proof_type", JString "jwt")];
                  type_08 := Some "UniversityDegreeCredential" |}
       = Draft08 {| format_08 := draft8Format;
                    proof_08 := proof degreeRequest;
                    type_08 := List.find notVerifiableCredential ts |}.
Proof.
  exact (getCredentialRequestForVersion_draft8 sampleFormatForVersion degreeRequest _
           eq_refl).
Defined.

Lemma getCredentialRequestForVersion_other_versions_witness :
  CredentialRequestUtil.getCredentialRequestForVersion failingFormatForVersion
    degreeRequest VER_1_0_13
  = Ok (Uniform degreeRequest).
Proof.
  apply (getCredentialRequestForVersion_other_versions failingFormatForVersion
           degreeRequest VER_1_0_13).
  discriminate.
Defined.

End RequestFlowExamples.

(* ===================================================================== *)
(** * JwtVerifier: the raw token *)
(* ===================================================================== *)

Section RawTokenProofs.
Import JwtVerifier VerifierSpec ResolverSpec.

Variable DigestAlgorithm : Type.
Variable digestOf : string -> result DigestAlgorithm.
Variable thumbprintOf : value -> DigestAlgorithm -> result string.
Variable parseJWT : string -> result Jwt.

Local Abbreviation getJwtVerifierWithContext :=
  (JwtVerifier.getJwtVerifierWithContext DigestAlgorithm digestOf thumbprintOf).
Local Abbreviation getRequestObjectJwtVerifier :=
  (JwtVerifier.getRequestObjectJwtVerifier DigestAlgorithm digestOf thumbprintOf parseJWT).

(** X26. The raw token is read under scheme [redirect_uri] only: under every
    other scheme two calls that differ in the raw token alone agree.  Scheme
    [pre-registered], like an absent or empty scheme, is plain
    auto-detection. *)
Theorem raw_token_only_under_redirect_uri (j : Jwt) (raw raw' : string) :
  client_id_scheme (payload j) <> Some "redirect_uri" ->
  getRequestObjectJwtVerifier j raw = getRequestObjectJwtVerifier j raw'
  /\ (client_id_scheme (payload j) = Some "pre-registered"
      \/ truthy_str (client_id_scheme (payload j)) = false ->
      getRequestObjectJwtVerifier j raw = getJwtVerifierWithContext j request_object).
Proof.
  intros Hscheme. unfold JwtVerifier.getRequestObjectJwtVerifier. split.
  - destruct (negb (truthy_str _)); [reflexivity|].
    destruct (opt_str_eqb _ (Some "did")); [reflexivity|].
    destruct (opt_str_eqb _ (Some "pre-registered")); [reflexivity|].
    destruct (_ || _); [reflexivity|].
    destruct (opt_str_eqb _ (Some "redirect_uri")) eqn:Hr; [|reflexivity].
    apply opt_str_eqb_eq in Hr. contradiction.
  - intros [Hpre | Hnone].
    + rewrite Hpre. reflexivity.
    + rewrite Hnone. reflexivity.
Qed.

End RawTokenProofs.

Section RawTokenExamples.
Import JwtVerifier VerifierSpec ResolverSpec.

Local Abbreviation resolve :=
  (JwtVerifier.getRequestObjectJwtVerifier unit sampleDigest sampleThumbprint
     (parseAs sampleIdToken)).

Lemma raw_token_only_under_redirect_uri_witness :
  resolve (requestWith x5cHeader (Some "pre-registered") None) "e30.e30.c2ln"
  = resolve (requestWith x5cHeader (Some "pre-registered") None) "e30.e30".
Proof.
  refine (proj1 (raw_token_only_under_redirect_uri unit sampleDigest sampleThumbprint
                   (parseAs sampleIdToken)
                   (requestWith x5cHeader (Some "pre-registered") None)
                   "e30.e30.c2ln" "e30.e30" _)).
  discriminate.
Defined.

End RawTokenExamples.
